(** * ComfyUI workflow plugin: shallow embedding and verified properties

    The development follows the two core modules of the plugin:

    - [workflow_parser.py]: the workflow registry, the node classifier
      ([_analyze_workflow_nodes], [_classify_clip_nodes]), the link tracer
      ([_trace_link_source]) and the preparer ([prepare_workflow]);
    - [comfyui_client.py]: the seed enforcer
      ([_enforce_deterministic_workflow]) and the job orchestrator
      ([wait_for_completion], [execute_workflow]).

    Workflows are JSON documents.  Python dictionaries keep insertion order
    and the code depends on it (sampler encounter order, first seed met,
    last writer wins), so a dictionary is an association list. *)

From Stdlib Require Import ZArith String Ascii List Bool Lia.
From Stdlib Require Import Floats.SpecFloat QArith.
From Stdlib Require Init.Byte.
From stdpp Require Import base option list strings pretty sorting gmap.

Local Open Scope string_scope.
Local Open Scope Z_scope.

(** ** JSON values as Python sees them after [json.load] *)

#[local] Set Warnings "-register-all".

Inductive json : Type :=
| JNull
| JBool (b : bool)
| JInt (z : Z)
| JFloat (f : spec_float)
| JStr (s : string)
| JList (l : list json)
| JDict (d : list (string * json)).

Abbreviation dict := (list (string * json)).

(** ** Exceptions and the error monad of read-only code *)

Inductive exn : Type :=
| AttributeError
| TypeError
| KeyError
| ValueError
| OverflowError
| OSError.

Inductive outcome (A : Type) : Type :=
| Ok (a : A)
| Raise (e : exn).

Arguments Ok {A} a.
Arguments Raise {A} e.

Definition obind {A B} (c : outcome A) (k : A -> outcome B) : outcome B :=
  match c with
  | Ok a => k a
  | Raise e => Raise e
  end.

Declare Scope py_scope.
Delimit Scope py_scope with py.
Notation "x <- c ;; k" := (obind c (fun x => k))
  (at level 20, c at level 99, k at level 200, only parsing) : py_scope.
Local Open Scope py_scope.

Definition is_ok {A} (c : outcome A) : bool :=
  match c with Ok _ => true | Raise _ => false end.

(** ** Python primitives used by the plugin *)

Module Py.

(** [d.get(k)] / [d[k]] on an ordered dictionary: first binding of [k]. *)
Fixpoint dict_get (d : dict) (k : string) : option json :=
  match d with
  | [] => None
  | (k', v) :: t => if String.eqb k' k then Some v else dict_get t k
  end.

(** [k in d]. *)
Definition dict_has (d : dict) (k : string) : bool :=
  match dict_get d k with Some _ => true | None => false end.

(** [d[k] = v]: an existing key keeps its position, a new key goes last. *)
Fixpoint dict_set (d : dict) (k : string) (v : json) : dict :=
  match d with
  | [] => [(k, v)]
  | (k', v') :: t =>
      if String.eqb k' k then (k', v) :: t else (k', v') :: dict_set t k v
  end.

(** [x.get(k, default)]: only dictionaries have the method. *)
Definition get (x : json) (k : string) (default : json) : outcome json :=
  match x with
  | JDict d => Ok (match dict_get d k with Some v => v | None => default end)
  | _ => Raise AttributeError
  end.

(** [x.values()]. *)
Definition values (x : json) : outcome (list json) :=
  match x with
  | JDict d => Ok (map snd d)
  | _ => Raise AttributeError
  end.

(** [s.lower()].  Strings are UTF-8 byte strings; only A-Z are folded.
    No character outside ASCII lower-cases into a letter of the keywords
    tested by the plugin, so the substring tests below are unaffected. *)
Definition lower_ascii (c : ascii) : ascii :=
  let n := nat_of_ascii c in
  if (Nat.leb 65 n && Nat.leb n 90)%bool then ascii_of_nat (n + 32) else c.

Fixpoint lower (s : string) : string :=
  match s with
  | EmptyString => EmptyString
  | String c t => String (lower_ascii c) (lower t)
  end.

(** [needle in hay] on strings. *)
Fixpoint contains (needle hay : string) : bool :=
  (String.prefix needle hay
   || match hay with
      | EmptyString => false
      | String _ t => contains needle t
      end)%bool.

(** [x.lower()] on an arbitrary value. *)
Definition lower_of (x : json) : outcome string :=
  match x with
  | JStr s => Ok (lower s)
  | _ => Raise AttributeError
  end.

(** [x in tys] for a list [tys] of strings: list membership by [==]. *)
Definition in_types (x : json) (tys : list string) : bool :=
  match x with
  | JStr s => bool_decide (s ∈ tys)
  | _ => false
  end.

(** Truthiness of [str | None]. *)
Definition truthy (o : option string) : bool :=
  match o with
  | Some s => negb (String.eqb s "")
  | None => false
  end.

(** [isinstance(v, list) and len(v) >= n]. *)
Definition is_list_ge (n : nat) (v : json) : bool :=
  match v with
  | JList l => Nat.leb n (length l)
  | _ => false
  end.

(** [x[k]] with a string subscript. *)
Definition getitem (x : json) (k : string) : outcome json :=
  match x with
  | JDict d =>
      match dict_get d k with
      | Some v => Ok v
      | None => Raise KeyError
      end
  | _ => Raise TypeError
  end.

(** [x[k] = v] with a string subscript. *)
Definition setitem (x : json) (k : string) (v : json) : outcome json :=
  match x with
  | JDict d => Ok (JDict (dict_set d k v))
  | _ => Raise TypeError
  end.

Definition is_str (k : string) (e : json) : bool :=
  match e with
  | JStr s => String.eqb s k
  | _ => false
  end.

(** [k in x] for a string [k]: key of a dictionary, element of a list,
    substring of a string; other values are not containers. *)
Definition py_in (k : string) (x : json) : outcome bool :=
  match x with
  | JDict d => Ok (dict_has d k)
  | JList l => Ok (existsb (is_str k) l)
  | JStr s => Ok (contains k s)
  | _ => Raise TypeError
  end.

Fixpoint chars (s : string) : list json :=
  match s with
  | EmptyString => []
  | String c t => JStr (String c EmptyString) :: chars t
  end.

(** [for e in x]: the elements that iteration yields. *)
Definition iter (x : json) : outcome (list json) :=
  match x with
  | JDict d => Ok (map (fun kv => JStr (fst kv)) d)
  | JList l => Ok l
  | JStr s => Ok (chars s)
  | _ => Raise TypeError
  end.

(** [isinstance(v, (int, float))]; [bool] is a subclass of [int]. *)
Definition is_number (v : json) : bool :=
  match v with
  | JInt _ | JBool _ | JFloat _ => true
  | _ => false
  end.

Definition sign (s : bool) (z : Z) : Z := if s then - z else z.

(** [f == z] for a float [f] and an integer [z]: exact comparison. *)
Definition float_eq_Z (f : spec_float) (z : Z) : bool :=
  match f with
  | S754_zero _ => z =? 0
  | S754_infinity _ | S754_nan => false
  | S754_finite s m e =>
      if 0 <=? e then sign s (Z.pos m * 2 ^ e) =? z
      else ((Z.pos m mod 2 ^ (- e) =? 0)
            && (sign s (Z.pos m / 2 ^ (- e)) =? z))%bool
  end.

(** [v == z] for an integer literal [z] other than 0 and 1. *)
Definition eq_int (v : json) (z : Z) : bool :=
  match v with
  | JInt n => n =? z
  | JFloat f => float_eq_Z f z
  | _ => false
  end.

(** [int(v)] on a number: truncation toward zero; NaN and the infinities
    raise.  The plugin applies [int] only to values that passed
    [isinstance(v, (int, float))] or that it has just drawn. *)
Definition int (v : json) : outcome Z :=
  match v with
  | JInt n => Ok n
  | JBool b => Ok (if b then 1 else 0)
  | JFloat (S754_zero _) => Ok 0
  | JFloat (S754_infinity _) => Raise OverflowError
  | JFloat S754_nan => Raise ValueError
  | JFloat (S754_finite s m e) =>
      Ok (sign s (if 0 <=? e then Z.pos m * 2 ^ e
                  else Z.pos m / 2 ^ (- e)))
  | JNull | JStr _ | JList _ | JDict _ => Raise TypeError
  end.

(** Truthiness of an arbitrary value. *)
Definition truthy_json (v : json) : bool :=
  match v with
  | JNull => false
  | JBool b => b
  | JInt z => negb (z =? 0)
  | JFloat (S754_zero _) => false
  | JFloat _ => true
  | JStr s => negb (String.eqb s "")
  | JList l => negb (Nat.eqb (length l) 0)
  | JDict d => negb (Nat.eqb (length d) 0)
  end.

(** Truthiness of [int | None]. *)
Definition truthy_int (o : option Z) : bool :=
  match o with
  | Some z => negb (z =? 0)
  | None => false
  end.

(** [a or b] on [int | None]. *)
Definition or_int (a b : option Z) : option Z :=
  if truthy_int a then a else b.

End Py.

(** ** WorkflowNodeMapping and WorkflowInfo *)

Record WorkflowNodeMapping : Type := {
  positive_prompt_node : option string;
  negative_prompt_node : option string;
  latent_image_node : option string;
  sampler_node : option string;
  sampler_nodes : list string;
  load_image_node : option string;
  output_node : option string;
  positive_prompt_field : string;
  negative_prompt_field : string;
  has_tensorrt : bool
}.

Definition default_mapping : WorkflowNodeMapping := {|
  positive_prompt_node := None;
  negative_prompt_node := None;
  latent_image_node := None;
  sampler_node := None;
  sampler_nodes := [];
  load_image_node := None;
  output_node := None;
  positive_prompt_field := "text";
  negative_prompt_field := "text";
  has_tensorrt := false
|}.

Definition set_positive (m : WorkflowNodeMapping) (v : string) :=
  {| positive_prompt_node := Some v;
     negative_prompt_node := negative_prompt_node m;
     latent_image_node := latent_image_node m;
     sampler_node := sampler_node m;
     sampler_nodes := sampler_nodes m;
     load_image_node := load_image_node m;
     output_node := output_node m;
     positive_prompt_field := positive_prompt_field m;
     negative_prompt_field := negative_prompt_field m;
     has_tensorrt := has_tensorrt m |}.

Definition set_negative (m : WorkflowNodeMapping) (v : string) :=
  {| positive_prompt_node := positive_prompt_node m;
     negative_prompt_node := Some v;
     latent_image_node := latent_image_node m;
     sampler_node := sampler_node m;
     sampler_nodes := sampler_nodes m;
     load_image_node := load_image_node m;
     output_node := output_node m;
     positive_prompt_field := positive_prompt_field m;
     negative_prompt_field := negative_prompt_field m;
     has_tensorrt := has_tensorrt m |}.

Definition set_latent (m : WorkflowNodeMapping) (v : string) :=
  {| positive_prompt_node := positive_prompt_node m;
     negative_prompt_node := negative_prompt_node m;
     latent_image_node := Some v;
     sampler_node := sampler_node m;
     sampler_nodes := sampler_nodes m;
     load_image_node := load_image_node m;
     output_node := output_node m;
     positive_prompt_field := positive_prompt_field m;
     negative_prompt_field := negative_prompt_field m;
     has_tensorrt := has_tensorrt m |}.

(** [sampler_nodes.append(v)], and [sampler_node = v] unless one is set. *)
Definition add_sampler (m : WorkflowNodeMapping) (v : string) :=
  {| positive_prompt_node := positive_prompt_node m;
     negative_prompt_node := negative_prompt_node m;
     latent_image_node := latent_image_node m;
     sampler_node :=
       if Py.truthy (sampler_node m) then sampler_node m else Some v;
     sampler_nodes := (sampler_nodes m ++ [v])%list;
     load_image_node := load_image_node m;
     output_node := output_node m;
     positive_prompt_field := positive_prompt_field m;
     negative_prompt_field := negative_prompt_field m;
     has_tensorrt := has_tensorrt m |}.

Definition set_load_image (m : WorkflowNodeMapping) (v : string) :=
  {| positive_prompt_node := positive_prompt_node m;
     negative_prompt_node := negative_prompt_node m;
     latent_image_node := latent_image_node m;
     sampler_node := sampler_node m;
     sampler_nodes := sampler_nodes m;
     load_image_node := Some v;
     output_node := output_node m;
     positive_prompt_field := positive_prompt_field m;
     negative_prompt_field := negative_prompt_field m;
     has_tensorrt := has_tensorrt m |}.

Definition set_output (m : WorkflowNodeMapping) (v : string) :=
  {| positive_prompt_node := positive_prompt_node m;
     negative_prompt_node := negative_prompt_node m;
     latent_image_node := latent_image_node m;
     sampler_node := sampler_node m;
     sampler_nodes := sampler_nodes m;
     load_image_node := load_image_node m;
     output_node := Some v;
     positive_prompt_field := positive_prompt_field m;
     negative_prompt_field := negative_prompt_field m;
     has_tensorrt := has_tensorrt m |}.

Definition set_tensorrt (m : WorkflowNodeMapping) :=
  {| positive_prompt_node := positive_prompt_node m;
     negative_prompt_node := negative_prompt_node m;
     latent_image_node := latent_image_node m;
     sampler_node := sampler_node m;
     sampler_nodes := sampler_nodes m;
     load_image_node := load_image_node m;
     output_node := output_node m;
     positive_prompt_field := positive_prompt_field m;
     negative_prompt_field := negative_prompt_field m;
     has_tensorrt := true |}.

(** ** Class-type taxonomies of [WorkflowParser] *)

Definition CLIP_TEXT_ENCODE_TYPES : list string :=
  ["CLIPTextEncode"; "CLIPTextEncodeSDXL"; "AdvancedCLIPTextEncode";
   "CLIPTextEncodeSD3"; "BNK_CLIPTextEncodeAdvanced"].

Definition LATENT_IMAGE_TYPES : list string :=
  ["EmptyLatentImage"; "EmptySD3LatentImage"; "EmptyLatentImagePresets"].

Definition SAMPLER_TYPES : list string :=
  ["KSampler"; "KSamplerAdvanced"; "SamplerCustom"; "SamplerCustomAdvanced";
   "KSampler (Efficient)"; "KSamplerSelect"].

Definition LOAD_IMAGE_TYPES : list string :=
  ["LoadImage"; "LoadImageMask"; "LoadImageFromUrl"].

Definition OUTPUT_TYPES : list string :=
  ["PreviewImage"; "SaveImage"; "SaveImageWebsocket"].

Definition TRT_LOADER_TYPES : list string :=
  ["TensorRT Loader"; "TensorRTLoader"; "TensorRTLoaderSD3";
   "TensorRTLoaderFlux"].

Definition PASSTHROUGH_TYPES : list string :=
  ["Reroute"; "RerouteTextForCLIPTextEncodeForSDXL"].

(** ** The link tracer and the classifier ([workflow_parser.py]) *)

Section Classifier.

(** Python's [repr] of floats and containers, used by [str(link_ref[0])]
    when a link names its source by something else than a string or an
    integer.  It is a builtin of the language, taken as a parameter. *)
Variable py_repr : json -> string.

(** [str(v)]. *)
Definition py_str (v : json) : string :=
  match v with
  | JStr s => s
  | JInt z => pretty z
  | JBool true => "True"
  | JBool false => "False"
  | JNull => "None"
  | _ => py_repr v
  end.

(** [_trace_link_source].  The depth budget is the structural argument:
    [O] is [max_depth <= 0]. *)
Fixpoint trace_link_source (max_depth : nat) (link_ref : json)
    (workflow_data : dict) (target_types : list string)
    : outcome (option string) :=
  match max_depth with
  | O => Ok None
  | S depth' =>
      match link_ref with
      | JList (v :: _) =>
          let source_id := py_str v in
          match Py.dict_get workflow_data source_id with
          | None => Ok None
          | Some source_node =>
              source_class <- Py.get source_node "class_type" (JStr "") ;;
              if Py.in_types source_class target_types then
                Ok (Some source_id)
              else if Py.in_types source_class PASSTHROUGH_TYPES then
                (inputs <- Py.get source_node "inputs" (JDict []) ;;
                 vals <- Py.values inputs ;;
                 match List.find (Py.is_list_ge 2) vals with
                 | Some value =>
                     trace_link_source depth' value workflow_data target_types
                 | None => Ok (Some source_id)
                 end)
              else Ok (Some source_id)
          end
      | _ => Ok None
      end
  end.

(** The method as called, with Python's integer depth (default 10). *)
Definition _trace_link_source (link_ref : json) (workflow_data : dict)
    (target_types : list string) (max_depth : Z) : outcome (option string) :=
  trace_link_source (Z.to_nat max_depth) link_ref workflow_data target_types.

Definition default_max_depth : Z := 10.

(** [node_id in (mapping.positive_prompt_node, mapping.negative_prompt_node)] *)
Definition already_assigned (m : WorkflowNodeMapping) (node_id : string)
    : bool :=
  bool_decide (positive_prompt_node m = Some node_id)
  || bool_decide (negative_prompt_node m = Some node_id).

(** Lines 183-188 (and 190-195): one polarity resolved from the primary
    sampler's link.  Returns the node id to assign, if any. *)
Definition resolve_polarity (ref : json) (workflow_data : dict)
    (clip_node_ids : list string) : outcome (option string) :=
  match ref with
  | JList (v :: _) =>
      traced <- _trace_link_source ref workflow_data CLIP_TEXT_ENCODE_TYPES
                  default_max_depth ;;
      if Py.truthy traced && bool_decide (traced ∈ Some <$> clip_node_ids)
      then Ok traced
      else if bool_decide (py_str v ∈ clip_node_ids)
      then Ok (Some (py_str v))
      else Ok None
  | _ => Ok None
  end.

Definition assign_positive (m : WorkflowNodeMapping) (o : option string) :=
  match o with Some v => set_positive m v | None => m end.

Definition assign_negative (m : WorkflowNodeMapping) (o : option string) :=
  match o with Some v => set_negative m v | None => m end.

(** Lines 178-195. *)
Definition classify_by_links (m : WorkflowNodeMapping) (workflow_data : dict)
    (clip_node_ids : list string) : outcome WorkflowNodeMapping :=
  match sampler_node m with
  | Some sid =>
      if Py.truthy (Some sid) then
        match Py.dict_get workflow_data sid with
        | Some sampler =>
            sampler_inputs <- Py.get sampler "inputs" (JDict []) ;;
            positive_ref <- Py.get sampler_inputs "positive" (JList []) ;;
            negative_ref <- Py.get sampler_inputs "negative" (JList []) ;;
            p <- resolve_polarity positive_ref workflow_data clip_node_ids ;;
            let m := assign_positive m p in
            n <- resolve_polarity negative_ref workflow_data clip_node_ids ;;
            Ok (assign_negative m n)
        | None => Ok m
        end
      else Ok m
  | None => Ok m
  end.

(** Body of the loop at lines 200-207. *)
Definition title_step (m : WorkflowNodeMapping) (item : string * dict)
    : outcome WorkflowNodeMapping :=
  let '(node_id, node_data) := item in
  if already_assigned m node_id then Ok m
  else
    meta <- Py.get (JDict node_data) "_meta" (JDict []) ;;
    t <- Py.get meta "title" (JStr "") ;;
    title <- Py.lower_of t ;;
    if negb (Py.truthy (negative_prompt_node m))
       && (Py.contains "negative" title || Py.contains "负" title)
    then Ok (set_negative m node_id)
    else if negb (Py.truthy (positive_prompt_node m))
            && (Py.contains "positive" title || Py.contains "正" title)
    then Ok (set_positive m node_id)
    else Ok m.

Definition negative_keywords : list string :=
  ["worst quality"; "low quality"; "bad anatomy"; "ugly"].

Definition positive_keywords : list string :=
  ["masterpiece"; "best quality"; "beautiful"; "detailed"].

(** Body of the loop at lines 212-219. *)
Definition text_step (m : WorkflowNodeMapping) (item : string * dict)
    : outcome WorkflowNodeMapping :=
  let '(node_id, node_data) := item in
  if already_assigned m node_id then Ok m
  else
    inputs <- Py.get (JDict node_data) "inputs" (JDict []) ;;
    t <- Py.get inputs "text" (JStr "") ;;
    text <- Py.lower_of t ;;
    if negb (Py.truthy (negative_prompt_node m))
       && existsb (fun kw => Py.contains kw text) negative_keywords
    then Ok (set_negative m node_id)
    else if negb (Py.truthy (positive_prompt_node m))
            && existsb (fun kw => Py.contains kw text) positive_keywords
    then Ok (set_positive m node_id)
    else Ok m.

(** Body of the loop at lines 221-227. *)
Definition order_step (m : WorkflowNodeMapping) (item : string * dict)
    : outcome WorkflowNodeMapping :=
  let '(node_id, _) := item in
  if already_assigned m node_id then Ok m
  else if negb (Py.truthy (positive_prompt_node m))
  then Ok (set_positive m node_id)
  else if negb (Py.truthy (negative_prompt_node m))
  then Ok (set_negative m node_id)
  else Ok m.

(** A [for] loop whose body may raise. *)
Fixpoint for_each {S X} (body : S -> X -> outcome S) (xs : list X) (s : S)
    : outcome S :=
  match xs with
  | [] => Ok s
  | x :: t => s' <- body s x ;; for_each body t s'
  end.

(** [_classify_clip_nodes]; the mutated [mapping] is returned. *)
Definition _classify_clip_nodes (clip_text_nodes : list (string * dict))
    (mapping : WorkflowNodeMapping) (workflow_data : dict)
    : outcome WorkflowNodeMapping :=
  match clip_text_nodes with
  | [] => Ok mapping
  | [(node_id, _)] => Ok (set_positive mapping node_id)
  | _ =>
      let clip_node_ids := map fst clip_text_nodes in
      m <- classify_by_links mapping workflow_data clip_node_ids ;;
      if Py.truthy (positive_prompt_node m)
         && Py.truthy (negative_prompt_node m)
      then Ok m
      else
        m <- for_each title_step clip_text_nodes m ;;
        m <- for_each text_step clip_text_nodes m ;;
        for_each order_step clip_text_nodes m
  end.

(** Body of the loop at lines 108-128. *)
Definition analyze_step (acc : WorkflowNodeMapping * list (string * dict))
    (item : string * json) : WorkflowNodeMapping * list (string * dict) :=
  let '(mapping, clip_text_nodes) := acc in
  let '(node_id, node_data) := item in
  match node_data with
  | JDict nd =>
      let class_type :=
        match Py.dict_get nd "class_type" with
        | Some c => c
        | None => JStr ""
        end in
      let mapping :=
        if Py.in_types class_type TRT_LOADER_TYPES
        then set_tensorrt mapping else mapping in
      if Py.in_types class_type CLIP_TEXT_ENCODE_TYPES then
        (mapping, (clip_text_nodes ++ [(node_id, nd)])%list)
      else if Py.in_types class_type LATENT_IMAGE_TYPES then
        (set_latent mapping node_id, clip_text_nodes)
      else if Py.in_types class_type SAMPLER_TYPES then
        (add_sampler mapping node_id, clip_text_nodes)
      else if Py.in_types class_type LOAD_IMAGE_TYPES then
        (set_load_image mapping node_id, clip_text_nodes)
      else if Py.in_types class_type OUTPUT_TYPES then
        (set_output mapping node_id, clip_text_nodes)
      else (mapping, clip_text_nodes)
  | _ => acc
  end.

(** [_analyze_workflow_nodes] on a workflow that is a dictionary. *)
Definition _analyze_workflow_nodes (workflow_data : dict)
    : outcome WorkflowNodeMapping :=
  let '(mapping, clip_text_nodes) :=
    fold_left analyze_step workflow_data (default_mapping, []) in
  _classify_clip_nodes clip_text_nodes mapping workflow_data.

End Classifier.

(** ** Mutable state: the object store and the random generator

    Container objects born from [json.load], [json.loads] or
    [copy.deepcopy] are trees without sharing, so an object is stored
    together with its contents and identity lives at the roots the program
    holds in variables ([workflow_info.workflow_data], [workflow]).
    [random.randint] consumes the head of an infinite supply. *)

Record world : Type := {
  store : list json;
  rng : nat -> Z
}.

Definition M (A : Type) : Type := world -> outcome A * world.

Definition ret {A} (a : A) : M A := fun w => (Ok a, w).

Definition raise {A} (e : exn) : M A := fun w => (Raise e, w).

Definition bind {A B} (c : M A) (k : A -> M B) : M B :=
  fun w =>
    match c w with
    | (Ok a, w') => k a w'
    | (Raise e, w') => (Raise e, w')
    end.

(** A read-only computation inside stateful code. *)
Definition lift {A} (c : outcome A) : M A := fun w => (c, w).

Notation "x <~ c ;; k" := (bind c (fun x => k))
  (at level 20, c at level 99, k at level 200, only parsing) : py_scope.
Notation "'let2' ( x , y ) <~ c ;; k" := (bind c (fun '(x, y) => k))
  (at level 20, x name, y name, c at level 99, k at level 200,
   only parsing) : py_scope.

(** [for x in xs: s = body(s, x)] in stateful code. *)
Fixpoint for_eachM {S X} (body : S -> X -> M S) (xs : list X) (s : S)
    : M S :=
  match xs with
  | [] => ret s
  | x :: t => s' <~ body s x ;; for_eachM body t s'
  end.

(** [random.randint(lo, hi)]: the next draw, folded into [lo..hi]. *)
Definition randint (lo hi : Z) : M Z :=
  fun w =>
    (Ok (lo + rng w O mod (hi - lo + 1)),
     {| store := store w; rng := fun n => rng w (S n) |}).

Definition oid : Type := nat.

(** A fresh object holding the tree [v]. *)
Definition alloc (v : json) : M oid :=
  fun w =>
    (Ok (length (store w)),
     {| store := (store w ++ [v])%list; rng := rng w |}).

(** The contents of an object.  Ids come from [alloc] only; the error
    case stands for an id that was never allocated. *)
Definition read (o : oid) : M json :=
  fun w =>
    match store w !! o with
    | Some v => (Ok v, w)
    | None => (Raise KeyError, w)
    end.

Definition write (o : oid) (v : json) : M unit :=
  fun w => (Ok tt, {| store := <[o := v]> (store w); rng := rng w |}).

(** [copy.deepcopy(x)]. *)
Definition deepcopy (o : oid) : M oid :=
  v <~ read o ;; alloc v.

(** [x[p1]...[pn][k] = v] on a tree: the subscripts are read from the
    left, the innermost container is assigned. *)
Fixpoint update_at (x : json) (path : list string) (k : string) (v : json)
    : outcome json :=
  match path with
  | [] => Py.setitem x k v
  | p :: ps =>
      child <- Py.getitem x p ;;
      child' <- update_at child ps k v ;;
      Py.setitem x p child'
  end.

(** The same assignment on the object [o]. *)
Definition assign (o : oid) (path : list string) (k : string) (v : json)
    : M unit :=
  x <~ read o ;;
  x' <~ lift (update_at x path k v) ;;
  write o x'.

(** ** The seed enforcer ([comfyui_client.py]) *)

Definition MAX_SEED : Z := 2 ^ 63 - 1.

(** State of the scan: [ksampler_seed] and [main_seed]. *)
Record seeds : Type := {
  ksampler_seed : option Z;
  main_seed : option Z
}.

(** [[k for k in inputs if "seed" in k.lower()]] *)
Definition seed_key (k : string) : bool := Py.contains "seed" (Py.lower k).

Fixpoint select_seed_keys (ks : list json) : outcome (list string) :=
  match ks with
  | [] => Ok []
  | JStr k :: t =>
      rest <- select_seed_keys t ;;
      Ok (if seed_key k then k :: rest else rest)
  | _ :: _ => Raise AttributeError
  end.

Definition seed_keys (inputs : json) : outcome (list string) :=
  ks <- Py.iter inputs ;; select_seed_keys ks.

(** Body of the loop at lines 224-232. *)
Definition seed_step (class_type : json) (acc : json * seeds) (key : string)
    : M (json * seeds) :=
  let '(inputs, sd) := acc in
  current_seed <~ lift (Py.getitem inputs key) ;;
  inputs <~ (if negb (Py.is_number current_seed) || Py.eq_int current_seed (-1)
             then r <~ randint 1 MAX_SEED ;;
                  lift (Py.setitem inputs key (JInt r))
             else ret inputs) ;;
  is_sampler <~ lift (Py.py_in "Sampler" class_type) ;;
  if is_sampler : bool then
    v <~ lift (Py.getitem inputs key) ;;
    n <~ lift (Py.int v) ;;
    ret (inputs, {| ksampler_seed := Some n; main_seed := main_seed sd |})
  else
    match main_seed sd with
    | None =>
        v <~ lift (Py.getitem inputs key) ;;
        n <~ lift (Py.int v) ;;
        ret (inputs,
             {| ksampler_seed := ksampler_seed sd; main_seed := Some n |})
    | Some _ => ret (inputs, sd)
    end.

Definition control_values : list string :=
  ["randomize"; "increment"; "decrement"].

(** Lines 234-236. *)
Definition fix_control (inputs : json) : outcome json :=
  present <- Py.py_in "control_after_generate" inputs ;;
  if present : bool then
    c <- Py.getitem inputs "control_after_generate" ;;
    if Py.in_types c control_values
    then Py.setitem inputs "control_after_generate" (JStr "fixed")
    else Ok inputs
  else Ok inputs.

(** Body of the loop at lines 216-236 on one node; the node is returned
    with its [inputs] as the loop leaves them. *)
Definition enforce_node (sd : seeds) (node_data : json) : M (json * seeds) :=
  match node_data with
  | JDict nd =>
      match Py.dict_get nd "inputs" with
      | Some inputs =>
          let class_type :=
            match Py.dict_get nd "class_type" with
            | Some c => c
            | None => JStr ""
            end in
          keys <~ lift (seed_keys inputs) ;;
          let2 (inputs, sd) <~
            for_eachM (seed_step class_type) keys (inputs, sd) ;;
          inputs <~ lift (fix_control inputs) ;;
          ret (JDict (Py.dict_set nd "inputs" inputs), sd)
      | None => ret (node_data, sd)
      end
  | _ => ret (node_data, sd)
  end.

(** The loop over [workflow_copy.values()]: nodes are updated in place, so
    keys and order are kept. *)
Fixpoint enforce_nodes (nodes : dict) (sd : seeds) : M (dict * seeds) :=
  match nodes with
  | [] => ret ([], sd)
  | (node_id, node_data) :: t =>
      let2 (node_data', sd) <~ enforce_node sd node_data ;;
      let2 (t', sd) <~ enforce_nodes t sd ;;
      ret ((node_id, node_data') :: t', sd)
  end.

(** [ksampler_seed or main_seed or 0] *)
Definition final_seed (sd : seeds) : Z :=
  match Py.or_int (Py.or_int (ksampler_seed sd) (main_seed sd)) (Some 0) with
  | Some z => z
  | None => 0
  end.

(** [_enforce_deterministic_workflow].  [json.loads(json.dumps(workflow))]
    rebuilds the tree that [workflow] holds, so the argument is that tree
    and the result is the fresh copy after the scan. *)
Definition _enforce_deterministic_workflow (workflow : json)
    : M (json * Z) :=
  match workflow with
  | JDict nodes =>
      let2 (nodes', sd) <~
        enforce_nodes nodes {| ksampler_seed := None; main_seed := None |} ;;
      ret (JDict nodes', final_seed sd)
  | _ => raise AttributeError
  end.

(** ** The registry and the preparer ([workflow_parser.py]) *)

Record WorkflowInfo : Type := {
  name : string;
  file_path : string;
  workflow_data : oid;
  node_mapping : WorkflowNodeMapping;
  description : string
}.

Record WorkflowParser : Type := {
  workflows_dir : string;
  workflows : gmap Z WorkflowInfo
}.

Definition get_workflow (self : WorkflowParser) (index : Z)
    : option WorkflowInfo :=
  workflows self !! index.

(** Lines 272-273 (and 275-276). *)
Definition write_prompt (workflow : oid) (node : option string)
    (field text : string) : M unit :=
  match node with
  | Some node_id =>
      if Py.truthy node then
        g <~ read workflow ;;
        present <~ lift (Py.py_in node_id g) ;;
        if present : bool
        then assign workflow [node_id; "inputs"] field (JStr text)
        else ret tt
      else ret tt
  | None => ret tt
  end.

(** Body of the loop at lines 279-283. *)
Definition write_seed (workflow : oid) (actual_seed : Z) (_ : unit)
    (sampler_id : string) : M unit :=
  g <~ read workflow ;;
  present <~ lift (Py.py_in sampler_id g) ;;
  if present : bool then
    node <~ lift (Py.getitem g sampler_id) ;;
    has_inputs <~ lift (Py.py_in "inputs" node) ;;
    _ <~ (if has_inputs : bool then ret tt
          else assign workflow [sampler_id] "inputs" (JDict [])) ;;
    assign workflow [sampler_id; "inputs"] "seed" (JInt actual_seed)
  else ret tt.

(** Lines 285-287. *)
Definition write_image (workflow : oid) (mapping : WorkflowNodeMapping)
    (input_image_filename : option string) : M unit :=
  match input_image_filename, load_image_node mapping with
  | Some filename, Some node_id =>
      if Py.truthy input_image_filename
         && Py.truthy (load_image_node mapping)
      then
        g <~ read workflow ;;
        present <~ lift (Py.py_in node_id g) ;;
        if present : bool
        then assign workflow [node_id; "inputs"] "image" (JStr filename)
        else ret tt
      else ret tt
  | _, _ => ret tt
  end.

(** [prepare_workflow] *)
Definition prepare_workflow (self : WorkflowParser) (workflow_index : Z)
    (positive_prompt negative_prompt : string) (seed : option Z)
    (input_image_filename : option string)
    : M (option oid * option Z * option string) :=
  match get_workflow self workflow_index with
  | None => ret (None, None, None)
  | Some workflow_info =>
      workflow <~ deepcopy (workflow_data workflow_info) ;;
      let mapping := node_mapping workflow_info in
      _ <~ write_prompt workflow (positive_prompt_node mapping)
             (positive_prompt_field mapping) positive_prompt ;;
      _ <~ write_prompt workflow (negative_prompt_node mapping)
             (negative_prompt_field mapping) negative_prompt ;;
      actual_seed <~ match seed with
                     | Some s => ret s
                     | None => randint 1 MAX_SEED
                     end ;;
      _ <~ for_eachM (write_seed workflow actual_seed)
             (sampler_nodes mapping) tt ;;
      _ <~ write_image workflow mapping input_image_filename ;;
      ret (Some workflow, Some actual_seed, Some negative_prompt)
  end.

(** The caller's pipeline ([main.py] lines 217-232 with [queue_prompt]
    line 52): the prepared graph goes straight to the enforcer.  The result
    is the graph that is submitted and the seed [prepare_workflow]
    returned. *)
Definition prepare_and_enforce (self : WorkflowParser) (workflow_index : Z)
    (positive_prompt negative_prompt : string) (seed : option Z)
    (input_image_filename : option string) : M (option (json * option Z)) :=
  r <~ prepare_workflow self workflow_index positive_prompt negative_prompt
         seed input_image_filename ;;
  match r with
  | (Some workflow, prepared_seed, _) =>
      g <~ read workflow ;;
      let2 (fixed_workflow, _) <~ _enforce_deterministic_workflow g ;;
      ret (Some (fixed_workflow, prepared_seed))
  | _ => ret None
  end.

(** ** The loader and the listing ([workflow_parser.py]) *)

Definition DESCRIPTION_PREFIX : string := "模型: ".

(** What the loader finds at [workflows_dir].  [Missing]: the directory
    does not exist, with what the [os.makedirs] call that follows gives
    (it can raise [OSError]).  [Listing]: the sorted [*.json] paths of the
    directory, each with its content. *)
Inductive directory : Type :=
| Missing (makedirs : outcome unit)
| Listing (json_files : list (string * outcome json)).

Section Loader.

Variable py_repr : json -> string.

(** [os.path.splitext(os.path.basename(file_path))[0]] *)
Variable name_of : string -> string.

(** The loop of [_extract_workflow_description] over the node values. *)
Fixpoint extract_description (nodes : list json) (default_name : string)
    : outcome string :=
  match nodes with
  | [] => Ok default_name
  | JDict nd :: rest =>
      class_type <- Py.get (JDict nd) "class_type" (JStr "") ;;
      is_checkpoint <- Py.py_in "Checkpoint" class_type ;;
      if is_checkpoint : bool then
        inputs <- Py.get (JDict nd) "inputs" (JDict []) ;;
        ckpt_name <- Py.get inputs "ckpt_name" (JStr "") ;;
        if Py.truthy_json ckpt_name
        then Ok (DESCRIPTION_PREFIX ++ py_str py_repr ckpt_name)
        else extract_description rest default_name
      else extract_description rest default_name
  | _ :: rest => extract_description rest default_name
  end.

Definition _extract_workflow_description (workflow_data : json)
    (default_name : string) : outcome string :=
  nodes <- Py.values workflow_data ;;
  extract_description nodes default_name.

(** [_parse_workflow_file].  [content] is what [open] and [json.load]
    give for the file: the parsed tree, or the exception they raise.  The
    parsed tree is a new object.  A tree that is not a dictionary has no
    [items]. *)
Definition _parse_workflow_file (file_path : string) (content : outcome json)
    : M WorkflowInfo :=
  tree <~ lift content ;;
  workflow_data <~ alloc tree ;;
  let name := name_of file_path in
  match tree with
  | JDict g =>
      node_mapping <~ lift (_analyze_workflow_nodes py_repr g) ;;
      description <~ lift (_extract_workflow_description tree name) ;;
      ret {| name := name;
             file_path := file_path;
             workflow_data := workflow_data;
             node_mapping := node_mapping;
             description := description |}
  | _ => raise AttributeError
  end.

(** The loop of [_load_all_workflows] from index [idx] on: every
    exception of an iteration is caught and the file is skipped.  A
    [WorkflowInfo] is always truthy. *)
Fixpoint load_files (idx : Z) (json_files : list (string * outcome json))
    (workflows : gmap Z WorkflowInfo) : M (gmap Z WorkflowInfo) :=
  match json_files with
  | [] => ret workflows
  | (file_path, content) :: rest =>
      fun w =>
        match _parse_workflow_file file_path content w with
        | (Ok workflow_info, w') =>
            load_files (idx + 1) rest (<[idx := workflow_info]> workflows) w'
        | (Raise _, w') => load_files (idx + 1) rest workflows w'
        end
  end.

(** [_load_all_workflows].  When the directory is missing it is created,
    outside any [try], and nothing is loaded; an exception of
    [os.makedirs] is the caller's. *)
Definition _load_all_workflows (self : WorkflowParser) (found : directory)
    : M WorkflowParser :=
  match found with
  | Missing makedirs =>
      _ <~ lift makedirs ;;
      ret self
  | Listing json_files =>
      loaded <~ load_files 1 json_files (workflows self) ;;
      ret {| workflows_dir := workflows_dir self; workflows := loaded |}
  end.

(** [WorkflowParser.__init__] *)
Definition new_parser (dir : string) (found : directory) : M WorkflowParser :=
  _load_all_workflows {| workflows_dir := dir; workflows := ∅ |} found.

(** [reload_workflows] *)
Definition reload_workflows (self : WorkflowParser) (found : directory)
    : M WorkflowParser :=
  _load_all_workflows
    {| workflows_dir := workflows_dir self; workflows := ∅ |} found.

End Loader.

(** [get_workflow_count] *)
Definition get_workflow_count (self : WorkflowParser) : Z :=
  Z.of_nat (size (workflows self)).

Definition by_index (a b : Z * WorkflowInfo) : Prop := (a.1 <= b.1)%Z.

#[global] Instance by_index_dec : RelDecision by_index :=
  fun a b => decide (a.1 <= b.1)%Z.

(** [list_workflows]: the items sorted by index (indices are distinct, so
    the comparison never reaches the workflow). *)
Definition list_workflows (self : WorkflowParser)
    : list (Z * string * string) :=
  map (fun item : Z * WorkflowInfo => (item.1, name item.2, description item.2))
      (merge_sort by_index (map_to_list (workflows self))).

(** ** The job orchestrator ([comfyui_client.py]) *)

Definition MSG_SUBMIT_FAILED : string := "提交工作流失败".
Definition MSG_EXEC_ERROR : string := "执行出错".
Definition MSG_EXEC_DONE : string := "执行完成".
Definition MSG_SUCCESS : string := "生成成功".
Definition MSG_NO_IMAGE : string := "未找到输出图像".
Definition MSG_TIMEOUT (timeout_seconds : Z) : string :=
  "执行超时(" ++ pretty timeout_seconds ++ "s)".

(** [img_data] *)
Record image_ref : Type := {
  filename : json;
  subfolder : json;
  folder_type : json
}.

(** One poll of [wait_for_completion] (lines 143-153): [Some] is a
    verdict, [None] means sleep and poll again. *)
Definition history_verdict (prompt_id : string) (history : option json)
    : outcome (option (bool * option json * string)) :=
  match history with
  | Some h =>
      if Py.truthy_json h then
        present <- Py.py_in prompt_id h ;;
        if present : bool then
          prompt_history <- Py.getitem h prompt_id ;;
          has_outputs <- Py.py_in "outputs" prompt_history ;;
          if has_outputs : bool then
            has_status <- Py.py_in "status" prompt_history ;;
            if has_status : bool then
              status <- Py.getitem prompt_history "status" ;;
              status_str <- Py.get status "status_str" JNull ;;
              if Py.is_str "error" status_str
              then Ok (Some (false, None, MSG_EXEC_ERROR))
              else Ok (Some (true, Some prompt_history, MSG_EXEC_DONE))
            else Ok (Some (true, Some prompt_history, MSG_EXEC_DONE))
          else Ok None
        else Ok None
      else Ok None
  | None => Ok None
  end.

(** [wait_for_completion] over the observations of the successive polls:
    the elapsed time read at the top of the iteration and the reply of
    [get_history].  [None]: the loop is still polling when the
    observations end.  The cancellation sent on timeout does not change
    the result. *)
Fixpoint wait_for_completion (prompt_id : string) (timeout_seconds : Z)
    (polls : list (Q * option json))
    : option (outcome (bool * option json * string)) :=
  match polls with
  | [] => None
  | (elapsed, history) :: rest =>
      if negb (Qle_bool elapsed (inject_Z timeout_seconds))
      then Some (Ok (false, None, MSG_TIMEOUT timeout_seconds))
      else
        match history_verdict prompt_id history with
        | Ok (Some verdict) => Some (Ok verdict)
        | Ok None => wait_for_completion prompt_id timeout_seconds rest
        | Raise e => Some (Raise e)
        end
  end.

Definition is_output (target : option image_ref) : bool :=
  match target with
  | Some img => Py.is_str "output" (folder_type img)
  | None => false
  end.

(** The inner loop at lines 183-193. *)
Fixpoint scan_images (images : list json) (target_image : option image_ref)
    : outcome (option image_ref) :=
  match images with
  | [] => Ok target_image
  | image_info :: rest =>
      fn <- Py.get image_info "filename" JNull ;;
      sf <- Py.get image_info "subfolder" (JStr "") ;;
      ft <- Py.get image_info "type" (JStr "output") ;;
      let img_data :=
        {| filename := fn; subfolder := sf; folder_type := ft |} in
      if Py.is_str "output" ft then Ok (Some img_data)
      else scan_images rest
             (match target_image with
              | None => Some img_data
              | Some _ => target_image
              end)
  end.

(** The outer loop at lines 180-195. *)
Fixpoint scan_outputs (outputs : list json) (target_image : option image_ref)
    : outcome (option image_ref) :=
  match outputs with
  | [] => Ok target_image
  | node_output :: rest =>
      has_images <- Py.py_in "images" node_output ;;
      if has_images : bool then
        images <- Py.getitem node_output "images" ;;
        imgs <- Py.iter images ;;
        target_image <- scan_images imgs target_image ;;
        if is_output target_image then Ok target_image
        else scan_outputs rest target_image
      else scan_outputs rest target_image
  end.

(** Lines 178-195. *)
Definition select_image (result : option json) : outcome (option image_ref) :=
  match result with
  | Some r =>
      if Py.truthy_json r then
        has_outputs <- Py.py_in "outputs" r ;;
        if has_outputs : bool then
          outputs <- Py.getitem r "outputs" ;;
          outs <- Py.values outputs ;;
          scan_outputs outs None
        else Ok None
      else Ok None
  | None => Ok None
  end.

Definition truthy_bytes (o : option (list Byte.byte)) : bool :=
  match o with
  | Some (_ :: _) => true
  | _ => false
  end.

Section Orchestrator.

(** The backend as the client sees it.  [post_prompt payload]: [None]
    when the request raises, else the HTTP status and the [prompt_id]
    entry of the reply.  [get_image]: the bytes of [/view], [None] when
    the status is not 200 or the request raises. *)
Variable post_prompt : json -> option (Z * option string).
Variable get_image : json -> json -> json -> option (list Byte.byte).
Variable client_id : string.

(** [queue_prompt]; every exception is caught.  Opening the session is
    part of the request that [post_prompt] stands for. *)
Definition queue_prompt (workflow : json) : M (option string * option Z) :=
  fun w =>
    match _enforce_deterministic_workflow workflow w with
    | (Ok (fixed_workflow, current_seed), w') =>
        let payload :=
          JDict [("prompt", fixed_workflow); ("client_id", JStr client_id)] in
        match post_prompt payload with
        | Some (status, prompt_id) =>
            if status =? 200 then (Ok (prompt_id, Some current_seed), w')
            else (Ok (None, None), w')
        | None => (Ok (None, None), w')
        end
    | (Raise _, w') => (Ok (None, None), w')
    end.

(** [execute_workflow].  [None]: the polling loop has not ended. *)
Definition execute_workflow (workflow : json) (timeout_seconds : Z)
    (known_seed : option Z) (polls : list (Q * option json))
    : M (option (bool * option (list Byte.byte) * string * option Z)) :=
  let2 (prompt_id, detected_seed) <~ queue_prompt workflow ;;
  match prompt_id with
  | Some pid =>
      if Py.truthy prompt_id then
        let used_seed :=
          match known_seed with
          | Some s => Some s
          | None => detected_seed
          end in
        match wait_for_completion pid timeout_seconds polls with
        | None => ret None
        | Some (Raise e) => raise e
        | Some (Ok (success, result, status_msg)) =>
            if negb success then
              ret (Some (false, None, status_msg, used_seed))
            else
              target_image <~ lift (select_image result) ;;
              match target_image with
              | Some img =>
                  let image_data :=
                    get_image (filename img) (subfolder img)
                      (folder_type img) in
                  if truthy_bytes image_data
                  then ret (Some (true, image_data, MSG_SUCCESS, used_seed))
                  else ret (Some (false, None, MSG_NO_IMAGE, used_seed))
              | None => ret (Some (false, None, MSG_NO_IMAGE, used_seed))
              end
        end
      else ret (Some (false, None, MSG_SUBMIT_FAILED, None))
  | None => ret (Some (false, None, MSG_SUBMIT_FAILED, None))
  end.

End Orchestrator.

(** ** Specification-side notions *)

(** A link reference as the data model describes it: a two-element
    source/slot pair. *)
Definition is_link_pair (ref : json) : bool :=
  match ref with
  | JList [_; _] => true
  | _ => false
  end.

Definition class_of (nd : dict) : json :=
  match Py.dict_get nd "class_type" with
  | Some c => c
  | None => JStr ""
  end.

Definition absent_or (p : json -> bool) (o : option json) : bool :=
  match o with
  | Some v => p v
  | None => true
  end.

Definition is_string (v : json) : bool :=
  match v with JStr _ => true | _ => false end.

Definition is_dict (v : json) : bool :=
  match v with JDict _ => true | _ => false end.




Section Links.

Variable py_repr : json -> string.



End Links.

(** A graph with an entry that is not a node, two prompt-encode nodes, a
    sampler that links to them and a sampler without inputs. *)
Definition commented_graph : dict :=
  [("_comment", JStr "hello");
   ("1", JDict [("class_type", JStr "CLIPTextEncode");
                ("inputs", JDict [("text", JStr "a cat")])]);
   ("2", JDict [("class_type", JStr "CLIPTextEncode");
                ("inputs", JDict [("text", JStr "blurry")])]);
   ("3", JDict [("class_type", JStr "KSampler");
                ("inputs", JDict [("positive", JList [JStr "1"; JInt 0]);
                                  ("negative", JList [JStr "2"; JInt 0])])]);
   ("4", JDict [("class_type", JStr "KSampler")])].

Section LinkChains.

Variable py_repr : json -> string.

(** [passthrough_chain g targets ref k final]: following [ref] crosses
    [k] passthrough nodes, each forwarding its first link input, and then
    reaches [final], the first node that is not a passthrough. *)
Inductive passthrough_chain (g : dict) (targets : list string)
    : json -> nat -> string -> Prop :=
| chain_end v rest nd :
    Py.dict_get g (py_str py_repr v) = Some (JDict nd) ->
    Py.in_types (class_of nd) PASSTHROUGH_TYPES = false ->
    passthrough_chain g targets (JList (v :: rest)) O (py_str py_repr v)
| chain_hop v rest nd inputs next k final :
    Py.dict_get g (py_str py_repr v) = Some (JDict nd) ->
    Py.in_types (class_of nd) PASSTHROUGH_TYPES = true ->
    Py.in_types (class_of nd) targets = false ->
    Py.dict_get nd "inputs" = Some (JDict inputs) ->
    List.find (Py.is_list_ge 2) (map snd inputs) = Some next ->
    passthrough_chain g targets next k final ->
    passthrough_chain g targets (JList (v :: rest)) (S k) final.

(** The prompt-encode candidates the classifier collects from [g]. *)
Definition clip_candidates (g : dict) : list (string * dict) :=
  snd (fold_left (analyze_step) g (default_mapping, [])).

End LinkChains.

(** ** Sample graphs *)

Definition node_id_of (i : nat) : string := pretty (Z.of_nat i).

(** [reroute_chain first k]: [k] Reroute nodes numbered from [first], each
    forwarding the next one, followed by a prompt-encode node. *)
Fixpoint reroute_chain (first k : nat) : dict :=
  match k with
  | O => [(node_id_of first, JDict [("class_type", JStr "CLIPTextEncode")])]
  | S k' =>
      (node_id_of first,
       JDict [("class_type", JStr "Reroute");
              ("inputs",
               JDict [("", JList [JStr (node_id_of (S first)); JInt 0])])])
      :: reroute_chain (S first) k'
  end.

(** The candidate contributed by one item of the graph. *)
Definition clip_of (item : string * json) : list (string * dict) :=
  match item with
  | (node_id, JDict nd) =>
      if Py.in_types (class_of nd) CLIP_TEXT_ENCODE_TYPES
      then [(node_id, nd)] else []
  | _ => []
  end.



(** Two prompt-encode nodes without title or text, and a sampler. *)
Definition bare_graph : dict :=
  [("1", JDict [("class_type", JStr "CLIPTextEncode")]);
   ("2", JDict [("class_type", JStr "CLIPTextEncode"); ("inputs", JDict [])]);
   ("3", JDict [("class_type", JStr "KSampler");
                ("inputs", JDict [("positive", JList [JStr "2"; JInt 0])])])].

(** ** Fields of a graph *)

Definition CONTROL : string := "control_after_generate".

(** [x.get(k)] as a partial lookup: none when [x] is not a dictionary. *)
Definition field (x : json) (k : string) : option json :=
  match x with
  | JDict d => Py.dict_get d k
  | _ => None
  end.

(** [g[node_id][f]] *)
Definition node_field (g : dict) (node_id f : string) : option json :=
  match Py.dict_get g node_id with
  | Some node => field node f
  | None => None
  end.

(** [g[node_id]["inputs"][k]] *)
Definition input_field (g : dict) (node_id k : string) : option json :=
  match node_field g node_id "inputs" with
  | Some inputs => field inputs k
  | None => None
  end.

(** A seed value the enforcer leaves alone: a number other than -1. *)
Definition kept_seed (v : json) : bool :=
  Py.is_number v && negb (Py.eq_int v (-1)).

(** A concrete seed: a number other than -1 that [int] converts, that is
    an integer, a boolean or a finite float. *)
Definition concrete_seed (v : json) : bool :=
  kept_seed v && is_ok (Py.int v).

(** An entry of [inputs] the scan can pass: under a seed-like name, a
    number that is kept is one that [int] converts. *)
Definition seed_entry_ok (kv : string * json) : bool :=
  implb (seed_key (fst kv)) (implb (kept_seed (snd kv)) (is_ok (Py.int (snd kv)))).

(** An entry of [inputs] that is not seed-like or holds a concrete seed. *)
Definition seed_entry_concrete (kv : string * json) : bool :=
  implb (seed_key (fst kv)) (concrete_seed (snd kv)).

(** A node of the data model, seen by the enforcer: when it is a
    dictionary with [inputs], these are a dictionary whose entries satisfy
    [entry_ok], and the class type is missing or a string. *)
Definition node_with (entry_ok : string * json -> bool) (strict : bool)
    (v : json) : bool :=
  match v with
  | JDict nd =>
      match Py.dict_get nd "inputs" with
      | Some (JDict i) =>
          absent_or is_string (Py.dict_get nd "class_type")
          && forallb entry_ok i
      | Some _ => false
      | None => negb strict
      end
  | _ => negb strict
  end.

(** Graphs the enforcer processes without raising. *)
Definition enforceable (g : dict) : bool :=
  forallb (fun kv => node_with seed_entry_ok false (snd kv)) g.

(** Graphs whose seed-named fields are all concrete and none is -1. *)
Definition settled (g : dict) : bool :=
  forallb (fun kv => node_with seed_entry_concrete false (snd kv)) g.

(** Templates whose every node is a dictionary with a dictionary of
    inputs, as in the data model. *)
Definition well_formed_template (g : dict) : bool :=
  forallb (fun kv => node_with seed_entry_ok true (snd kv)) g.

(** The seed-named entries of every node, in order. *)
Definition seed_entries (v : json) : dict :=
  match field v "inputs" with
  | Some (JDict i) => List.filter (fun kv => seed_key (fst kv)) i
  | _ => []
  end.

Definition seed_fields (g : dict) : list (string * dict) :=
  map (fun kv => (fst kv, seed_entries (snd kv))) g.

(** What the scan does to the inputs of a settled node. *)
Definition pin_inputs (i : dict) : dict :=
  match Py.dict_get i CONTROL with
  | Some c =>
      if Py.in_types c control_values
      then Py.dict_set i CONTROL (JStr "fixed") else i
  | None => i
  end.

Definition pin_node (v : json) : json :=
  match v with
  | JDict nd =>
      match Py.dict_get nd "inputs" with
      | Some (JDict i) => JDict (Py.dict_set nd "inputs" (JDict (pin_inputs i)))
      | _ => v
      end
  | _ => v
  end.

Definition pin_graph (g : dict) : dict :=
  map (fun kv => (fst kv, pin_node (snd kv))) g.

(** A sampler with a concrete seed and an auto-advance control, next to
    a node with a second seed-like field. *)
Definition seeded_graph : dict :=
  [("3", JDict [("class_type", JStr "KSampler");
                ("inputs", JDict [("seed", JInt 42);
                                  ("steps", JInt 20);
                                  ("control_after_generate",
                                   JStr "randomize")])]);
   ("9", JDict [("class_type", JStr "RandomNoise");
                ("inputs", JDict [("noise_seed", JInt 7)])])].

Definition empty_world : world := {| store := []; rng := fun _ => 0 |}.

(** A sampler whose seed is 0 behind a node with another seed. *)
Definition zero_seed_graph : dict :=
  [("1", JDict [("class_type", JStr "PrimitiveNode");
                ("inputs", JDict [("seed", JInt 5)])]);
   ("2", JDict [("class_type", JStr "KSampler");
                ("inputs", JDict [("seed", JInt 0)])])].

(** [inputs_frame x x']: every entry of [x] that is not a seed to replace
    nor a control to pin is in [x'] with the same value. *)
Definition inputs_frame (x x' : json) : Prop :=
  forall k v,
    field x k = Some v ->
    (seed_key k = true -> kept_seed v = true) ->
    (k = CONTROL -> Py.in_types v control_values = false) ->
    field x' k = Some v.

(** [node_frame v v']: the node keeps every field but [inputs], and its
    inputs are framed. *)
Definition node_frame (v v' : json) : Prop :=
  (forall f, f <> "inputs" -> field v' f = field v f)
  /\ (forall x, field v "inputs" = Some x ->
        exists x', field v' "inputs" = Some x' /\ inputs_frame x x').

(** The graph after [g[node_id]["inputs"][k] = v]. *)
Definition set_input (g : dict) (node_id k : string) (v : json) : dict :=
  match Py.dict_get g node_id with
  | Some (JDict nd) =>
      match Py.dict_get nd "inputs" with
      | Some (JDict i) =>
          Py.dict_set g node_id
            (JDict (Py.dict_set nd "inputs" (JDict (Py.dict_set i k v))))
      | _ => g
      end
  | _ => g
  end.

(** [keeps n c Q]: run from a store with at least [n] objects, [c] leaves
    the first [n] objects as they are, whatever its outcome, and a
    returned value satisfies [Q]. *)
Definition keeps {A} (n : nat) (c : M A) (Q : A -> Prop) : Prop :=
  forall w r w',
    c w = (r, w') ->
    (n <= length (store w))%nat ->
    (forall o, (o < n)%nat -> store w' !! o = store w !! o)
    /\ (n <= length (store w'))%nat
    /\ (forall a, r = Ok a -> Q a).

(** A registry with one template, stored as object 0. *)
Definition sample_info : WorkflowInfo :=
  {| name := "sample";
     file_path := "workflows/sample.json";
     workflow_data := 0%nat;
     node_mapping :=
       {| positive_prompt_node := None;
          negative_prompt_node := None;
          latent_image_node := None;
          sampler_node := Some "3";
          sampler_nodes := ["3"];
          load_image_node := None;
          output_node := None;
          positive_prompt_field := "text";
          negative_prompt_field := "text";
          has_tensorrt := false |};
     description := "sample" |}.

Definition sample_parser : WorkflowParser :=
  {| workflows_dir := "workflows";
     workflows := {[ 1 := sample_info ]} |}.

Definition sample_world : world :=
  {| store := [JDict seeded_graph]; rng := fun _ => 0 |}.

(** [holds o g w]: object [o] of the store is the graph [g]. *)
Definition holds (o : oid) (g : dict) (w : world) : Prop :=
  store w !! o = Some (JDict g).

(** [seeded S g sid]: sampler [sid] of [g] carries the seed [S]. *)
Definition seeded (S : Z) (g : dict) (sid : string) : Prop :=
  input_field g sid "seed" = Some (JInt S).

(** The byte fetch of the chosen image fails, or there is no image. *)
Definition fetch_fails
    (get_image : json -> json -> json -> option (list Byte.byte))
    (target : option image_ref) : Prop :=
  match target with
  | Some img =>
      truthy_bytes (get_image (filename img) (subfolder img) (folder_type img))
      = false
  | None => True
  end.

(** [known_seed if known_seed is not None else detected_seed] *)
Definition used_seed_of (known_seed detected_seed : option Z) : option Z :=
  match known_seed with
  | Some s => Some s
  | None => detected_seed
  end.

(** A backend that accepts every job as "42". *)
Definition accept_all (payload : json) : option (Z * option string) :=
  Some (200, Some "42").

(** A backend whose image store answers nothing. *)
Definition no_bytes (fn sf ft : json) : option (list Byte.byte) := None.

(** A finished job without any image. *)
Definition history_without_image : json :=
  JDict [("42", JDict [("outputs", JDict [("9", JDict [("images", JList [])])])])].

(** A finished job with one image in the output folder. *)
Definition history_with_image : json :=
  JDict [("42",
          JDict [("outputs",
                  JDict [("9",
                          JDict [("images",
                                  JList [JDict [("filename", JStr "out.png");
                                                ("subfolder", JStr "");
                                                ("type", JStr "output")]])])])])].

(** A text-to-image template: a sampler fed by a rerouted positive prompt
    and a direct negative prompt. *)
Definition txt2img_graph : dict :=
  [("3", JDict [("class_type", JStr "KSampler");
                ("inputs", JDict [("seed", JInt (-1));
                                  ("control_after_generate", JStr "randomize");
                                  ("positive", JList [JStr "10"; JInt 0]);
                                  ("negative", JList [JStr "7"; JInt 0]);
                                  ("latent_image", JList [JStr "5"; JInt 0])])]);
   ("5", JDict [("class_type", JStr "EmptyLatentImage");
                ("inputs", JDict [("width", JInt 512)])]);
   ("6", JDict [("class_type", JStr "CLIPTextEncode");
                ("inputs", JDict [("text", JStr "masterpiece")])]);
   ("7", JDict [("class_type", JStr "CLIPTextEncode");
                ("inputs", JDict [("text", JStr "ugly")])]);
   ("10", JDict [("class_type", JStr "Reroute");
                 ("inputs", JDict [("", JList [JStr "6"; JInt 0])])]);
   ("9", JDict [("class_type", JStr "SaveImage");
                ("inputs", JDict [("images", JList [JStr "8"; JInt 0])])])].

(** A history record that has no outputs yet. *)
Definition history_pending : json :=
  JDict [("42", JDict [("status", JDict [("status_str", JStr "running")])])].

(** An image store that holds [out.png] only. *)
Definition only_out_png (fn sf ft : json) : option (list Byte.byte) :=
  if Py.is_str "out.png" fn then Some [Byte.x89; Byte.x50] else None.

(** ** Specification-side notions for the first pass *)

(** The mapping after the loop of [_analyze_workflow_nodes], before the
    prompt-encode candidates are classified. *)
Definition first_pass (g : dict) : WorkflowNodeMapping :=
  fst (fold_left analyze_step g (default_mapping, [])).

(** The item is a dictionary node whose class type is in [tys]. *)
Definition is_class (tys : list string) (item : string * json) : bool :=
  match snd item with
  | JDict nd => Py.in_types (class_of nd) tys
  | _ => false
  end.

(** The ids of the nodes of a class, in encounter order. *)
Definition ids_of_class (tys : list string) (g : dict) : list string :=
  map fst (List.filter (is_class tys) g).

(** The roles that only the first pass writes. *)
Definition fixed_part (m : WorkflowNodeMapping) :=
  (latent_image_node m, sampler_node m, sampler_nodes m, load_image_node m,
   output_node m, positive_prompt_field m, negative_prompt_field m,
   has_tensorrt m).

(** The first id that is not the empty string, else the last id. *)
Definition primary_of (ids : list string) : option string :=
  match List.find (fun s => negb (String.eqb s "")) ids with
  | Some s => Some s
  | None => last ids
  end.

(** What one item of the graph does to the roles of the first pass. *)
Definition step_roles (m : WorkflowNodeMapping) (item : string * json)
    : WorkflowNodeMapping :=
  {| positive_prompt_node := positive_prompt_node m;
     negative_prompt_node := negative_prompt_node m;
     latent_image_node :=
       if is_class LATENT_IMAGE_TYPES item then Some (fst item)
       else latent_image_node m;
     sampler_node :=
       if is_class SAMPLER_TYPES item
       then (if Py.truthy (sampler_node m) then sampler_node m
             else Some (fst item))
       else sampler_node m;
     sampler_nodes :=
       (sampler_nodes m
        ++ (if is_class SAMPLER_TYPES item then [fst item] else []))%list;
     load_image_node :=
       if is_class LOAD_IMAGE_TYPES item then Some (fst item)
       else load_image_node m;
     output_node :=
       if is_class OUTPUT_TYPES item then Some (fst item)
       else output_node m;
     positive_prompt_field := positive_prompt_field m;
     negative_prompt_field := negative_prompt_field m;
     has_tensorrt := has_tensorrt m || is_class TRT_LOADER_TYPES item |}.

(** The role mapping of [txt2img_graph]. *)
Definition txt2img_mapping : WorkflowNodeMapping :=
  {| positive_prompt_node := Some "6";
     negative_prompt_node := Some "7";
     latent_image_node := Some "5";
     sampler_node := Some "3";
     sampler_nodes := ["3"];
     load_image_node := None;
     output_node := Some "9";
     positive_prompt_field := "text";
     negative_prompt_field := "text";
     has_tensorrt := false |}.

(** [roles_in ids m]: a polarity that is set names one of [ids]. *)
Definition roles_in (ids : list string) (m : WorkflowNodeMapping) : Prop :=
  (forall p, positive_prompt_node m = Some p -> In p ids)
  /\ (forall n, negative_prompt_node m = Some n -> In n ids).

(** ** Specification-side notions for the scan *)

(** A seed drawn by the enforcer. *)
Definition drawn (v : json) : Prop :=
  exists r, v = JInt r /\ 1 <= r <= MAX_SEED.

(** [settled_at x0 x k]: in the inputs [x], the field [k] holds a number
    other than -1 that is the value it had in [x0] or a drawn seed. *)
Definition settled_at (x0 x : json) (k : string) : Prop :=
  exists v,
    field x k = Some v /\ kept_seed v = true
    /\ (field x0 k = Some v \/ drawn v).

(** [found_in x z]: the inputs [x] hold, under a seed-like name, a kept
    number that [int] converts to [z]. *)
Definition found_in (x : json) (z : Z) : Prop :=
  exists k v,
    seed_key k = true /\ field x k = Some v /\ kept_seed v = true
    /\ Py.int v = Ok z.

(** [reported_from x sd sd' proj]: the component [proj] of the scan state
    is as before or was read from the inputs [x]. *)
Definition reported_from (x : json) (sd sd' : seeds)
    (proj : seeds -> option Z) : Prop :=
  proj sd' = proj sd \/ exists z, proj sd' = Some z /\ found_in x z.

(** [seed_in g z]: some node of [g] holds [z] under a seed-like name. *)
Definition seed_in (g : dict) (z : Z) : Prop :=
  exists node_id v x,
    In (node_id, v) g /\ field v "inputs" = Some x /\ found_in x z.

(** [txt2img_graph] as the enforcer returns it when the generator draws 1. *)
Definition txt2img_fixed : dict :=
  Py.dict_set txt2img_graph "3"
    (JDict [("class_type", JStr "KSampler");
            ("inputs", JDict [("seed", JInt 1);
                              ("control_after_generate", JStr "fixed");
                              ("positive", JList [JStr "10"; JInt 0]);
                              ("negative", JList [JStr "7"; JInt 0]);
                              ("latent_image", JList [JStr "5"; JInt 0])])]).

(** ** The prepared graph, as a function of the template *)

(** Lines 272-273 (and 275-276) on a well-formed graph. *)
Definition put_prompt (g : dict) (node : option string) (fld text : string)
    : dict :=
  match node with
  | Some node_id =>
      if Py.truthy node && Py.dict_has g node_id
      then set_input g node_id fld (JStr text) else g
  | None => g
  end.

(** Lines 280-283 on a well-formed graph. *)
Definition put_seed (S : Z) (g : dict) (sampler_id : string) : dict :=
  if Py.dict_has g sampler_id
  then set_input g sampler_id "seed" (JInt S) else g.

(** Lines 285-287 on a well-formed graph. *)
Definition put_image (g : dict) (mapping : WorkflowNodeMapping)
    (image : option string) : dict :=
  match image, load_image_node mapping with
  | Some filename, Some node_id =>
      if Py.truthy image && Py.truthy (load_image_node mapping)
         && Py.dict_has g node_id
      then set_input g node_id "image" (JStr filename) else g
  | _, _ => g
  end.

Definition prepared (g : dict) (mapping : WorkflowNodeMapping)
    (positive_prompt negative_prompt : string) (S : Z)
    (image : option string) : dict :=
  put_image
    (fold_left (put_seed S) (sampler_nodes mapping)
       (put_prompt
          (put_prompt g (positive_prompt_node mapping)
             (positive_prompt_field mapping) positive_prompt)
          (negative_prompt_node mapping)
          (negative_prompt_field mapping) negative_prompt))
    mapping image.

(** The seed [prepare_workflow] uses and the generator it leaves. *)
Definition actual_seed_of (seed : option Z) (w : world) : Z :=
  match seed with
  | Some s => s
  | None => 1 + rng w O mod (MAX_SEED - 1 + 1)
  end.

Definition rng_after (seed : option Z) (w : world) : nat -> Z :=
  match seed with
  | Some _ => rng w
  | None => fun n => rng w (S n)
  end.

(** An image-to-image template with its role mapping, registered as
    workflow 1 of a parser whose store holds only that template. *)
Definition img2img_graph : dict :=
  [("3", JDict [("class_type", JStr "KSampler");
                ("inputs", JDict [("seed", JInt 5);
                                  ("positive", JList [JStr "6"; JInt 0]);
                                  ("negative", JList [JStr "7"; JInt 0]);
                                  ("latent_image", JList [JStr "13"; JInt 0])])]);
   ("6", JDict [("class_type", JStr "CLIPTextEncode");
                ("inputs", JDict [("text", JStr "masterpiece");
                                  ("clip", JList [JStr "4"; JInt 1])])]);
   ("7", JDict [("class_type", JStr "CLIPTextEncode");
                ("inputs", JDict [("text", JStr "ugly");
                                  ("clip", JList [JStr "4"; JInt 1])])]);
   ("12", JDict [("class_type", JStr "LoadImage");
                 ("inputs", JDict [("image", JStr "example.png")])]);
   ("13", JDict [("class_type", JStr "VAEEncode");
                 ("inputs", JDict [("pixels", JList [JStr "12"; JInt 0])])])].

Definition img2img_info : WorkflowInfo :=
  {| name := "img2img";
     file_path := "workflows/img2img.json";
     workflow_data := 0%nat;
     node_mapping :=
       {| positive_prompt_node := Some "6";
          negative_prompt_node := Some "7";
          latent_image_node := None;
          sampler_node := Some "3";
          sampler_nodes := ["3"];
          load_image_node := Some "12";
          output_node := None;
          positive_prompt_field := "text";
          negative_prompt_field := "text";
          has_tensorrt := false |};
     description := "img2img" |}.

Definition img2img_parser : WorkflowParser :=
  {| workflows_dir := "workflows";
     workflows := {[ 1 := img2img_info ]} |}.

Definition img2img_world : world :=
  {| store := [JDict img2img_graph]; rng := fun _ => 0 |}.

(** ** The image choice of the orchestrator, as a search *)

(** [img_data] of one entry of an [images] list. *)
Definition ref_of (image_info : json) : image_ref :=
  match image_info with
  | JDict d =>
      {| filename :=
           match Py.dict_get d "filename" with Some v => v | None => JNull end;
         subfolder :=
           match Py.dict_get d "subfolder" with
           | Some v => v
           | None => JStr ""
           end;
         folder_type :=
           match Py.dict_get d "type" with
           | Some v => v
           | None => JStr "output"
           end |}
  | _ => {| filename := JNull; subfolder := JNull; folder_type := JNull |}
  end.

Definition images_of (node_output : json) : list json :=
  match field node_output "images" with
  | Some (JList l) => l
  | _ => []
  end.

(** Every image of the outputs, node after node. *)
Definition listed_images (outputs : dict) : list image_ref :=
  map ref_of (flat_map images_of (map snd outputs)).

(** The first image of the output folder, else the first image. *)
Definition preferred_image (imgs : list image_ref) : option image_ref :=
  match List.find (fun i => is_output (Some i)) imgs with
  | Some i => Some i
  | None => head imgs
  end.

(** A node output as the backend writes it: a dictionary whose [images]
    entry, when present, is a list of dictionaries. *)
Definition well_typed_output (node_output : json) : bool :=
  match node_output with
  | JDict d =>
      match Py.dict_get d "images" with
      | None => true
      | Some (JList l) => forallb is_dict l
      | Some _ => false
      end
  | _ => false
  end.

(** ** Vocabulary for the polling loop *)

(** The poll is taken before the deadline has passed. *)
Definition in_time (timeout_seconds : Z) (poll : Q * option json) : bool :=
  Qle_bool (fst poll) (inject_Z timeout_seconds).

(** The poll is in time and its reply does not settle the job. *)
Definition undecided (prompt_id : string) (timeout_seconds : Z)
    (poll : Q * option json) : Prop :=
  in_time timeout_seconds poll = true
  /\ history_verdict prompt_id (snd poll) = Ok None.

(** The messages with which a run can fail. *)
Definition failure_message (timeout_seconds : Z) (msg : string) : Prop :=
  msg = MSG_SUBMIT_FAILED \/ msg = MSG_TIMEOUT timeout_seconds
  \/ msg = MSG_EXEC_ERROR \/ msg = MSG_NO_IMAGE.

(** The backend turns the job down: the request raises, the status is
    not 200, or the reply carries no usable [prompt_id]. *)
Definition rejects (post_prompt : json -> option (Z * option string))
    (payload : json) : Prop :=
  match post_prompt payload with
  | Some (status, Some pid) => status <> 200 \/ pid = ""
  | Some (_, None) => True
  | None => True
  end.

(** A backend that is down. *)
Definition refuse_all (payload : json) : option (Z * option string) := None.

(** A backend whose image store answers one byte for every image. *)
Definition one_byte (fn sf ft : json) : option (list Byte.byte) :=
  Some [Byte.x00].

(** ** Vocabulary for the loader *)

Section LoaderSpec.

Variable py_repr : json -> string.
Variable name_of : string -> string.

(** What a file contributes to the registry when it loads: its graph,
    the role mapping and the description. *)
Definition parsed (file_path : string) (content : outcome json)
    : option (dict * WorkflowNodeMapping * string) :=
  match content with
  | Ok (JDict g) =>
      match _analyze_workflow_nodes py_repr g,
            _extract_workflow_description py_repr (JDict g)
              (name_of file_path) with
      | Ok m, Ok d => Some (g, m, d)
      | _, _ => None
      end
  | _ => None
  end.

(** [info] is the entry of the file [path] whose contribution is
    [entry], and its graph is an object of the store of [w]. *)
Definition registered_as (w : world) (path : string)
    (entry : dict * WorkflowNodeMapping * string) (info : WorkflowInfo)
    : Prop :=
  name info = name_of path
  /\ file_path info = path
  /\ node_mapping info = entry.1.2
  /\ description info = entry.2
  /\ store w !! workflow_data info = Some (JDict entry.1.1).

End LoaderSpec.

(** The files the loader sees; a missing directory lists nothing. *)
Definition files_of (found : directory) : list (string * outcome json) :=
  match found with
  | Listing json_files => json_files
  | Missing _ => []
  end.

(** The checkpoint name of a node: [inputs.ckpt_name] of a dictionary
    node whose class type contains "Checkpoint". *)
Definition ckpt_name_of (node_data : json) : option json :=
  match node_data with
  | JDict nd =>
      match Py.dict_get nd "class_type" with
      | Some (JStr c) =>
          if Py.contains "Checkpoint" c then
            match Py.dict_get nd "inputs" with
            | Some (JDict i) =>
                Some (match Py.dict_get i "ckpt_name" with
                      | Some v => v
                      | None => JStr ""
                      end)
            | _ => Some (JStr "")
            end
          else None
      | _ => None
      end
  | _ => None
  end.

Definition names_checkpoint (node_data : json) : bool :=
  match ckpt_name_of node_data with
  | Some v => Py.truthy_json v
  | None => false
  end.

(** Nodes on which the description scan does not raise: the class type
    of a dictionary node is absent or a string, and the inputs of a
    checkpoint node are absent or a dictionary. *)
Definition describable_node (node_data : json) : bool :=
  match node_data with
  | JDict nd =>
      match Py.dict_get nd "class_type" with
      | Some (JStr c) =>
          negb (Py.contains "Checkpoint" c)
          || absent_or is_dict (Py.dict_get nd "inputs")
      | Some _ => false
      | None => true
      end
  | _ => true
  end.

(** The description a checkpoint node gives. *)
Definition description_by (py_repr : json -> string) (node_data : json)
    : string :=
  match ckpt_name_of node_data with
  | Some v => DESCRIPTION_PREFIX ++ py_str py_repr v
  | None => ""
  end.

(** A template with two checkpoint loaders, the first without a name. *)
Definition two_checkpoints : dict :=
  [("1", JDict [("class_type", JStr "CheckpointLoaderSimple");
                ("inputs", JDict [("ckpt_name", JStr "")])]);
   ("2", JDict [("class_type", JStr "ImageOnlyCheckpointLoader");
                ("inputs", JDict [("ckpt_name", JStr "svd.safetensors")])]);
   ("3", JDict [("class_type", JStr "KSampler");
                ("inputs", JDict [("seed", JInt 1)])])].

(** Both prompt roles name a node. *)
Definition both_assigned (m : WorkflowNodeMapping) : bool :=
  Py.truthy (positive_prompt_node m) && Py.truthy (negative_prompt_node m).

(** Two prompt-encode nodes that no sampler reads and that carry neither
    a title nor a keyword. *)
Definition plain_prompts_graph : dict :=
  [("1", JDict [("class_type", JStr "CLIPTextEncode");
                ("inputs", JDict [("text", JStr "a cat")])]);
   ("2", JDict [("class_type", JStr "CLIPTextEncode");
                ("inputs", JDict [("text", JStr "blurry")])])].


(** ** Templates the preparer can fill *)

(** The unguarded subscript [workflow[node]["inputs"]] finds its entry:
    the write is skipped (the role is unset, empty or not a key of the
    graph), or the node has an [inputs] entry. *)
Definition has_inputs (g : dict) (node : option string) : bool :=
  match node with
  | Some node_id =>
      negb (Py.truthy node && Py.dict_has g node_id)
      || match node_field g node_id "inputs" with
         | Some _ => true
         | None => false
         end
  | None => true
  end.

(** A listed sampler the seed loop can write to and the enforcer can
    scan: it is not a key of the graph, or it is a dictionary whose class
    type is missing or a string; its [inputs] may be missing. *)
Definition sampler_ok (g : dict) (sampler_id : string) : bool :=
  match Py.dict_get g sampler_id with
  | None => true
  | Some (JDict nd) => absent_or is_string (Py.dict_get nd "class_type")
  | Some _ => false
  end.

(** Templates on which neither the preparer nor the enforcer raises:
    the enforcer can scan the graph (entries that are not dictionaries
    and nodes without inputs included), the prompt nodes have inputs, the
    load-image node has inputs when an image is supplied, and the listed
    samplers are nodes. *)
Definition preparable (g : dict) (mapping : WorkflowNodeMapping)
    (image : option string) : bool :=
  enforceable g
  && has_inputs g (positive_prompt_node mapping)
  && has_inputs g (negative_prompt_node mapping)
  && (negb (Py.truthy image) || has_inputs g (load_image_node mapping))
  && forallb (sampler_ok g) (sampler_nodes mapping).

(** The world after [store[o] = x]. *)
Definition put (o : oid) (x : json) (w : world) : world :=
  {| store := <[o := x]> (store w); rng := rng w |}.

(** [g'] has the keys of [g]; a dictionary node stays one, keeps its
    class type and keeps having inputs; other entries are unchanged. *)
Definition extends (g g' : dict) : Prop :=
  forall node_id,
    match Py.dict_get g node_id with
    | None => Py.dict_get g' node_id = None
    | Some (JDict nd) =>
        exists nd',
          Py.dict_get g' node_id = Some (JDict nd')
          /\ Py.dict_get nd' "class_type" = Py.dict_get nd "class_type"
          /\ (Py.dict_get nd "inputs" <> None ->
              Py.dict_get nd' "inputs" <> None)
    | Some v => Py.dict_get g' node_id = Some v
    end.

(** The registry and the store for [commented_graph], classified. *)
Definition commented_info : WorkflowInfo :=
  {| name := "commented";
     file_path := "workflows/commented.json";
     workflow_data := 0%nat;
     node_mapping :=
       {| positive_prompt_node := Some "1";
          negative_prompt_node := Some "2";
          latent_image_node := None;
          sampler_node := Some "3";
          sampler_nodes := ["3"; "4"];
          load_image_node := None;
          output_node := None;
          positive_prompt_field := "text";
          negative_prompt_field := "text";
          has_tensorrt := false |};
     description := "commented" |}.

Definition commented_parser : WorkflowParser :=
  {| workflows_dir := "workflows";
     workflows := {[ 1 := commented_info ]} |}.

Definition commented_world : world :=
  {| store := [JDict commented_graph]; rng := fun _ => 0 |}.

(** * Verified properties *)

(** ** The model on the usual shapes *)

(** The classifier follows the sampler's links, through the Reroute. *)
Example classify_txt2img :
  _analyze_workflow_nodes (fun _ => "") txt2img_graph
  = Ok {| positive_prompt_node := Some "6";
          negative_prompt_node := Some "7";
          latent_image_node := Some "5";
          sampler_node := Some "3";
          sampler_nodes := ["3"];
          load_image_node := None;
          output_node := Some "9";
          positive_prompt_field := "text";
          negative_prompt_field := "text";
          has_tensorrt := false |}.
Proof. vm_compute. reflexivity. Qed.

(** The enforcer replaces the sentinel, pins the control and reports the
    sampler's seed. *)
Example enforce_txt2img :
  exists g' w',
    _enforce_deterministic_workflow (JDict txt2img_graph) empty_world
    = (Ok (JDict g', 1), w')
    /\ input_field g' "3" "seed" = Some (JInt 1)
    /\ input_field g' "3" "control_after_generate" = Some (JStr "fixed").
Proof. do 2 eexists. split; [vm_compute; reflexivity|]. split; reflexivity. Qed.

(** Two polls without outputs, then one image of the output folder: the
    job completes with the bytes of that image. *)
Example execute_completes_on_third_poll :
  fst (execute_workflow accept_all only_out_png "client"
         (JDict seeded_graph) 120 None
         [(0%Q, Some history_pending); (1%Q, Some history_pending);
          (2%Q, Some history_with_image)] empty_world)
  = Ok (Some (true, Some [Byte.x89; Byte.x50], MSG_SUCCESS, Some 42)).
Proof. vm_compute. reflexivity. Qed.

(** Past the timeout the job is given up with the timeout message. *)
Example execute_times_out :
  fst (execute_workflow accept_all only_out_png "client"
         (JDict seeded_graph) 2 None
         [(0%Q, Some history_pending); (1%Q, Some history_pending);
          (3%Q, Some history_with_image)] empty_world)
  = Ok (Some (false, None, MSG_TIMEOUT 2, Some 42)).
Proof. vm_compute. reflexivity. Qed.

(** ** The link tracer *)

Section TracerProps.

Variable py_repr : json -> string.

Lemma trace_depth_exhausted ref g targets :
  trace_link_source py_repr O ref g targets = Ok None.
Proof. reflexivity. Qed.

Lemma trace_not_a_list ref g targets d :
  Py.is_list_ge 1 ref = false ->
  trace_link_source py_repr d ref g targets = Ok None.
Proof.
  intros Href. destruct d as [|d]; [reflexivity|].
  destruct ref as [| | | | |l|]; try reflexivity.
  destruct l; [reflexivity | discriminate].
Qed.

(** C7 (amended): a reference that is not a list or is an empty list,
    and any call whose depth budget is zero or negative, makes the tracer
    return none; it neither raises nor names a node. *)
Theorem trace_none_on_empty_ref_or_exhausted_depth
    (ref : json) (g : dict) (targets : list string) (max_depth : Z) :
  (max_depth <= 0)%Z \/ Py.is_list_ge 1 ref = false ->
  _trace_link_source py_repr ref g targets max_depth = Ok None.
Proof.
  unfold _trace_link_source. intros [Hd | Href].
  - replace (Z.to_nat max_depth) with O by lia.
    apply trace_depth_exhausted.
  - by apply trace_not_a_list.
Qed.

End TracerProps.

(** C7, as stated, fails: a one-element list is not a source/slot pair,
    yet the tracer resolves it to a node id. *)
Lemma trace_accepts_one_element_ref :
  let g := [("5", JDict [("class_type", JStr "CLIPTextEncode")])] in
  let ref := JList [JStr "5"] in
  is_link_pair ref = false
  /\ _trace_link_source (fun _ => "") ref g CLIP_TEXT_ENCODE_TYPES
       default_max_depth = Ok (Some "5").
Proof. split; reflexivity. Qed.

Lemma trace_none_witness :
  _trace_link_source (fun _ => "") (JList [])
    [("5", JDict [("class_type", JStr "CLIPTextEncode")])]
    CLIP_TEXT_ENCODE_TYPES default_max_depth = Ok None
  /\ _trace_link_source (fun _ => "") (JList [JStr "5"; JInt 0])
       [("5", JDict [("class_type", JStr "CLIPTextEncode")])]
       CLIP_TEXT_ENCODE_TYPES 0 = Ok None.
Proof.
  split.
  - apply (trace_none_on_empty_ref_or_exhausted_depth (fun _ => "")).
    right. reflexivity.
  - apply (trace_none_on_empty_ref_or_exhausted_depth (fun _ => "")).
    left. lia.
Defined.

(** ** Dictionaries *)

Lemma dict_get_In (d : dict) (k : string) (v : json) :
  Py.dict_get d k = Some v -> In (k, v) d.
Proof.
  induction d as [|[k' v'] d IH]; simpl; [discriminate|].
  destruct (String.eqb_spec k' k) as [->|Hne].
  - intros [= ->]. by left.
  - intros H. right. by apply IH.
Qed.

Lemma dict_get_NoDup (d : dict) (k : string) (v : json) :
  NoDup (map fst d) -> In (k, v) d -> Py.dict_get d k = Some v.
Proof.
  induction d as [|[k' v'] d IH]; simpl; [intros _ []|].
  intros Hnd [Heq | Hin].
  - injection Heq as -> ->. by rewrite String.eqb_refl.
  - apply NoDup_cons in Hnd as [Hk Hnd].
    destruct (String.eqb_spec k' k) as [->|Hne].
    + exfalso. apply Hk. apply list_elem_of_In.
      apply (in_map fst) in Hin. exact Hin.
    + by apply IH.
Qed.

(** ** Passthrough chains *)

Section ChainProps.

Variable py_repr : json -> string.

Lemma trace_chain_resolves g targets ref k final :
  passthrough_chain py_repr g targets ref k final ->
  forall d, (k < d)%nat ->
  trace_link_source py_repr d ref g targets = Ok (Some final).
Proof.
  induction 1 as [v rest nd Hget Hpass
                 | v rest nd inputs next k final Hget Hpass Htgt Hin Hfind _ IH];
    intros [|d] Hd; try lia; simpl; rewrite Hget; simpl;
    fold (class_of nd).
  - rewrite Hpass. by destruct (Py.in_types _ targets).
  - rewrite Htgt, Hpass, Hin. simpl. rewrite Hfind. apply IH. lia.
Qed.

Lemma trace_chain_exhausts g targets ref k final :
  passthrough_chain py_repr g targets ref k final ->
  forall d, (d <= k)%nat ->
  trace_link_source py_repr d ref g targets = Ok None.
Proof.
  induction 1 as [v rest nd Hget Hpass
                 | v rest nd inputs next k final Hget Hpass Htgt Hin Hfind _ IH];
    intros [|d] Hd; try lia; try reflexivity.
  simpl. rewrite Hget. simpl. fold (class_of nd).
  rewrite Htgt, Hpass, Hin. simpl. rewrite Hfind. apply IH. lia.
Qed.

End ChainProps.

(** ** The first pass of the classifier *)

Lemma analyze_step_clip m acc item :
  snd (analyze_step (m, acc) item) = (acc ++ clip_of item)%list.
Proof.
  destruct item as [node_id [| | | | | |nd]]; simpl;
    try (by rewrite app_nil_r).
  fold (class_of nd).
  destruct (Py.in_types (class_of nd) CLIP_TEXT_ENCODE_TYPES); [reflexivity|].
  repeat match goal with
         | |- context [if ?b then _ else _] => destruct b
         end; simpl; by rewrite app_nil_r.
Qed.

Lemma analyze_fold_clip g m acc :
  snd (fold_left analyze_step g (m, acc))
  = (acc ++ flat_map clip_of g)%list.
Proof.
  revert m acc.
  induction g as [|item g IH]; intros m acc; cbn [fold_left flat_map].
  - by rewrite app_nil_r.
  - pose proof (analyze_step_clip m acc item) as Hs.
    destruct (analyze_step (m, acc) item) as [m' acc']. simpl in Hs.
    rewrite IH, Hs. by rewrite <- app_assoc.
Qed.

Lemma clip_candidates_spec g node_id nd :
  In (node_id, nd) (clip_candidates g) ->
  In (node_id, JDict nd) g
  /\ Py.in_types (class_of nd) CLIP_TEXT_ENCODE_TYPES = true.
Proof.
  unfold clip_candidates. rewrite analyze_fold_clip. simpl.
  rewrite in_flat_map. intros [[k v] [Hin Hclip]].
  destruct v as [| | | | | |nd0]; simpl in Hclip; try contradiction.
  destruct (Py.in_types (class_of nd0) CLIP_TEXT_ENCODE_TYPES) eqn:E;
    [|contradiction].
  destruct Hclip as [[= -> ->]|[]]. by split.
Qed.

Section FallbackProps.

Variable py_repr : json -> string.

Lemma trace_candidate_direct g node_id nd v rest d :
  Py.dict_get g (py_str py_repr v) = Some (JDict nd) ->
  Py.in_types (class_of nd) CLIP_TEXT_ENCODE_TYPES = true ->
  node_id = py_str py_repr v ->
  trace_link_source py_repr (S d) (JList (v :: rest)) g
    CLIP_TEXT_ENCODE_TYPES = Ok (Some node_id).
Proof.
  intros Hget Hclip ->. simpl. rewrite Hget. simpl. fold (class_of nd).
  by rewrite Hclip.
Qed.

Lemma resolve_polarity_candidate g v rest :
  NoDup (map fst g) ->
  In (py_str py_repr v) (map fst (clip_candidates g)) ->
  resolve_polarity py_repr (JList (v :: rest)) g
    (map fst (clip_candidates g)) = Ok (Some (py_str py_repr v)).
Proof.
  intros Hnd Hin.
  pose proof Hin as Hin'.
  apply in_map_iff in Hin' as [[node_id nd] [Hid Hcand]]. simpl in Hid.
  apply clip_candidates_spec in Hcand as [Hg Hclip].
  apply (dict_get_NoDup _ _ _ Hnd) in Hg. rewrite Hid in Hg.
  unfold resolve_polarity, _trace_link_source, default_max_depth.
  change (Z.to_nat 10) with 10%nat.
  rewrite (trace_candidate_direct g _ nd v rest 9 Hg Hclip eq_refl).
  simpl.
  assert (Hdec : bool_decide
            (py_str py_repr v ∈ map fst (clip_candidates g)) = true).
  { apply bool_decide_eq_true. by apply list_elem_of_In. }
  rewrite Hdec.
  by destruct (_ && _).
Qed.

End FallbackProps.

Section ChainTheorem.

Variable py_repr : json -> string.

(** C6 (amended): with the default depth bound of 10 the tracer resolves
    a chain of at most 9 passthrough nodes to the first node that is not
    a passthrough; a chain of 10 or more makes the trace return none;
    and whenever the immediate source of a link is a prompt-encode
    candidate, the classifier's resolution of that link yields it. *)
Theorem trace_passthrough_chain_bound (g : dict) (targets : list string) :
  (forall ref k final,
      passthrough_chain py_repr g targets ref k final ->
      (k <= 9)%nat ->
      _trace_link_source py_repr ref g targets default_max_depth
      = Ok (Some final))
  /\ (forall ref k final,
      passthrough_chain py_repr g targets ref k final ->
      (10 <= k)%nat ->
      _trace_link_source py_repr ref g targets default_max_depth = Ok None)
  /\ (forall v rest,
      NoDup (map fst g) ->
      In (py_str py_repr v) (map fst (clip_candidates g)) ->
      resolve_polarity py_repr (JList (v :: rest)) g
        (map fst (clip_candidates g)) = Ok (Some (py_str py_repr v))).
Proof.
  unfold _trace_link_source, default_max_depth.
  change (Z.to_nat 10) with 10%nat.
  split; [|split].
  - intros ref k final Hchain Hk.
    apply (trace_chain_resolves _ _ _ _ _ _ Hchain). lia.
  - intros ref k final Hchain Hk.
    by apply (trace_chain_exhausts _ _ _ _ _ _ Hchain).
  - intros v rest. apply resolve_polarity_candidate.
Qed.

End ChainTheorem.

(** C6, as stated, fails at length 10: ten Reroute nodes in front of a
    prompt-encode node form a chain of length 10, and the trace with the
    default bound returns none. *)
Lemma trace_fails_on_ten_passthroughs :
  let g := reroute_chain 1 10 in
  let ref := JList [JStr "1"; JInt 0] in
  passthrough_chain (fun _ => "") g CLIP_TEXT_ENCODE_TYPES ref 10 "11"
  /\ _trace_link_source (fun _ => "") ref g CLIP_TEXT_ENCODE_TYPES
       default_max_depth = Ok None.
Proof.
  split; [|vm_compute; reflexivity].
  do 10 (eapply (chain_hop (fun _ => "") _ _ (JStr _));
         [reflexivity | reflexivity | reflexivity | reflexivity
         | reflexivity |]).
  apply (chain_end (fun _ => "") _ _ (JStr "11") [JInt 0]
           [("class_type", JStr "CLIPTextEncode")]); reflexivity.
Qed.

Lemma trace_passthrough_chain_witness :
  _trace_link_source (fun _ => "") (JList [JStr "1"; JInt 0])
    (reroute_chain 1 2) CLIP_TEXT_ENCODE_TYPES default_max_depth
  = Ok (Some "3")
  /\ _trace_link_source (fun _ => "") (JList [JStr "1"; JInt 0])
       (reroute_chain 1 10) CLIP_TEXT_ENCODE_TYPES default_max_depth
     = Ok None
  /\ resolve_polarity (fun _ => "") (JList [JStr "1"; JInt 0])
       (reroute_chain 1 0) (map fst (clip_candidates (reroute_chain 1 0)))
     = Ok (Some "1").
Proof.
  split; [|split].
  - apply (proj1 (trace_passthrough_chain_bound (fun _ => "")
                    (reroute_chain 1 2) CLIP_TEXT_ENCODE_TYPES)
             (JList [JStr "1"; JInt 0]) 2%nat "3"); [|lia].
    do 2 (eapply (chain_hop (fun _ => "") _ _ (JStr _));
          [reflexivity | reflexivity | reflexivity | reflexivity
          | reflexivity |]).
    apply (chain_end (fun _ => "") _ _ (JStr "3") [JInt 0]
             [("class_type", JStr "CLIPTextEncode")]); reflexivity.
  - apply (proj1 (proj2 (trace_passthrough_chain_bound (fun _ => "")
                           (reroute_chain 1 10) CLIP_TEXT_ENCODE_TYPES))
             (JList [JStr "1"; JInt 0]) 10%nat "11"); [|lia].
    do 10 (eapply (chain_hop (fun _ => "") _ _ (JStr _));
           [reflexivity | reflexivity | reflexivity | reflexivity
           | reflexivity |]).
    apply (chain_end (fun _ => "") _ _ (JStr "11") [JInt 0]
             [("class_type", JStr "CLIPTextEncode")]); reflexivity.
  - apply (proj2 (proj2 (trace_passthrough_chain_bound (fun _ => "")
                           (reroute_chain 1 0) CLIP_TEXT_ENCODE_TYPES))
             (JStr "1") [JInt 0]).
    + apply NoDup_singleton.
    + simpl. left. reflexivity.
Defined.

(** ** Totality of the classifier on classifiable graphs *)



Section ClassifierTotal.

Variable py_repr : json -> string.




End ClassifierTotal.


(** ** More on dictionaries *)

Lemma dict_get_set_eq (d : dict) k v :
  Py.dict_get (Py.dict_set d k v) k = Some v.
Proof.
  induction d as [|[k' v'] d IH]; simpl.
  - by rewrite String.eqb_refl.
  - destruct (String.eqb_spec k' k) as [->|Hne]; simpl.
    + by rewrite String.eqb_refl.
    + by destruct (String.eqb_spec k' k).
Qed.

Lemma dict_get_set_ne (d : dict) k k' v :
  k <> k' -> Py.dict_get (Py.dict_set d k v) k' = Py.dict_get d k'.
Proof.
  intros Hne. induction d as [|[k0 v0] d IH]; simpl.
  - by destruct (String.eqb_spec k k').
  - destruct (String.eqb_spec k0 k) as [->|Hk]; simpl.
    + by destruct (String.eqb_spec k k').
    + by rewrite IH.
Qed.

Lemma forallb_dict_set (P : string * json -> bool) (d : dict) k v :
  forallb P d = true -> P (k, v) = true ->
  forallb P (Py.dict_set d k v) = true.
Proof.
  intros Hd Hv. induction d as [|[k' v'] d IH]; simpl in *.
  - by rewrite Hv.
  - apply andb_true_iff in Hd as [Hh Ht].
    destruct (String.eqb_spec k' k) as [->|Hne]; simpl.
    + by rewrite Hv, Ht.
    + by rewrite Hh, IH.
Qed.

Lemma filter_dict_set (P : string -> bool) (d : dict) k v :
  P k = false ->
  List.filter (fun kv => P (fst kv)) (Py.dict_set d k v)
  = List.filter (fun kv => P (fst kv)) d.
Proof.
  intros Hk. induction d as [|[k' v'] d IH]; simpl.
  - by rewrite Hk.
  - destruct (String.eqb_spec k' k) as [->|Hne]; simpl.
    + by rewrite Hk.
    + by rewrite IH.
Qed.

(** ** The monad of stateful code *)

Ltac msimpl := unfold bind, lift, ret, raise in *; simpl in *.

(** ** The scan of a settled graph *)

Lemma select_seed_keys_dict (i : dict) :
  select_seed_keys (map (fun kv => JStr (fst kv)) i)
  = Ok (List.filter seed_key (map fst i)).
Proof.
  induction i as [|[k v] i IH]; simpl; [reflexivity|].
  rewrite IH. simpl. by destruct (seed_key k).
Qed.

Lemma seed_keys_dict (i : dict) :
  seed_keys (JDict i) = Ok (List.filter seed_key (map fst i)).
Proof. unfold seed_keys. simpl. apply select_seed_keys_dict. Qed.

Lemma kept_seed_no_replace v :
  kept_seed v = true ->
  (negb (Py.is_number v) || Py.eq_int v (-1))%bool = false.
Proof.
  unfold kept_seed. intros [Hn He]%andb_true_iff.
  rewrite Hn. simpl. by apply negb_true_iff.
Qed.

Lemma is_ok_inv {A} (c : outcome A) : is_ok c = true -> exists a, c = Ok a.
Proof. destruct c; [by eexists | discriminate]. Qed.

Lemma seed_loop_settled keys c (i : dict) sd w :
  (forall key, In key keys ->
     exists v, Py.dict_get i key = Some v /\ concrete_seed v = true) ->
  exists sd',
    for_eachM (seed_step (JStr c)) keys (JDict i, sd) w
    = (Ok (JDict i, sd'), w).
Proof.
  revert sd. induction keys as [|key keys IH]; intros sd Hkeys.
  - by eexists.
  - destruct (Hkeys key) as (v & Hget & [Hkept Hint]%andb_true_iff);
      [by left|].
    apply is_ok_inv in Hint as [n Hn].
    assert (Hstep : exists sd1,
               seed_step (JStr c) (JDict i, sd) key w
               = (Ok (JDict i, sd1), w)).
    { unfold seed_step. msimpl. rewrite Hget.
      rewrite (kept_seed_no_replace _ Hkept). msimpl.
      destruct (Py.contains "Sampler" c).
      - rewrite Hget, Hn. by eexists.
      - destruct (main_seed sd); [by eexists|].
        rewrite Hget, Hn. by eexists. }
    destruct Hstep as [sd1 Hstep].
    destruct (IH sd1) as [sd' Hrest].
    { intros k Hk. apply Hkeys. by right. }
    exists sd'. cbn [for_eachM]. unfold bind at 1. by rewrite Hstep.
Qed.

Lemma fix_control_dict (i : dict) :
  fix_control (JDict i) = Ok (JDict (pin_inputs i)).
Proof.
  unfold fix_control, pin_inputs, CONTROL, Py.dict_has. simpl.
  unfold Py.dict_has.
  destruct (Py.dict_get i "control_after_generate") as [c|]; simpl;
    [|reflexivity].
  by destruct (Py.in_types c control_values).
Qed.

Lemma settled_keys (i : dict) key :
  forallb seed_entry_concrete i = true ->
  In key (List.filter seed_key (map fst i)) ->
  exists v, Py.dict_get i key = Some v /\ concrete_seed v = true.
Proof.
  rewrite forallb_forall. intros Hall [Hin Hseed]%filter_In.
  destruct (Py.dict_get i key) as [v|] eqn:Hget.
  - exists v. split; [reflexivity|].
    apply dict_get_In, Hall in Hget. unfold seed_entry_concrete in Hget.
    simpl in Hget. by rewrite Hseed in Hget.
  - exfalso. clear Hall Hseed. induction i as [|[k v] i IH]; simpl in *.
    + contradiction.
    + destruct (String.eqb_spec k key) as [->|Hne]; [discriminate|].
      destruct Hin as [->|Hin]; [congruence | by apply IH].
Qed.

Lemma class_type_string nd :
  absent_or is_string (Py.dict_get nd "class_type") = true ->
  exists c, match Py.dict_get nd "class_type" with
            | Some c => c
            | None => JStr ""
            end = JStr c.
Proof.
  destruct (Py.dict_get nd "class_type") as [[| | | |c| |]|]; simpl;
    try discriminate; by eexists.
Qed.

Lemma enforce_node_settled v sd w :
  node_with seed_entry_concrete false v = true ->
  exists sd', enforce_node sd v w = (Ok (pin_node v, sd'), w).
Proof.
  destruct v as [| | | | | |nd]; simpl; try (by eexists).
  destruct (Py.dict_get nd "inputs") as [[| | | | | |i]|]; simpl;
    try discriminate; try (by eexists).
  intros [Hc Hi]%andb_true_iff.
  destruct (class_type_string nd Hc) as [c ->].
  unfold bind at 1. unfold lift at 1. rewrite seed_keys_dict.
  destruct (seed_loop_settled (List.filter seed_key (map fst i)) c i sd w)
    as [sd' Hloop].
  { intros key Hk. by apply settled_keys. }
  unfold bind at 1. rewrite Hloop.
  unfold bind, lift, ret. rewrite fix_control_dict. by eexists.
Qed.

Lemma enforce_nodes_settled g sd w :
  settled g = true ->
  exists sd', enforce_nodes g sd w = (Ok (pin_graph g, sd'), w).
Proof.
  revert sd. induction g as [|[node_id v] g IH]; intros sd Hg; simpl.
  - by eexists.
  - apply andb_true_iff in Hg as [Hv Hg]. simpl in Hv.
    destruct (enforce_node_settled v sd w Hv) as [sd1 Hnode].
    destruct (IH sd1 Hg) as [sd' Hrest].
    exists sd'. unfold bind at 1. rewrite Hnode.
    unfold bind at 1. rewrite Hrest. reflexivity.
Qed.

Lemma seed_entries_pin v : seed_entries (pin_node v) = seed_entries v.
Proof.
  destruct v as [| | | | | |nd]; try reflexivity.
  unfold seed_entries, pin_node. simpl.
  destruct (Py.dict_get nd "inputs") as [[| | | | | |i]|] eqn:Hin; simpl;
    rewrite ?Hin; try reflexivity.
  rewrite dict_get_set_eq. unfold pin_inputs.
  destruct (Py.dict_get i CONTROL) as [c|]; [|reflexivity].
  destruct (Py.in_types c control_values); [|reflexivity].
  by apply (filter_dict_set seed_key).
Qed.

Lemma seed_fields_pin g : seed_fields (pin_graph g) = seed_fields g.
Proof.
  unfold seed_fields, pin_graph. rewrite map_map. apply map_ext.
  intros [node_id v]. simpl. by rewrite seed_entries_pin.
Qed.

Lemma settled_pin_node v :
  node_with seed_entry_concrete false v = true ->
  node_with seed_entry_concrete false (pin_node v) = true.
Proof.
  destruct v as [| | | | | |nd]; try (intros; reflexivity).
  unfold pin_node. simpl.
  destruct (Py.dict_get nd "inputs") as [[| | | | | |i]|] eqn:Hin; simpl;
    rewrite ?Hin; try (intros; assumption).
  intros [Hc Hi]%andb_true_iff.
  rewrite dict_get_set_eq, dict_get_set_ne by discriminate.
  rewrite Hc. simpl. unfold pin_inputs.
  destruct (Py.dict_get i CONTROL) as [c|]; [|assumption].
  destruct (Py.in_types c control_values); [|assumption].
  by apply forallb_dict_set.
Qed.

Lemma settled_pin g : settled g = true -> settled (pin_graph g) = true.
Proof.
  unfold settled, pin_graph. rewrite !forallb_forall.
  intros Hg [node_id v'] [[k v] [[= <- <-] Hin]]%in_map_iff.
  simpl. apply settled_pin_node. apply (Hg _ Hin).
Qed.

(** C4: on a graph whose seed-named fields are all concrete numbers other
    than -1, the enforcer returns, draws no random number and leaves the
    seed fields as they are; a second run on its own result does the
    same. *)
Theorem enforce_idempotent_on_settled (g : dict) (w : world) :
  settled g = true ->
  exists g1 s1 g2 s2,
    _enforce_deterministic_workflow (JDict g) w = (Ok (JDict g1, s1), w)
    /\ seed_fields g1 = seed_fields g
    /\ _enforce_deterministic_workflow (JDict g1) w = (Ok (JDict g2, s2), w)
    /\ seed_fields g2 = seed_fields g1.
Proof.
  intros Hg. set (sd0 := {| ksampler_seed := None; main_seed := None |}).
  destruct (enforce_nodes_settled g sd0 w Hg) as [sd1 H1].
  destruct (enforce_nodes_settled (pin_graph g) sd0 w (settled_pin g Hg))
    as [sd2 H2].
  exists (pin_graph g), (final_seed sd1),
    (pin_graph (pin_graph g)), (final_seed sd2).
  unfold _enforce_deterministic_workflow, bind, ret. fold sd0.
  rewrite H1, H2. by rewrite !seed_fields_pin.
Qed.

Lemma enforce_idempotent_witness :
  settled seeded_graph = true
  /\ exists g1 s1 g2 s2,
       _enforce_deterministic_workflow (JDict seeded_graph) empty_world
       = (Ok (JDict g1, s1), empty_world)
       /\ seed_fields g1 = seed_fields seeded_graph
       /\ _enforce_deterministic_workflow (JDict g1) empty_world
          = (Ok (JDict g2, s2), empty_world)
       /\ seed_fields g2 = seed_fields g1.
Proof.
  split; [reflexivity|].
  apply (enforce_idempotent_on_settled seeded_graph empty_world).
  reflexivity.
Defined.

(** ** The reported seed *)

Lemma final_seed_sampler z m :
  z <> 0 -> final_seed {| ksampler_seed := Some z; main_seed := m |} = z.
Proof.
  intros Hz. unfold final_seed, Py.or_int. simpl.
  destruct (Z.eqb_spec z 0) as [->|_]; [congruence|]. simpl.
  by destruct (Z.eqb_spec z 0).
Qed.

(** C5 fails on the code when the sampler's seed is 0: the sampler node
    carries the seed field 0, yet the enforcer reports 5, the seed of the
    node that is not a sampler. *)
Theorem enforce_reports_other_seed_when_sampler_seed_is_zero :
  _enforce_deterministic_workflow (JDict zero_seed_graph) empty_world
  = (Ok (JDict zero_seed_graph, 5), empty_world).
Proof. reflexivity. Qed.

(** ** What the scan leaves alone *)

Lemma seed_step_frame c x sd key w x' sd' w' :
  seed_step c (x, sd) key w = (Ok (x', sd'), w') ->
  x' = x
  \/ exists d v r,
       x = JDict d /\ Py.dict_get d key = Some v /\ kept_seed v = false
       /\ x' = JDict (Py.dict_set d key (JInt r)).
Proof.
  unfold seed_step. msimpl.
  destruct x as [| | | | | |d]; simpl; try discriminate.
  destruct (Py.dict_get d key) as [v|] eqn:Hget; simpl; [|discriminate].
  destruct (negb (Py.is_number v) || Py.eq_int v (-1))%bool eqn:Hrep; simpl.
  - intros H. right. exists d, v, (1 + rng w 0%nat mod (MAX_SEED - 1 + 1)).
    assert (Hk : kept_seed v = false).
    { unfold kept_seed. apply orb_true_iff in Hrep as [Hn|He].
      - apply negb_true_iff in Hn. by rewrite Hn.
      - rewrite He. by rewrite andb_false_r. }
    repeat split; try assumption.
    destruct (Py.py_in "Sampler" c) as [[|]|]; simpl in H; try discriminate;
      rewrite ?dict_get_set_eq in H; simpl in H.
    + by injection H as <- _ _.
    + destruct (main_seed sd); rewrite ?dict_get_set_eq in H; simpl in H;
        by injection H as <- _ _.
  - intros H. left.
    destruct (Py.py_in "Sampler" c) as [[|]|]; simpl in H; try discriminate;
      rewrite ?Hget in H; simpl in H.
    + destruct (Py.int v); simpl in H; [|discriminate].
      by injection H as <- _ _.
    + destruct (main_seed sd); rewrite ?Hget in H; simpl in H.
      * by injection H as <- _ _.
      * destruct (Py.int v); simpl in H; [|discriminate].
        by injection H as <- _ _.
Qed.

Lemma seed_loop_frame c keys x sd w x' sd' w' :
  for_eachM (seed_step c) keys (x, sd) w = (Ok (x', sd'), w') ->
  forall k v,
    field x k = Some v ->
    (In k keys -> kept_seed v = true) ->
    field x' k = Some v.
Proof.
  revert x sd w. induction keys as [|key keys IH]; intros x sd w Hloop k v.
  - msimpl. by injection Hloop as <- _ _.
  - cbn [for_eachM] in Hloop. unfold bind at 1 in Hloop.
    destruct (seed_step c (x, sd) key w) as [[[x1 sd1]|e] w1] eqn:Hstep;
      [|discriminate].
    intros Hf Hkept.
    apply (IH _ _ _ Hloop); [|intros Hin; apply Hkept; by right].
    apply seed_step_frame in Hstep
      as [->|(d & v0 & r & -> & Hget & Hk & ->)]; [assumption|].
    simpl in *. destruct (String.eqb_spec key k) as [->|Hne].
    + rewrite Hget in Hf. injection Hf as ->.
      rewrite Hkept in Hk; [discriminate | by left].
    + by rewrite dict_get_set_ne.
Qed.

Lemma select_seed_keys_sound ks keys :
  select_seed_keys ks = Ok keys ->
  forall k, In k keys -> seed_key k = true.
Proof.
  revert keys. induction ks as [|j ks IH]; intros keys; simpl.
  - intros [= <-] k [].
  - destruct j as [| | | |s| |]; try discriminate.
    destruct (select_seed_keys ks) as [rest|]; simpl; [|discriminate].
    destruct (seed_key s) eqn:Hs; intros [= <-] k.
    + intros [<-|Hin]; [assumption | by apply (IH rest)].
    + by apply (IH rest).
Qed.

Lemma seed_keys_sound x keys :
  seed_keys x = Ok keys -> forall k, In k keys -> seed_key k = true.
Proof.
  unfold seed_keys. destruct (Py.iter x) as [ks|]; simpl; [|discriminate].
  apply select_seed_keys_sound.
Qed.

Lemma fix_control_frame x x' :
  fix_control x = Ok x' ->
  forall k v,
    field x k = Some v ->
    (k = CONTROL -> Py.in_types v control_values = false) ->
    field x' k = Some v.
Proof.
  unfold fix_control. intros H k v Hf Hc.
  destruct x as [| | | | | |d]; simpl in Hf; try discriminate.
  simpl in H. unfold Py.dict_has in H.
  destruct (Py.dict_get d "control_after_generate") as [c|] eqn:Hget;
    simpl in H; [|by injection H as <-].
  destruct (Py.in_types c control_values) eqn:Hin; simpl in H;
    injection H as <-; [|assumption].
  simpl. destruct (String.eqb_spec "control_after_generate" k) as [<-|Hne].
  - rewrite Hget in Hf. injection Hf as ->.
    rewrite Hc in Hin; [discriminate | reflexivity].
  - by rewrite dict_get_set_ne.
Qed.

Lemma node_frame_refl v : node_frame v v.
Proof.
  split; [reflexivity|]. intros x Hx. exists x. split; [assumption|].
  by intros k val Hk _ _.
Qed.

Lemma enforce_node_frame sd v w v' sd' w' :
  enforce_node sd v w = (Ok (v', sd'), w') -> node_frame v v'.
Proof.
  unfold enforce_node.
  destruct v as [| | | | | |nd];
    try (msimpl; intros [= <- _ _]; apply node_frame_refl).
  destruct (Py.dict_get nd "inputs") as [x|] eqn:Hin;
    [|msimpl; intros [= <- _ _]; apply node_frame_refl].
  unfold bind at 1. unfold lift at 1.
  destruct (seed_keys x) as [keys|] eqn:Hkeys; [|discriminate].
  unfold bind at 1.
  destruct (for_eachM _ keys (x, sd) w) as [[[x1 sd1]|e] w1] eqn:Hloop;
    [|discriminate].
  unfold bind, lift, ret.
  destruct (fix_control x1) as [x2|] eqn:Hfix; [|discriminate].
  intros [= <- _ _]. split.
  - intros f Hf. simpl. by apply dict_get_set_ne.
  - intros x0. simpl. rewrite Hin. intros [= <-].
    exists x2. rewrite dict_get_set_eq. split; [reflexivity|].
    intros k val Hk Hseed Hctl.
    apply (fix_control_frame _ _ Hfix); [|assumption].
    apply (seed_loop_frame _ _ _ _ _ _ _ _ Hloop); [assumption|].
    intros Hmem. apply Hseed. by apply (seed_keys_sound _ _ Hkeys).
Qed.

Lemma enforce_nodes_frame g sd w g' sd' w' :
  enforce_nodes g sd w = (Ok (g', sd'), w') ->
  forall node_id v,
    Py.dict_get g node_id = Some v ->
    exists v', Py.dict_get g' node_id = Some v' /\ node_frame v v'.
Proof.
  revert sd w g' sd' w'.
  induction g as [|[k0 v0] g IH]; intros sd w g' sd' w' H node_id v.
  - discriminate.
  - cbn [enforce_nodes] in H. unfold bind at 1 in H.
    destruct (enforce_node sd v0 w) as [[[v0' sd1]|e] w1] eqn:Hnode;
      [|discriminate].
    unfold bind at 1 in H.
    destruct (enforce_nodes g sd1 w1) as [[[t' sd2]|e] w2] eqn:Hrest;
      [|discriminate].
    unfold ret in H. injection H as <- _ _. simpl.
    destruct (String.eqb_spec k0 node_id) as [->|Hne].
    + intros [= <-]. exists v0'. split; [reflexivity|].
      by apply enforce_node_frame in Hnode.
    + by apply (IH _ _ _ _ _ Hrest).
Qed.

Lemma enforce_input_frame g w g' s w' :
  _enforce_deterministic_workflow (JDict g) w = (Ok (JDict g', s), w') ->
  forall node_id k v,
    input_field g node_id k = Some v ->
    (seed_key k = true -> kept_seed v = true) ->
    (k = CONTROL -> Py.in_types v control_values = false) ->
    input_field g' node_id k = Some v.
Proof.
  unfold _enforce_deterministic_workflow, bind, ret.
  destruct (enforce_nodes g _ w) as [[[nodes' sd]|e] w1] eqn:Hnodes;
    [|discriminate].
  intros [= <- _ _] node_id k v. unfold input_field, node_field.
  destruct (Py.dict_get g node_id) as [node|] eqn:Hget; [|discriminate].
  destruct (enforce_nodes_frame _ _ _ _ _ _ Hnodes _ _ Hget)
    as (node' & -> & _ & Hinputs).
  destruct (field node "inputs") as [x|]; [|discriminate].
  destruct (Hinputs x eq_refl) as (x' & -> & Hframe).
  apply Hframe.
Qed.

(** ** The scan returns on enforceable graphs *)

Lemma seed_step_total c (i : dict) sd key v w :
  forallb seed_entry_ok i = true ->
  seed_key key = true ->
  Py.dict_get i key = Some v ->
  exists i1 sd1 w1,
    seed_step (JStr c) (JDict i, sd) key w = (Ok (JDict i1, sd1), w1)
    /\ (i1 = i \/ exists r, i1 = Py.dict_set i key (JInt r)).
Proof.
  intros Hall Hseed Hget. unfold seed_step. msimpl. rewrite Hget.
  destruct (negb (Py.is_number v) || Py.eq_int v (-1))%bool eqn:Hrep; msimpl.
  - destruct (Py.contains "Sampler" c); rewrite ?dict_get_set_eq; simpl.
    + do 3 eexists. split; [reflexivity|]. right. by eexists.
    + destruct (main_seed sd); rewrite ?dict_get_set_eq; simpl;
        do 3 eexists; (split; [reflexivity|]); right; by eexists.
  - assert (Hint : is_ok (Py.int v) = true).
    { rewrite forallb_forall in Hall.
      apply dict_get_In, Hall in Hget. unfold seed_entry_ok in Hget.
      simpl in Hget. rewrite Hseed in Hget. simpl in Hget.
      apply orb_false_iff in Hrep as [Hn He].
      apply negb_false_iff in Hn.
      unfold kept_seed in Hget. by rewrite Hn, He in Hget. }
    apply is_ok_inv in Hint as [n Hn].
    destruct (Py.contains "Sampler" c); rewrite ?Hget, ?Hn; simpl.
    + do 3 eexists. split; [reflexivity|]. by left.
    + destruct (main_seed sd); rewrite ?Hget, ?Hn; simpl;
        do 3 eexists; (split; [reflexivity|]); by left.
Qed.

Lemma dict_get_set_is_Some (d : dict) k v k' :
  is_Some (Py.dict_get d k') -> is_Some (Py.dict_get (Py.dict_set d k v) k').
Proof.
  intros H. destruct (String.eqb_spec k k') as [->|Hne].
  - rewrite dict_get_set_eq. by eexists.
  - by rewrite dict_get_set_ne.
Qed.

Lemma seed_loop_total keys c (i : dict) sd w :
  forallb seed_entry_ok i = true ->
  (forall key, In key keys ->
     seed_key key = true /\ is_Some (Py.dict_get i key)) ->
  exists i' sd' w',
    for_eachM (seed_step (JStr c)) keys (JDict i, sd) w
    = (Ok (JDict i', sd'), w').
Proof.
  revert i sd w. induction keys as [|key keys IH]; intros i sd w Hall Hkeys.
  - by do 3 eexists.
  - destruct (Hkeys key) as [Hseed [v Hget]]; [by left|].
    destruct (seed_step_total c i sd key v w Hall Hseed Hget)
      as (i1 & sd1 & w1 & Hstep & Hi1).
    destruct (IH i1 sd1 w1) as (i' & sd' & w' & Hrest).
    { destruct Hi1 as [->|[r ->]]; [assumption|].
      apply forallb_dict_set; [assumption|].
      unfold seed_entry_ok. simpl. by destruct (seed_key key), (kept_seed _). }
    { intros k Hk. destruct (Hkeys k) as [Hs Hsome]; [by right|].
      split; [assumption|].
      destruct Hi1 as [->|[r ->]]; [assumption|].
      by apply dict_get_set_is_Some. }
    exists i', sd', w'. cbn [for_eachM]. unfold bind at 1. by rewrite Hstep.
Qed.

Lemma seed_keys_present (i : dict) key :
  In key (List.filter seed_key (map fst i)) ->
  seed_key key = true /\ is_Some (Py.dict_get i key).
Proof.
  intros [Hin Hseed]%filter_In. split; [assumption|].
  induction i as [|[k v] i IH]; simpl in *; [contradiction|].
  destruct (String.eqb_spec k key) as [->|Hne]; [by eexists|].
  destruct Hin as [->|Hin]; [congruence | by apply IH].
Qed.

Lemma enforce_node_total strict v sd w :
  node_with seed_entry_ok strict v = true ->
  exists v' sd' w', enforce_node sd v w = (Ok (v', sd'), w').
Proof.
  destruct v as [| | | | | |nd]; simpl; try (by do 3 eexists).
  destruct (Py.dict_get nd "inputs") as [[| | | | | |i]|]; simpl;
    try discriminate; try (by do 3 eexists).
  intros [Hc Hi]%andb_true_iff.
  destruct (class_type_string nd Hc) as [c ->].
  unfold bind at 1. unfold lift at 1. rewrite seed_keys_dict.
  destruct (seed_loop_total (List.filter seed_key (map fst i)) c i sd w Hi)
    as (i' & sd' & w' & Hloop).
  { intros key. apply seed_keys_present. }
  unfold bind at 1. rewrite Hloop.
  unfold bind, lift, ret. rewrite fix_control_dict. by do 3 eexists.
Qed.

Lemma enforce_nodes_total strict g sd w :
  forallb (fun kv => node_with seed_entry_ok strict (snd kv)) g = true ->
  exists g' sd' w', enforce_nodes g sd w = (Ok (g', sd'), w').
Proof.
  revert sd w. induction g as [|[node_id v] g IH]; intros sd w Hg; simpl.
  - by do 3 eexists.
  - apply andb_true_iff in Hg as [Hv Hg]. simpl in Hv.
    destruct (enforce_node_total strict v sd w Hv) as (v' & sd1 & w1 & Hnode).
    destruct (IH sd1 w1 Hg) as (g' & sd' & w' & Hrest).
    do 3 eexists. unfold bind at 1. rewrite Hnode.
    unfold bind at 1. rewrite Hrest. reflexivity.
Qed.

Lemma enforce_total strict g w :
  forallb (fun kv => node_with seed_entry_ok strict (snd kv)) g = true ->
  exists g' s w',
    _enforce_deterministic_workflow (JDict g) w = (Ok (JDict g', s), w').
Proof.
  intros Hg. unfold _enforce_deterministic_workflow, bind, ret.
  destruct (enforce_nodes_total strict g
              {| ksampler_seed := None; main_seed := None |} w Hg)
    as (g' & sd & w' & ->).
  by do 3 eexists.
Qed.

(** C9: on a graph that the enforcer processes, the result is returned
    and every input field whose name neither contains "seed" (in any
    letter case) nor is "control_after_generate" is present in it with its
    original value, as is every field of a node other than its inputs;
    whenever the enforcer returns, on any graph, the same holds. *)
Theorem enforce_preserves_other_fields (g : dict) (w : world) :
  (enforceable g = true ->
   exists g' s w',
     _enforce_deterministic_workflow (JDict g) w = (Ok (JDict g', s), w'))
  /\ (forall fixed s w',
      _enforce_deterministic_workflow (JDict g) w = (Ok (fixed, s), w') ->
      exists g',
        fixed = JDict g'
        /\ (forall node_id k v,
             seed_key k = false -> k <> CONTROL ->
             input_field g node_id k = Some v ->
             input_field g' node_id k = Some v)
        /\ (forall node_id f v,
             f <> "inputs" ->
             node_field g node_id f = Some v ->
             node_field g' node_id f = Some v)).
Proof.
  split; [apply (enforce_total false)|].
  intros fixed s w' H.
  assert (Hd : exists g', fixed = JDict g').
  { unfold _enforce_deterministic_workflow, bind, ret in H.
    destruct (enforce_nodes g _ w) as [[[nodes' sd]|e] w1]; [|discriminate].
    injection H as <- _ _. by eexists. }
  destruct Hd as [g' ->]. exists g'. split; [reflexivity|]. split.
  - intros node_id k v Hk Hc Hf.
    apply (enforce_input_frame _ _ _ _ _ H _ _ _ Hf); [congruence | done].
  - intros node_id f v Hf. unfold node_field.
    unfold _enforce_deterministic_workflow, bind, ret in H.
    destruct (enforce_nodes g _ w) as [[[nodes' sd]|e] w1] eqn:Hnodes;
      [|discriminate].
    injection H as <- _ _.
    destruct (Py.dict_get g node_id) as [node|] eqn:Hget; [|discriminate].
    destruct (enforce_nodes_frame _ _ _ _ _ _ Hnodes _ _ Hget)
      as (node' & -> & Hfields & _).
    by rewrite Hfields.
Qed.

Lemma enforce_preserves_witness :
  enforceable seeded_graph = true
  /\ exists g' s w',
       _enforce_deterministic_workflow (JDict seeded_graph) empty_world
       = (Ok (JDict g', s), w')
       /\ input_field g' "3" "steps" = Some (JInt 20).
Proof.
  split; [reflexivity|].
  destruct (proj1 (enforce_preserves_other_fields seeded_graph empty_world)
              eq_refl) as (g' & s & w' & H).
  exists g', s, w'. split; [exact H|].
  destruct (proj2 (enforce_preserves_other_fields seeded_graph empty_world)
              _ _ _ H) as (g2 & Heq & Hin & _).
  injection Heq as ->.
  apply Hin; [reflexivity | discriminate | reflexivity].
Defined.

(** ** Writing an input of a well-formed template *)

Lemma dict_has_set (d : dict) k v k' :
  Py.dict_has d k = true ->
  Py.dict_has (Py.dict_set d k v) k' = Py.dict_has d k'.
Proof.
  unfold Py.dict_has. intros Hk.
  destruct (String.eqb_spec k k') as [->|Hne].
  - rewrite dict_get_set_eq. exact (eq_sym Hk).
  - by rewrite dict_get_set_ne.
Qed.

Lemma well_formed_lookup g node_id :
  well_formed_template g = true ->
  Py.dict_has g node_id = true ->
  exists nd i,
    Py.dict_get g node_id = Some (JDict nd)
    /\ Py.dict_get nd "inputs" = Some (JDict i)
    /\ absent_or is_string (Py.dict_get nd "class_type") = true
    /\ forallb seed_entry_ok i = true.
Proof.
  unfold well_formed_template, Py.dict_has. rewrite forallb_forall.
  intros Hg Hhas.
  destruct (Py.dict_get g node_id) as [node|] eqn:Hget; [|discriminate].
  pose proof (Hg _ (dict_get_In _ _ _ Hget)) as Hnode. simpl in Hnode.
  destruct node as [| | | | | |nd]; try discriminate. simpl in Hnode.
  destruct (Py.dict_get nd "inputs") as [[| | | | | |i]|] eqn:Hin;
    try discriminate.
  apply andb_true_iff in Hnode as [Hc Hi]. by exists nd, i.
Qed.

Lemma update_input g node_id k v :
  well_formed_template g = true ->
  Py.dict_has g node_id = true ->
  update_at (JDict g) [node_id; "inputs"] k v
  = Ok (JDict (set_input g node_id k v)).
Proof.
  intros Hg Hhas.
  destruct (well_formed_lookup g node_id Hg Hhas) as (nd & i & Hn & Hi & _).
  unfold set_input. simpl. rewrite Hn. simpl. by rewrite Hi.
Qed.

Lemma well_formed_set_input g node_id k v :
  well_formed_template g = true ->
  seed_entry_ok (k, v) = true ->
  well_formed_template (set_input g node_id k v) = true.
Proof.
  intros Hg Hv. unfold set_input.
  destruct (Py.dict_get g node_id) as [[| | | | | |nd]|] eqn:Hn;
    try assumption.
  destruct (Py.dict_get nd "inputs") as [[| | | | | |i]|] eqn:Hi;
    try assumption.
  destruct (well_formed_lookup g node_id Hg) as (nd' & i' & Hn' & Hi' & Hc & Hs).
  { unfold Py.dict_has. by rewrite Hn. }
  rewrite Hn in Hn'. injection Hn' as <-.
  rewrite Hi in Hi'. injection Hi' as <-.
  apply forallb_dict_set; [assumption|]. simpl.
  rewrite dict_get_set_eq, dict_get_set_ne by discriminate.
  rewrite Hc. simpl. by apply forallb_dict_set.
Qed.

Lemma dict_has_set_input g node_id k v node_id' :
  Py.dict_has (set_input g node_id k v) node_id' = Py.dict_has g node_id'.
Proof.
  unfold set_input.
  destruct (Py.dict_get g node_id) as [[| | | | | |nd]|] eqn:Hn;
    try reflexivity.
  destruct (Py.dict_get nd "inputs") as [[| | | | | |i]|]; try reflexivity.
  apply dict_has_set. unfold Py.dict_has. by rewrite Hn.
Qed.

Lemma input_field_set_input_eq g node_id k v :
  well_formed_template g = true ->
  Py.dict_has g node_id = true ->
  input_field (set_input g node_id k v) node_id k = Some v.
Proof.
  intros Hg Hhas.
  destruct (well_formed_lookup g node_id Hg Hhas) as (nd & i & Hn & Hi & _).
  unfold set_input, input_field, node_field. rewrite Hn, Hi.
  rewrite dict_get_set_eq. simpl. rewrite dict_get_set_eq. simpl.
  apply dict_get_set_eq.
Qed.

Lemma input_field_set_input_keep g node_id k v node_id' k' v' :
  input_field g node_id' k' = Some v' ->
  (node_id' = node_id -> k' = k -> v' = v) ->
  input_field (set_input g node_id k v) node_id' k' = Some v'.
Proof.
  intros Hf Hsame. unfold set_input.
  destruct (Py.dict_get g node_id) as [[| | | | | |nd]|] eqn:Hn;
    try assumption.
  destruct (Py.dict_get nd "inputs") as [[| | | | | |i]|] eqn:Hi;
    try assumption.
  unfold input_field, node_field in *.
  destruct (String.eqb_spec node_id node_id') as [<-|Hne].
  - rewrite Hn in Hf. simpl in Hf. rewrite Hi in Hf. simpl in Hf.
    rewrite dict_get_set_eq. simpl. rewrite dict_get_set_eq. simpl.
    destruct (String.eqb_spec k k') as [<-|Hk].
    + rewrite dict_get_set_eq. f_equal. symmetry. by apply Hsame.
    + by rewrite dict_get_set_ne.
  - by rewrite dict_get_set_ne.
Qed.

(** ** The preparer and the store *)

(** C10: with an index that the registry does not hold, the preparer
    returns the triple of nones, raises nothing, and leaves the store and
    the random generator as they are. *)
Theorem prepare_unknown_index (self : WorkflowParser) (workflow_index : Z)
    (positive_prompt negative_prompt : string) (seed : option Z)
    (input_image_filename : option string) (w : world) :
  workflows self !! workflow_index = None ->
  prepare_workflow self workflow_index positive_prompt negative_prompt seed
    input_image_filename w
  = (Ok (None, None, None), w).
Proof.
  intros Hnone. unfold prepare_workflow, get_workflow. by rewrite Hnone.
Qed.

Lemma prepare_unknown_index_witness :
  workflows sample_parser !! 2 = None
  /\ prepare_workflow sample_parser 2 "a cat" "blurry" (Some 7) None
       sample_world
     = (Ok (None, None, None), sample_world).
Proof.
  split; [reflexivity|].
  apply (prepare_unknown_index sample_parser 2). reflexivity.
Defined.

Lemma keeps_ret {A} n (a : A) (Q : A -> Prop) : Q a -> keeps n (ret a) Q.
Proof.
  intros Ha w r w' [= <- <-] Hn. repeat split; [assumption|].
  by intros a' [= <-].
Qed.

Lemma keeps_lift {A} n (c : outcome A) : keeps n (lift c) (fun _ => True).
Proof. intros w r w' [= <- <-] Hn. by repeat split. Qed.

Lemma keeps_weaken {A} n (c : M A) (Q : A -> Prop) :
  keeps n c Q -> keeps n c (fun _ => True).
Proof.
  intros Hc w r w' Hrun Hn. destruct (Hc w r w' Hrun Hn) as (H1 & H2 & _).
  by repeat split.
Qed.

Lemma keeps_bind {A B} n (c : M A) (k : A -> M B) Q R :
  keeps n c Q ->
  (forall a, Q a -> keeps n (k a) R) ->
  keeps n (bind c k) R.
Proof.
  intros Hc Hk w r w' Hrun Hn. unfold bind in Hrun.
  destruct (c w) as [[a|e] w1] eqn:Hcw.
  - destruct (Hc w _ _ Hcw Hn) as (H1 & H2 & Ha).
    destruct (Hk a (Ha a eq_refl) w1 r w' Hrun H2) as (H3 & H4 & Hr).
    repeat split; [|assumption|assumption].
    intros o Ho. by rewrite H3, H1.
  - injection Hrun as <- <-.
    destruct (Hc w _ _ Hcw Hn) as (H1 & H2 & _).
    repeat split; [assumption|assumption|discriminate].
Qed.

Lemma keeps_read n o : keeps n (read o) (fun _ => True).
Proof.
  intros w r w' Hrun Hn. unfold read in Hrun.
  destruct (store w !! o); injection Hrun as <- <-; by repeat split.
Qed.

Lemma keeps_write n o v :
  (n <= o)%nat -> keeps n (write o v) (fun _ => True).
Proof.
  intros Ho w r w' [= <- <-] Hn. simpl. repeat split.
  - intros o' Ho'. apply list_lookup_insert_ne. lia.
  - by rewrite length_insert.
Qed.

Lemma keeps_alloc n v : keeps n (alloc v) (fun o => (n <= o)%nat).
Proof.
  intros w r w' [= <- <-] Hn. simpl. repeat split.
  - intros o Ho. apply lookup_app_l. lia.
  - rewrite length_app. lia.
  - by intros a [= <-].
Qed.

Lemma keeps_randint n lo hi : keeps n (randint lo hi) (fun _ => True).
Proof. intros w r w' [= <- <-] Hn. by repeat split. Qed.

Lemma keeps_assign n o path k v :
  (n <= o)%nat -> keeps n (assign o path k v) (fun _ => True).
Proof.
  intros Ho. unfold assign.
  apply (keeps_bind _ _ _ _ _ (keeps_read n o)). intros x _.
  apply (keeps_bind _ _ _ _ _ (keeps_lift n _)). intros x' _.
  by apply keeps_write.
Qed.

Lemma keeps_for_eachM {S X} n (body : S -> X -> M S) xs :
  (forall s x, keeps n (body s x) (fun _ => True)) ->
  forall s, keeps n (for_eachM body xs s) (fun _ => True).
Proof.
  intros Hbody. induction xs as [|x xs IH]; intros s; simpl.
  - by apply keeps_ret.
  - apply (keeps_bind _ _ _ _ _ (Hbody s x)). intros s' _. apply IH.
Qed.

Lemma keeps_write_prompt n o node fld text :
  (n <= o)%nat -> keeps n (write_prompt o node fld text) (fun _ => True).
Proof.
  intros Ho. unfold write_prompt.
  destruct node as [node_id|]; [|by apply keeps_ret].
  destruct (Py.truthy (Some node_id)); [|by apply keeps_ret].
  apply (keeps_bind _ _ _ _ _ (keeps_read n o)). intros g _.
  apply (keeps_bind _ _ _ _ _ (keeps_lift n _)). intros [|] _.
  - by apply keeps_assign.
  - by apply keeps_ret.
Qed.

Lemma keeps_write_seed n o actual_seed u sampler_id :
  (n <= o)%nat ->
  keeps n (write_seed o actual_seed u sampler_id) (fun _ => True).
Proof.
  intros Ho. unfold write_seed.
  apply (keeps_bind _ _ _ _ _ (keeps_read n o)). intros g _.
  apply (keeps_bind _ _ _ _ _ (keeps_lift n _)). intros [|] _;
    [|by apply keeps_ret].
  apply (keeps_bind _ _ _ _ _ (keeps_lift n _)). intros node _.
  apply (keeps_bind _ _ _ _ _ (keeps_lift n _)). intros has_inputs _.
  apply (keeps_bind _ _ _ (fun _ => True) (fun _ => True)).
  - destruct has_inputs; [by apply keeps_ret | by apply keeps_assign].
  - intros _ _. by apply keeps_assign.
Qed.

Lemma keeps_write_image n o mapping image :
  (n <= o)%nat -> keeps n (write_image o mapping image) (fun _ => True).
Proof.
  intros Ho. unfold write_image.
  destruct image as [filename|]; [|by apply keeps_ret].
  destruct (load_image_node mapping) as [node_id|]; [|by apply keeps_ret].
  destruct (_ && _); [|by apply keeps_ret].
  apply (keeps_bind _ _ _ _ _ (keeps_read n o)). intros g _.
  apply (keeps_bind _ _ _ _ _ (keeps_lift n _)). intros [|] _.
  - by apply keeps_assign.
  - by apply keeps_ret.
Qed.

Lemma keeps_prepare n self workflow_index positive_prompt negative_prompt
    seed input_image_filename :
  keeps n
    (prepare_workflow self workflow_index positive_prompt negative_prompt
       seed input_image_filename)
    (fun _ => True).
Proof.
  unfold prepare_workflow.
  destruct (get_workflow self workflow_index) as [wi|];
    [|by apply keeps_ret].
  apply (keeps_bind _ _ _ (fun o => (n <= o)%nat) _).
  { unfold deepcopy.
    apply (keeps_bind _ _ _ _ _ (keeps_read n _)). intros v _.
    apply keeps_alloc. }
  intros workflow Ho.
  apply (keeps_bind _ _ _ _ _ (keeps_write_prompt n _ _ _ _ Ho)). intros _ _.
  apply (keeps_bind _ _ _ _ _ (keeps_write_prompt n _ _ _ _ Ho)). intros _ _.
  apply (keeps_bind _ _ _ (fun _ => True)).
  { destruct seed; [by apply keeps_ret | apply keeps_randint]. }
  intros actual_seed _.
  apply (keeps_bind _ _ _ (fun _ => True)).
  { apply keeps_for_eachM. intros u x. by apply keeps_write_seed. }
  intros _ _.
  apply (keeps_bind _ _ _ _ _ (keeps_write_image n _ _ _ Ho)). intros _ _.
  by apply keeps_ret.
Qed.

(** C8: whatever the index, the prompts, the seed and the image name, and
    whether the preparer returns or raises, every object that was in the
    store before the call, the template graphs of the registry among them,
    is in the store after the call with the same contents. *)
Theorem prepare_never_mutates_templates (self : WorkflowParser)
    (workflow_index : Z) (positive_prompt negative_prompt : string)
    (seed : option Z) (input_image_filename : option string) (w : world)
    (o : oid) (v : json) :
  store w !! o = Some v ->
  store (snd (prepare_workflow self workflow_index positive_prompt
                negative_prompt seed input_image_filename w)) !! o
  = Some v.
Proof.
  intros Hv.
  destruct (prepare_workflow self workflow_index positive_prompt
              negative_prompt seed input_image_filename w) as [r w'] eqn:Hrun.
  destruct (keeps_prepare (length (store w)) _ _ _ _ _ _ w r w' Hrun)
    as (Hkeep & _); [lia|].
  simpl. rewrite Hkeep; [assumption|]. by apply lookup_lt_Some in Hv.
Qed.

Lemma prepare_never_mutates_witness :
  store sample_world !! workflow_data sample_info = Some (JDict seeded_graph)
  /\ store (snd (prepare_workflow sample_parser 1 "a cat" "blurry" (Some 7)
                   None sample_world)) !! workflow_data sample_info
     = Some (JDict seeded_graph).
Proof.
  split; [reflexivity|].
  apply (prepare_never_mutates_templates sample_parser 1). reflexivity.
Defined.

(** ** The sampler list of the classifier *)

Lemma analyze_step_samplers m acc item sid :
  In sid (sampler_nodes (fst (analyze_step (m, acc) item))) ->
  In sid (sampler_nodes m) \/ sid = fst item.
Proof.
  destruct item as [node_id [| | | | | |nd]]; simpl; try (by left).
  destruct (Py.in_types _ TRT_LOADER_TYPES);
    repeat match goal with
           | |- context [if ?b then _ else _] => destruct b
           end; simpl; try (by left);
    rewrite in_app_iff; simpl; intros [H|[<-|[]]]; auto.
Qed.

Lemma analyze_fold_samplers g m acc sid :
  In sid (sampler_nodes (fst (fold_left analyze_step g (m, acc)))) ->
  In sid (sampler_nodes m) \/ In sid (map fst g).
Proof.
  revert m acc. induction g as [|item g IH]; intros m acc;
    cbn [fold_left map]; [by left|].
  pose proof (analyze_step_samplers m acc item sid) as Hstep.
  destruct (analyze_step (m, acc) item) as [m1 acc1]. simpl in Hstep.
  intros [H|H]%IH.
  - destruct (Hstep H) as [?| ->]; [by left | right; by left].
  - right. by right.
Qed.

Lemma for_each_invariant {S X} (body : S -> X -> outcome S) (P : S -> Prop) :
  (forall s x s', body s x = Ok s' -> P s -> P s') ->
  forall xs s s', for_each body xs s = Ok s' -> P s -> P s'.
Proof.
  intros Hbody. induction xs as [|x xs IH]; intros s s'; simpl.
  - by intros [= <-].
  - destruct (body s x) as [s1|] eqn:Hs; simpl; [|discriminate].
    intros Hrest Hp. apply (IH _ _ Hrest). by apply (Hbody _ _ _ Hs).
Qed.

Lemma sampler_nodes_assign_positive m o :
  sampler_nodes (assign_positive m o) = sampler_nodes m.
Proof. by destruct o. Qed.

Lemma sampler_nodes_assign_negative m o :
  sampler_nodes (assign_negative m o) = sampler_nodes m.
Proof. by destruct o. Qed.

Section SamplerList.

Variable py_repr : json -> string.

Lemma classify_by_links_samplers m g ids m' :
  classify_by_links py_repr m g ids = Ok m' ->
  sampler_nodes m' = sampler_nodes m.
Proof.
  unfold classify_by_links.
  destruct (sampler_node m) as [sid|]; [|by intros [= <-]].
  destruct (Py.truthy (Some sid)); [|by intros [= <-]].
  destruct (Py.dict_get g sid) as [sampler|]; [|by intros [= <-]].
  destruct (Py.get sampler "inputs" (JDict [])) as [x|]; simpl;
    [|discriminate].
  destruct (Py.get x "positive" (JList [])) as [p|]; simpl; [|discriminate].
  destruct (Py.get x "negative" (JList [])) as [n|]; simpl; [|discriminate].
  destruct (resolve_polarity py_repr p g ids) as [rp|]; simpl;
    [|discriminate].
  destruct (resolve_polarity py_repr n g ids) as [rn|]; simpl;
    [|discriminate].
  intros [= <-].
  by rewrite sampler_nodes_assign_negative, sampler_nodes_assign_positive.
Qed.

Lemma title_step_samplers l m item m' :
  title_step m item = Ok m' ->
  sampler_nodes m = l -> sampler_nodes m' = l.
Proof.
  destruct item as [node_id nd]. unfold title_step.
  destruct (already_assigned m node_id); [by intros [= <-]|].
  destruct (Py.get (JDict nd) "_meta" (JDict [])) as [meta|]; simpl;
    [|discriminate].
  destruct (Py.get meta "title" (JStr "")) as [t|]; simpl; [|discriminate].
  destruct (Py.lower_of t) as [title|]; simpl; [|discriminate].
  repeat match goal with
         | |- context [if ?b then _ else _] => destruct b
         end; by intros [= <-].
Qed.

Lemma text_step_samplers l m item m' :
  text_step m item = Ok m' ->
  sampler_nodes m = l -> sampler_nodes m' = l.
Proof.
  destruct item as [node_id nd]. unfold text_step.
  destruct (already_assigned m node_id); [by intros [= <-]|].
  destruct (Py.get (JDict nd) "inputs" (JDict [])) as [x|]; simpl;
    [|discriminate].
  destruct (Py.get x "text" (JStr "")) as [t|]; simpl; [|discriminate].
  destruct (Py.lower_of t) as [text|]; simpl; [|discriminate].
  repeat match goal with
         | |- context [if ?b then _ else _] => destruct b
         end; by intros [= <-].
Qed.

Lemma order_step_samplers l m item m' :
  order_step m item = Ok m' ->
  sampler_nodes m = l -> sampler_nodes m' = l.
Proof.
  destruct item as [node_id nd]. unfold order_step.
  repeat match goal with
         | |- context [if ?b then _ else _] => destruct b
         end; by intros [= <-].
Qed.

Lemma classify_clip_nodes_samplers cl m g m' :
  _classify_clip_nodes py_repr cl m g = Ok m' ->
  sampler_nodes m' = sampler_nodes m.
Proof.
  unfold _classify_clip_nodes.
  destruct cl as [|[id1 nd1] [|item2 cl]];
    [by intros [= <-] | by intros [= <-] |].
  set (nodes := (id1, nd1) :: item2 :: cl).
  destruct (classify_by_links py_repr m g (map fst nodes)) as [m1|] eqn:H1;
    cbn [obind]; [|discriminate].
  apply classify_by_links_samplers in H1.
  destruct (_ && _); [by intros [= <-]|].
  destruct (for_each title_step nodes m1) as [m2|] eqn:H2; cbn [obind];
    [|discriminate].
  destruct (for_each text_step nodes m2) as [m3|] eqn:H3; cbn [obind];
    [|discriminate].
  intros H4.
  apply (for_each_invariant _ _ (order_step_samplers (sampler_nodes m))
           _ _ _ H4).
  apply (for_each_invariant _ _ (text_step_samplers (sampler_nodes m))
           _ _ _ H3).
  by apply (for_each_invariant _ _ (title_step_samplers (sampler_nodes m))
              _ _ _ H2).
Qed.

Lemma dict_has_keys (g : dict) k :
  In k (map fst g) -> Py.dict_has g k = true.
Proof.
  unfold Py.dict_has. induction g as [|[k' v] g IH]; simpl; [intros []|].
  destruct (String.eqb_spec k' k) as [->|Hne]; [reflexivity|].
  intros [->|Hin]; [congruence | by apply IH].
Qed.

Lemma analyze_samplers_in_graph g mapping sid :
  _analyze_workflow_nodes py_repr g = Ok mapping ->
  In sid (sampler_nodes mapping) ->
  Py.dict_has g sid = true.
Proof.
  unfold _analyze_workflow_nodes.
  pose proof (analyze_fold_samplers g default_mapping [] sid) as Hfold.
  destruct (fold_left analyze_step g (default_mapping, [])) as [m cl].
  simpl in Hfold. intros Hc Hin.
  rewrite (classify_clip_nodes_samplers _ _ _ _ Hc) in Hin.
  destruct (Hfold Hin) as [[]|Hk]. by apply dict_has_keys.
Qed.

End SamplerList.

(** ** The preparer on a well-formed template *)

Lemma seed_entry_ok_str k s : seed_entry_ok (k, JStr s) = true.
Proof. unfold seed_entry_ok. simpl. by destruct (seed_key k). Qed.

Lemma seed_entry_ok_int k z : seed_entry_ok (k, JInt z) = true.
Proof.
  unfold seed_entry_ok. simpl. by destruct (seed_key k), (kept_seed _).
Qed.

(** C1, as stated, fails for the caller seed -1: the preparer writes -1
    into the sampler and returns it as the used seed, and the enforcer
    replaces the sampler's seed with a fresh draw. *)
Lemma enforce_replaces_caller_seed_minus_one :
  exists fixed w',
    prepare_and_enforce sample_parser 1 "a cat" "blurry" (Some (-1)) None
      sample_world
    = (Ok (Some (JDict fixed, Some (-1))), w')
    /\ In "3" (sampler_nodes (node_mapping sample_info))
    /\ input_field fixed "3" "seed" = Some (JInt 1)
    /\ input_field fixed "3" "seed" <> Some (JInt (-1)).
Proof.
  eexists. eexists. split; [|split; [|split]].
  - vm_compute. reflexivity.
  - by left.
  - reflexivity.
  - discriminate.
Qed.

(** ** Terminal classifications of the orchestrator *)

Section OrchestratorProps.

Variable post_prompt : json -> option (Z * option string).
Variable get_image : json -> json -> json -> option (list Byte.byte).
Variable client_id : string.

Lemma execute_after_submit workflow timeout_seconds known_seed polls w pid
    detected_seed w1 :
  queue_prompt post_prompt client_id workflow w
  = (Ok (Some pid, detected_seed), w1) ->
  Py.truthy (Some pid) = true ->
  execute_workflow post_prompt get_image client_id workflow timeout_seconds
    known_seed polls w
  = match wait_for_completion pid timeout_seconds polls with
    | None => (Ok None, w1)
    | Some (Raise e) => (Raise e, w1)
    | Some (Ok (success, result, status_msg)) =>
        let used_seed := used_seed_of known_seed detected_seed in
        if negb success
        then (Ok (Some (false, None, status_msg, used_seed)), w1)
        else
          match select_image result with
          | Raise e => (Raise e, w1)
          | Ok (Some img) =>
              let image_data :=
                get_image (filename img) (subfolder img) (folder_type img) in
              if truthy_bytes image_data
              then (Ok (Some (true, image_data, MSG_SUCCESS, used_seed)), w1)
              else (Ok (Some (false, None, MSG_NO_IMAGE, used_seed)), w1)
          | Ok None => (Ok (Some (false, None, MSG_NO_IMAGE, used_seed)), w1)
          end
    end.
Proof.
  intros Hq Hpid. unfold execute_workflow. unfold bind at 1. rewrite Hq.
  rewrite Hpid. unfold used_seed_of.
  destruct (wait_for_completion pid timeout_seconds polls)
    as [[[[success result] status_msg]|e]|]; try reflexivity.
  destruct success; simpl; [|reflexivity].
  unfold bind, lift, ret.
  destruct (select_image result) as [[img|]|e]; try reflexivity.
  by destruct (truthy_bytes _).
Qed.

(** C3 (amended): once a job is submitted, a run that completes without
    any image and a run whose chosen image cannot be fetched both resolve
    to the same failure, "output image not found"; a run that the poll
    loop ends as failed resolves to the failure message of the poll loop;
    and "output image not found" differs from the execution-error, the
    timeout and the submit-failed messages. *)
Theorem execute_failure_classification (workflow : json)
    (timeout_seconds : Z) (known_seed : option Z)
    (polls : list (Q * option json)) (w : world) (pid : string)
    (detected_seed : option Z) (w1 : world) :
  queue_prompt post_prompt client_id workflow w
  = (Ok (Some pid, detected_seed), w1) ->
  Py.truthy (Some pid) = true ->
  (forall result status_msg target,
      wait_for_completion pid timeout_seconds polls
      = Some (Ok (true, result, status_msg)) ->
      select_image result = Ok target ->
      fetch_fails get_image target ->
      execute_workflow post_prompt get_image client_id workflow
        timeout_seconds known_seed polls w
      = (Ok (Some (false, None, MSG_NO_IMAGE,
                   used_seed_of known_seed detected_seed)), w1))
  /\ (forall result status_msg,
      wait_for_completion pid timeout_seconds polls
      = Some (Ok (false, result, status_msg)) ->
      execute_workflow post_prompt get_image client_id workflow
        timeout_seconds known_seed polls w
      = (Ok (Some (false, None, status_msg,
                   used_seed_of known_seed detected_seed)), w1))
  /\ MSG_NO_IMAGE <> MSG_EXEC_ERROR
  /\ MSG_NO_IMAGE <> MSG_TIMEOUT timeout_seconds
  /\ MSG_NO_IMAGE <> MSG_SUBMIT_FAILED.
Proof.
  intros Hq Hpid.
  pose proof (execute_after_submit workflow timeout_seconds known_seed polls
                w pid detected_seed w1 Hq Hpid) as Hrun.
  split; [|split; [|split; [|split]]].
  - intros result status_msg target Hwait Hsel Hfail.
    rewrite Hrun, Hwait. simpl. rewrite Hsel.
    destruct target as [img|]; [|reflexivity].
    simpl in Hfail. by rewrite Hfail.
  - intros result status_msg Hwait. by rewrite Hrun, Hwait.
  - discriminate.
  - discriminate.
  - discriminate.
Qed.

End OrchestratorProps.

Lemma history_verdict_error prompt_id outputs messages :
  history_verdict prompt_id
    (Some (JDict [(prompt_id,
                   JDict [("outputs", outputs);
                          ("status", JDict [("status_str", JStr "error");
                                            ("messages", messages)])])]))
  = Ok (Some (false, None, MSG_EXEC_ERROR)).
Proof.
  unfold history_verdict. simpl. unfold Py.dict_has. simpl.
  by rewrite String.eqb_refl.
Qed.

(** C3, as stated, fails: a completed job without any image and a
    completed job whose image cannot be fetched resolve to one and the same
    result; the code has no classification of its own for the failed
    fetch. *)
Lemma fetch_failure_is_classified_as_no_image :
  select_image
    (Some (JDict [("outputs", JDict [("9", JDict [("images", JList [])])])]))
  = Ok None
  /\ (exists img,
        select_image
          (Some (JDict [("outputs",
                         JDict [("9",
                                 JDict [("images",
                                         JList [JDict [("filename", JStr "out.png");
                                                       ("subfolder", JStr "");
                                                       ("type", JStr "output")]])])])]))
        = Ok (Some img))
  /\ execute_workflow accept_all no_bytes "client" (JDict seeded_graph) 120
       None [(0%Q, Some history_with_image)] empty_world
     = execute_workflow accept_all no_bytes "client" (JDict seeded_graph) 120
         None [(0%Q, Some history_without_image)] empty_world
  /\ fst (execute_workflow accept_all no_bytes "client" (JDict seeded_graph)
            120 None [(0%Q, Some history_with_image)] empty_world)
     = Ok (Some (false, None, MSG_NO_IMAGE, Some 42)).
Proof.
  split; [reflexivity|]. split; [by eexists|]. split; reflexivity.
Qed.

Lemma execute_failure_witness :
  execute_workflow accept_all no_bytes "client" (JDict seeded_graph) 120
    None [(0%Q, Some history_with_image)] empty_world
  = (Ok (Some (false, None, MSG_NO_IMAGE, Some 42)), empty_world).
Proof.
  apply (proj1 (execute_failure_classification accept_all no_bytes "client"
                  (JDict seeded_graph) 120 None
                  [(0%Q, Some history_with_image)] empty_world "42"
                  (Some 42) empty_world eq_refl eq_refl)
           (Some (JDict [("outputs",
                          JDict [("9",
                                  JDict [("images",
                                          JList [JDict [("filename", JStr "out.png");
                                                        ("subfolder", JStr "");
                                                        ("type", JStr "output")]])])])]))
           MSG_EXEC_DONE
           (Some {| filename := JStr "out.png"; subfolder := JStr "";
                    folder_type := JStr "output" |}));
    reflexivity.
Defined.

(** ** The first pass of the classifier, role by role *)

Ltac in_taxonomy H :=
  apply bool_decide_eq_true in H;
  repeat (apply elem_of_cons in H as [->|H]);
  [.. | by apply elem_of_nil in H].

Lemma clip_excludes c :
  Py.in_types c CLIP_TEXT_ENCODE_TYPES = true ->
  Py.in_types c LATENT_IMAGE_TYPES = false
  /\ Py.in_types c SAMPLER_TYPES = false
  /\ Py.in_types c LOAD_IMAGE_TYPES = false
  /\ Py.in_types c OUTPUT_TYPES = false.
Proof.
  destruct c as [| | | |s| |]; try discriminate. simpl. intros H.
  in_taxonomy H; by vm_compute.
Qed.

Lemma latent_excludes c :
  Py.in_types c LATENT_IMAGE_TYPES = true ->
  Py.in_types c SAMPLER_TYPES = false
  /\ Py.in_types c LOAD_IMAGE_TYPES = false
  /\ Py.in_types c OUTPUT_TYPES = false.
Proof.
  destruct c as [| | | |s| |]; try discriminate. simpl. intros H.
  in_taxonomy H; by vm_compute.
Qed.

Lemma sampler_excludes c :
  Py.in_types c SAMPLER_TYPES = true ->
  Py.in_types c LOAD_IMAGE_TYPES = false
  /\ Py.in_types c OUTPUT_TYPES = false.
Proof.
  destruct c as [| | | |s| |]; try discriminate. simpl. intros H.
  in_taxonomy H; by vm_compute.
Qed.

Lemma load_excludes c :
  Py.in_types c LOAD_IMAGE_TYPES = true ->
  Py.in_types c OUTPUT_TYPES = false.
Proof.
  destruct c as [| | | |s| |]; try discriminate. simpl. intros H.
  in_taxonomy H; by vm_compute.
Qed.

Lemma mapping_eta (m : WorkflowNodeMapping) :
  m = {| positive_prompt_node := positive_prompt_node m;
         negative_prompt_node := negative_prompt_node m;
         latent_image_node := latent_image_node m;
         sampler_node := sampler_node m;
         sampler_nodes := sampler_nodes m;
         load_image_node := load_image_node m;
         output_node := output_node m;
         positive_prompt_field := positive_prompt_field m;
         negative_prompt_field := negative_prompt_field m;
         has_tensorrt := has_tensorrt m |}.
Proof. by destruct m. Qed.

Lemma analyze_step_roles m acc item :
  fst (analyze_step (m, acc) item) = step_roles m item.
Proof.
  destruct item as [node_id v]. unfold step_roles, is_class.
  destruct v as [| | | | | |nd]; simpl;
    try (rewrite app_nil_r, orb_false_r; apply mapping_eta).
  fold (class_of nd). set (c := class_of nd).
  destruct (Py.in_types c TRT_LOADER_TYPES) eqn:Htrt;
    rewrite ?orb_true_r, ?orb_false_r;
    (destruct (Py.in_types c CLIP_TEXT_ENCODE_TYPES) eqn:Hclip;
     [destruct (clip_excludes c Hclip) as (-> & -> & -> & ->); simpl;
      rewrite app_nil_r; destruct m; reflexivity|]);
    (destruct (Py.in_types c LATENT_IMAGE_TYPES) eqn:Hlat;
     [destruct (latent_excludes c Hlat) as (-> & -> & ->); simpl;
      rewrite app_nil_r; destruct m; reflexivity|]);
    (destruct (Py.in_types c SAMPLER_TYPES) eqn:Hsam;
     [destruct (sampler_excludes c Hsam) as (-> & ->); simpl;
      destruct m; reflexivity|]);
    (destruct (Py.in_types c LOAD_IMAGE_TYPES) eqn:Hload;
     [rewrite (load_excludes c Hload); simpl;
      rewrite app_nil_r; destruct m; reflexivity|]);
    destruct (Py.in_types c OUTPUT_TYPES); simpl;
    rewrite app_nil_r; destruct m; reflexivity.
Qed.

Lemma fold_roles g m acc :
  fst (fold_left analyze_step g (m, acc)) = fold_left step_roles g m.
Proof.
  revert m acc. induction g as [|item g IH]; intros m acc;
    cbn [fold_left]; [reflexivity|].
  pose proof (analyze_step_roles m acc item) as Hs.
  destruct (analyze_step (m, acc) item) as [m1 acc1]. simpl in Hs.
  by rewrite IH, Hs.
Qed.

Lemma ids_of_class_cons tys item g :
  ids_of_class tys (item :: g)
  = if is_class tys item then fst item :: ids_of_class tys g
    else ids_of_class tys g.
Proof. unfold ids_of_class. simpl. by destruct (is_class tys item). Qed.

Lemma fold_sampler_nodes g m :
  sampler_nodes (fold_left step_roles g m)
  = (sampler_nodes m ++ ids_of_class SAMPLER_TYPES g)%list.
Proof.
  revert m. induction g as [|item g IH]; intros m; cbn [fold_left].
  - unfold ids_of_class. simpl. by rewrite app_nil_r.
  - rewrite IH, ids_of_class_cons. simpl.
    destruct (is_class SAMPLER_TYPES item).
    + by rewrite <- app_assoc.
    + by rewrite app_nil_r.
Qed.

Lemma fold_polarity g m :
  positive_prompt_node (fold_left step_roles g m) = positive_prompt_node m
  /\ negative_prompt_node (fold_left step_roles g m) = negative_prompt_node m
  /\ positive_prompt_field (fold_left step_roles g m)
     = positive_prompt_field m
  /\ negative_prompt_field (fold_left step_roles g m)
     = negative_prompt_field m.
Proof.
  revert m. induction g as [|item g IH]; intros m; cbn [fold_left].
  - done.
  - destruct (IH (step_roles m item)) as (-> & -> & -> & ->). done.
Qed.

Lemma fold_tensorrt g m :
  has_tensorrt (fold_left step_roles g m)
  = has_tensorrt m || existsb (is_class TRT_LOADER_TYPES) g.
Proof.
  revert m. induction g as [|item g IH]; intros m; cbn [fold_left existsb].
  - by rewrite orb_false_r.
  - rewrite IH. simpl. by rewrite orb_assoc.
Qed.

Lemma last_or_cons (x : string) (l : list string) (d : option string) :
  match last (x :: l) with Some y => Some y | None => d end
  = match last l with Some y => Some y | None => Some x end.
Proof. rewrite last_cons. by destruct (last l). Qed.

Lemma fold_latent g m :
  latent_image_node (fold_left step_roles g m)
  = match last (ids_of_class LATENT_IMAGE_TYPES g) with
    | Some x => Some x
    | None => latent_image_node m
    end.
Proof.
  revert m. induction g as [|item g IH]; intros m; cbn [fold_left].
  - reflexivity.
  - rewrite IH, ids_of_class_cons. simpl.
    destruct (is_class LATENT_IMAGE_TYPES item); [|reflexivity].
    by rewrite last_or_cons.
Qed.

Lemma fold_load_image g m :
  load_image_node (fold_left step_roles g m)
  = match last (ids_of_class LOAD_IMAGE_TYPES g) with
    | Some x => Some x
    | None => load_image_node m
    end.
Proof.
  revert m. induction g as [|item g IH]; intros m; cbn [fold_left].
  - reflexivity.
  - rewrite IH, ids_of_class_cons. simpl.
    destruct (is_class LOAD_IMAGE_TYPES item); [|reflexivity].
    by rewrite last_or_cons.
Qed.

Lemma fold_output g m :
  output_node (fold_left step_roles g m)
  = match last (ids_of_class OUTPUT_TYPES g) with
    | Some x => Some x
    | None => output_node m
    end.
Proof.
  revert m. induction g as [|item g IH]; intros m; cbn [fold_left].
  - reflexivity.
  - rewrite IH, ids_of_class_cons. simpl.
    destruct (is_class OUTPUT_TYPES item); [|reflexivity].
    by rewrite last_or_cons.
Qed.

Lemma primary_of_cons i ids :
  primary_of (i :: ids)
  = if negb (String.eqb i "") then Some i
    else match primary_of ids with Some s => Some s | None => Some i end.
Proof.
  unfold primary_of. simpl. destruct (negb (String.eqb i "")); [reflexivity|].
  destruct (find _ ids); [reflexivity|]. rewrite last_cons.
  by destruct (last ids).
Qed.

Lemma fold_sampler_node g m :
  sampler_node (fold_left step_roles g m)
  = if Py.truthy (sampler_node m) then sampler_node m
    else match primary_of (ids_of_class SAMPLER_TYPES g) with
         | Some s => Some s
         | None => sampler_node m
         end.
Proof.
  revert m. induction g as [|item g IH]; intros m; cbn [fold_left].
  - unfold ids_of_class, primary_of. simpl. by destruct (Py.truthy _).
  - rewrite IH, ids_of_class_cons. simpl.
    destruct (is_class SAMPLER_TYPES item); [|reflexivity].
    destruct (Py.truthy (sampler_node m)) eqn:Ht; [by rewrite Ht|].
    rewrite primary_of_cons. simpl.
    destruct (negb (String.eqb (fst item) "")); [reflexivity|].
    by destruct (primary_of _).
Qed.

(** ** The second pass keeps the roles of the first *)

Lemma fixed_part_assign_positive m o :
  fixed_part (assign_positive m o) = fixed_part m.
Proof. by destruct o. Qed.

Lemma fixed_part_assign_negative m o :
  fixed_part (assign_negative m o) = fixed_part m.
Proof. by destruct o. Qed.

Lemma for_each_invariant_In {S X} (body : S -> X -> outcome S)
    (P : S -> Prop) (xs : list X) :
  (forall s x s', In x xs -> body s x = Ok s' -> P s -> P s') ->
  forall s s', for_each body xs s = Ok s' -> P s -> P s'.
Proof.
  induction xs as [|x xs IH]; intros Hbody s s'; simpl.
  - by intros [= <-].
  - destruct (body s x) as [s1|] eqn:Hs; simpl; [|discriminate].
    intros Hrest Hp. apply (IH (fun s0 x0 s0' Hin => Hbody s0 x0 s0' (or_intror Hin))
                              _ _ Hrest).
    apply (Hbody _ _ _ (or_introl eq_refl) Hs Hp).
Qed.

Section SecondPassFrame.

Variable py_repr : json -> string.

Lemma classify_by_links_fixed m g ids m' :
  classify_by_links py_repr m g ids = Ok m' ->
  fixed_part m' = fixed_part m.
Proof.
  unfold classify_by_links.
  destruct (sampler_node m) as [sid|]; [|by intros [= <-]].
  destruct (Py.truthy (Some sid)); [|by intros [= <-]].
  destruct (Py.dict_get g sid) as [sampler|]; [|by intros [= <-]].
  destruct (Py.get sampler "inputs" (JDict [])) as [x|]; simpl;
    [|discriminate].
  destruct (Py.get x "positive" (JList [])) as [p|]; simpl; [|discriminate].
  destruct (Py.get x "negative" (JList [])) as [n|]; simpl; [|discriminate].
  destruct (resolve_polarity py_repr p g ids) as [rp|]; simpl;
    [|discriminate].
  destruct (resolve_polarity py_repr n g ids) as [rn|]; simpl;
    [|discriminate].
  intros [= <-].
  by rewrite fixed_part_assign_negative, fixed_part_assign_positive.
Qed.

Lemma title_step_fixed l m item m' :
  title_step m item = Ok m' -> fixed_part m = l -> fixed_part m' = l.
Proof.
  destruct item as [node_id nd]. unfold title_step.
  destruct (already_assigned m node_id); [by intros [= <-]|].
  destruct (Py.get (JDict nd) "_meta" (JDict [])) as [meta|]; simpl;
    [|discriminate].
  destruct (Py.get meta "title" (JStr "")) as [t|]; simpl; [|discriminate].
  destruct (Py.lower_of t) as [title|]; simpl; [|discriminate].
  repeat match goal with
         | |- context [if ?b then _ else _] => destruct b
         end; by intros [= <-].
Qed.

Lemma text_step_fixed l m item m' :
  text_step m item = Ok m' -> fixed_part m = l -> fixed_part m' = l.
Proof.
  destruct item as [node_id nd]. unfold text_step.
  destruct (already_assigned m node_id); [by intros [= <-]|].
  destruct (Py.get (JDict nd) "inputs" (JDict [])) as [x|]; simpl;
    [|discriminate].
  destruct (Py.get x "text" (JStr "")) as [t|]; simpl; [|discriminate].
  destruct (Py.lower_of t) as [text|]; simpl; [|discriminate].
  repeat match goal with
         | |- context [if ?b then _ else _] => destruct b
         end; by intros [= <-].
Qed.

Lemma order_step_fixed l m item m' :
  order_step m item = Ok m' -> fixed_part m = l -> fixed_part m' = l.
Proof.
  destruct item as [node_id nd]. unfold order_step.
  repeat match goal with
         | |- context [if ?b then _ else _] => destruct b
         end; by intros [= <-].
Qed.

Lemma classify_clip_nodes_fixed cl m g m' :
  _classify_clip_nodes py_repr cl m g = Ok m' ->
  fixed_part m' = fixed_part m.
Proof.
  unfold _classify_clip_nodes.
  destruct cl as [|[id1 nd1] [|item2 cl]];
    [by intros [= <-] | by intros [= <-] |].
  set (nodes := (id1, nd1) :: item2 :: cl).
  destruct (classify_by_links py_repr m g (map fst nodes)) as [m1|] eqn:H1;
    cbn [obind]; [|discriminate].
  apply classify_by_links_fixed in H1.
  destruct (_ && _); [by intros [= <-]|].
  destruct (for_each title_step nodes m1) as [m2|] eqn:H2; cbn [obind];
    [|discriminate].
  destruct (for_each text_step nodes m2) as [m3|] eqn:H3; cbn [obind];
    [|discriminate].
  intros H4.
  apply (for_each_invariant _ _ (order_step_fixed (fixed_part m)) _ _ _ H4).
  apply (for_each_invariant _ _ (text_step_fixed (fixed_part m)) _ _ _ H3).
  by apply (for_each_invariant _ _ (title_step_fixed (fixed_part m)) _ _ _ H2).
Qed.

Lemma analyze_fixed g mapping :
  _analyze_workflow_nodes py_repr g = Ok mapping ->
  fixed_part mapping = fixed_part (fold_left step_roles g default_mapping).
Proof.
  unfold _analyze_workflow_nodes.
  pose proof (fold_roles g default_mapping []) as Hfold.
  destruct (fold_left analyze_step g (default_mapping, [])) as [m cl].
  simpl in Hfold. subst m. apply classify_clip_nodes_fixed.
Qed.

End SecondPassFrame.

Lemma classify_txt2img_mapping :
  _analyze_workflow_nodes (fun _ => "") txt2img_graph = Ok txt2img_mapping.
Proof. vm_compute. reflexivity. Qed.

Section FirstPassTheorems.

Variable py_repr : json -> string.

Lemma analyze_sampler_ids (g : dict) (mapping : WorkflowNodeMapping) :
  _analyze_workflow_nodes py_repr g = Ok mapping ->
  sampler_nodes mapping = ids_of_class SAMPLER_TYPES g.
Proof.
  intros H. apply analyze_fixed in H. injection H as _ _ -> _ _ _ _ _.
  by rewrite fold_sampler_nodes.
Qed.

(** X1: the sampler list of the role mapping holds the ids of exactly the
    nodes whose class type is a sampler type, in encounter order. *)
Theorem classify_sampler_list (g : dict) (mapping : WorkflowNodeMapping) :
  _analyze_workflow_nodes py_repr g = Ok mapping ->
  sampler_nodes mapping = ids_of_class SAMPLER_TYPES g.
Proof. apply analyze_sampler_ids. Qed.

(** X2: the primary sampler is the first sampler whose id is not the empty
    string and, when every sampler id is empty, the last sampler; when no
    sampler id is empty it is the head of the sampler list. *)
Theorem classify_primary_sampler (g : dict) (mapping : WorkflowNodeMapping) :
  _analyze_workflow_nodes py_repr g = Ok mapping ->
  sampler_node mapping = primary_of (ids_of_class SAMPLER_TYPES g)
  /\ (Forall (fun node_id => node_id <> "") (sampler_nodes mapping) ->
      sampler_node mapping = head (sampler_nodes mapping)).
Proof.
  intros H. pose proof (analyze_sampler_ids g mapping H) as Hlist.
  apply analyze_fixed in H. injection H as _ -> _ _ _ _ _ _.
  rewrite fold_sampler_node. simpl. split.
  - by destruct (primary_of _).
  - rewrite Hlist. destruct (ids_of_class SAMPLER_TYPES g) as [|i ids].
    + reflexivity.
    + intros [Hi _]%Forall_cons. rewrite primary_of_cons.
      destruct (String.eqb_spec i ""); [contradiction | reflexivity].
Qed.

(** X3: the latent, load-image and output roles each name the last node
    of their class in encounter order, and are unset when the graph has
    no node of the class. *)
Theorem classify_last_writer_wins (g : dict) (mapping : WorkflowNodeMapping) :
  _analyze_workflow_nodes py_repr g = Ok mapping ->
  latent_image_node mapping = last (ids_of_class LATENT_IMAGE_TYPES g)
  /\ load_image_node mapping = last (ids_of_class LOAD_IMAGE_TYPES g)
  /\ output_node mapping = last (ids_of_class OUTPUT_TYPES g).
Proof.
  intros H. apply analyze_fixed in H. injection H as -> _ _ -> -> _ _ _.
  rewrite fold_latent, fold_load_image, fold_output. simpl.
  repeat split; by destruct (last _).
Qed.

(** X4: the accelerated-loader flag is set exactly when some node of the
    graph has a TensorRT loader class type. *)
Theorem classify_tensorrt_flag (g : dict) (mapping : WorkflowNodeMapping) :
  _analyze_workflow_nodes py_repr g = Ok mapping ->
  has_tensorrt mapping = existsb (is_class TRT_LOADER_TYPES) g.
Proof.
  intros H. apply analyze_fixed in H. injection H as _ _ _ _ _ _ _ ->.
  by rewrite fold_tensorrt.
Qed.

End FirstPassTheorems.

Lemma classify_sampler_list_witness :
  sampler_nodes txt2img_mapping = ids_of_class SAMPLER_TYPES txt2img_graph.
Proof.
  apply (classify_sampler_list (fun _ => "") txt2img_graph).
  apply classify_txt2img_mapping.
Defined.

Lemma classify_primary_sampler_witness :
  sampler_node txt2img_mapping
  = primary_of (ids_of_class SAMPLER_TYPES txt2img_graph)
  /\ sampler_node txt2img_mapping = head (sampler_nodes txt2img_mapping).
Proof.
  destruct (classify_primary_sampler (fun _ => "") txt2img_graph
              txt2img_mapping classify_txt2img_mapping) as [H1 H2].
  split; [exact H1|]. apply H2. repeat constructor. discriminate.
Defined.

Lemma classify_last_writer_witness :
  latent_image_node txt2img_mapping
  = last (ids_of_class LATENT_IMAGE_TYPES txt2img_graph)
  /\ load_image_node txt2img_mapping
     = last (ids_of_class LOAD_IMAGE_TYPES txt2img_graph)
  /\ output_node txt2img_mapping
     = last (ids_of_class OUTPUT_TYPES txt2img_graph).
Proof.
  apply (classify_last_writer_wins (fun _ => "") txt2img_graph).
  apply classify_txt2img_mapping.
Defined.

Lemma classify_tensorrt_witness :
  has_tensorrt txt2img_mapping
  = existsb (is_class TRT_LOADER_TYPES) txt2img_graph.
Proof.
  apply (classify_tensorrt_flag (fun _ => "") txt2img_graph).
  apply classify_txt2img_mapping.
Defined.

(** ** Prompt polarity *)

Lemma first_pass_roles g : first_pass g = fold_left step_roles g default_mapping.
Proof. unfold first_pass. apply fold_roles. Qed.

Lemma first_pass_polarity g :
  positive_prompt_node (first_pass g) = None
  /\ negative_prompt_node (first_pass g) = None.
Proof.
  rewrite first_pass_roles.
  destruct (fold_polarity g default_mapping) as (-> & -> & _). done.
Qed.

Lemma assign_roles_positive (ids : list string) m o :
  (forall t, o = Some t -> In t ids) ->
  (forall p, positive_prompt_node m = Some p -> In p ids) ->
  forall p, positive_prompt_node (assign_positive m o) = Some p -> In p ids.
Proof.
  intros Ho Hm p. destruct o as [t|]; simpl; [|apply Hm].
  intros [= <-]. by apply Ho.
Qed.

Lemma assign_roles_negative (ids : list string) m o :
  (forall t, o = Some t -> In t ids) ->
  (forall n, negative_prompt_node m = Some n -> In n ids) ->
  forall n, negative_prompt_node (assign_negative m o) = Some n -> In n ids.
Proof.
  intros Ho Hm n. destruct o as [t|]; simpl; [|apply Hm].
  intros [= <-]. by apply Ho.
Qed.

Section PolarityProps.

Variable py_repr : json -> string.

Lemma analyze_unfold g :
  _analyze_workflow_nodes py_repr g
  = _classify_clip_nodes py_repr (clip_candidates g) (first_pass g) g.
Proof.
  unfold _analyze_workflow_nodes, clip_candidates, first_pass.
  by destruct (fold_left analyze_step g (default_mapping, [])).
Qed.

Lemma resolve_polarity_in ref g ids t :
  resolve_polarity py_repr ref g ids = Ok (Some t) -> In t ids.
Proof.
  unfold resolve_polarity.
  destruct ref as [| | | | |[|v rest]|]; try discriminate.
  destruct (_trace_link_source _ _ _ _ _) as [traced|]; simpl;
    [|discriminate].
  destruct (Py.truthy traced && _) eqn:Hc.
  - intros [= ->]. apply andb_true_iff in Hc as [_ Hin].
    apply bool_decide_eq_true in Hin.
    apply list_elem_of_fmap in Hin as (t' & [= <-] & Hin).
    by apply list_elem_of_In.
  - destruct (bool_decide (py_str py_repr v ∈ ids)) eqn:Hd; [|discriminate].
    intros [= <-]. apply bool_decide_eq_true in Hd.
    by apply list_elem_of_In.
Qed.

Lemma classify_by_links_roles m g ids m' :
  classify_by_links py_repr m g ids = Ok m' ->
  roles_in ids m -> roles_in ids m'.
Proof.
  unfold classify_by_links.
  destruct (sampler_node m) as [sid|]; [|by intros [= <-]].
  destruct (Py.truthy (Some sid)); [|by intros [= <-]].
  destruct (Py.dict_get g sid) as [sampler|]; [|by intros [= <-]].
  destruct (Py.get sampler "inputs" (JDict [])) as [x|]; simpl;
    [|discriminate].
  destruct (Py.get x "positive" (JList [])) as [p|]; simpl; [|discriminate].
  destruct (Py.get x "negative" (JList [])) as [n|]; simpl; [|discriminate].
  destruct (resolve_polarity py_repr p g ids) as [rp|] eqn:Hp; simpl;
    [|discriminate].
  destruct (resolve_polarity py_repr n g ids) as [rn|] eqn:Hn; simpl;
    [|discriminate].
  intros [= <-] [Hpos Hneg]. split.
  - intros q Hq. destruct rn; simpl in Hq;
      apply (assign_roles_positive ids m rp); try assumption;
      intros t ->; by apply (resolve_polarity_in _ _ _ _ Hp).
  - apply assign_roles_negative.
    + intros t ->. by apply (resolve_polarity_in _ _ _ _ Hn).
    + intros q Hq. destruct rp; simpl in Hq; by apply Hneg.
Qed.

Lemma title_step_roles ids m item m' :
  In (fst item) ids ->
  title_step m item = Ok m' -> roles_in ids m -> roles_in ids m'.
Proof.
  destruct item as [node_id nd]. cbn [fst]. intros Hid. unfold title_step.
  destruct (already_assigned m node_id); [by intros [= <-]|].
  destruct (Py.get (JDict nd) "_meta" (JDict [])) as [meta|]; simpl;
    [|discriminate].
  destruct (Py.get meta "title" (JStr "")) as [t|]; simpl; [|discriminate].
  destruct (Py.lower_of t) as [title|]; simpl; [|discriminate].
  repeat match goal with
         | |- context [if ?b then _ else _] => destruct b
         end; intros [= <-] [Hp Hn]; split; simpl; try assumption;
    by intros q [= <-].
Qed.

Lemma text_step_roles ids m item m' :
  In (fst item) ids ->
  text_step m item = Ok m' -> roles_in ids m -> roles_in ids m'.
Proof.
  destruct item as [node_id nd]. cbn [fst]. intros Hid. unfold text_step.
  destruct (already_assigned m node_id); [by intros [= <-]|].
  destruct (Py.get (JDict nd) "inputs" (JDict [])) as [x|]; simpl;
    [|discriminate].
  destruct (Py.get x "text" (JStr "")) as [t|]; simpl; [|discriminate].
  destruct (Py.lower_of t) as [text|]; simpl; [|discriminate].
  repeat match goal with
         | |- context [if ?b then _ else _] => destruct b
         end; intros [= <-] [Hp Hn]; split; simpl; try assumption;
    by intros q [= <-].
Qed.

Lemma order_step_roles ids m item m' :
  In (fst item) ids ->
  order_step m item = Ok m' -> roles_in ids m -> roles_in ids m'.
Proof.
  destruct item as [node_id nd]. cbn [fst]. intros Hid. unfold order_step.
  repeat match goal with
         | |- context [if ?b then _ else _] => destruct b
         end; intros [= <-] [Hp Hn]; split; simpl; try assumption;
    by intros q [= <-].
Qed.

Lemma classify_clip_nodes_roles cl m g m' :
  _classify_clip_nodes py_repr cl m g = Ok m' ->
  roles_in (map fst cl) m -> roles_in (map fst cl) m'.
Proof.
  unfold _classify_clip_nodes.
  destruct cl as [|[id1 nd1] [|item2 cl]]; [by intros [= <-]| |].
  { intros [= <-] [Hp Hn]. split; simpl; [|assumption].
    intros q [= <-]. by left. }
  set (nodes := (id1, nd1) :: item2 :: cl).
  destruct (classify_by_links py_repr m g (map fst nodes)) as [m1|] eqn:H1;
    cbn [obind]; [|discriminate].
  intros H Hm. apply (classify_by_links_roles _ _ _ _ H1) in Hm.
  destruct (_ && _); [by injection H as <-|].
  destruct (for_each title_step nodes m1) as [m2|] eqn:H2; cbn [obind] in H;
    [|discriminate].
  destruct (for_each text_step nodes m2) as [m3|] eqn:H3; cbn [obind] in H;
    [|discriminate].
  assert (Hmem : forall x, In x nodes -> In (fst x) (map fst nodes))
    by (intros x; apply in_map).
  apply (for_each_invariant_In order_step (roles_in (map fst nodes)) nodes
           (fun s x s' Hin => order_step_roles _ s x s' (Hmem x Hin))
           _ _ H).
  apply (for_each_invariant_In text_step (roles_in (map fst nodes)) nodes
           (fun s x s' Hin => text_step_roles _ s x s' (Hmem x Hin))
           _ _ H3).
  by apply (for_each_invariant_In title_step (roles_in (map fst nodes)) nodes
              (fun s x s' Hin => title_step_roles _ s x s' (Hmem x Hin))
              _ _ H2).
Qed.

(** X5: a polarity that the classifier assigns always names a
    prompt-encode node of the graph: the positive and the negative prompt
    node, when set, are among the candidates collected by the first pass. *)
Theorem classify_polarity_is_candidate (g : dict)
    (mapping : WorkflowNodeMapping) :
  _analyze_workflow_nodes py_repr g = Ok mapping ->
  (forall p, positive_prompt_node mapping = Some p ->
     In p (map fst (clip_candidates g)))
  /\ (forall n, negative_prompt_node mapping = Some n ->
     In n (map fst (clip_candidates g))).
Proof.
  rewrite analyze_unfold. intros H.
  apply (classify_clip_nodes_roles _ _ _ _ H).
  destruct (first_pass_polarity g) as [Hp Hn].
  split; intros q; rewrite ?Hp, ?Hn; discriminate.
Qed.

(** X6: a graph without prompt-encode node leaves both polarities unset;
    a graph with exactly one makes it the positive prompt and leaves the
    negative unset.  In both cases the classifier returns, whatever the
    shape of the other nodes. *)
Theorem classify_zero_or_one_candidate (g : dict) :
  (clip_candidates g = [] ->
   exists mapping,
     _analyze_workflow_nodes py_repr g = Ok mapping
     /\ positive_prompt_node mapping = None
     /\ negative_prompt_node mapping = None)
  /\ (forall node_id nd,
      clip_candidates g = [(node_id, nd)] ->
      exists mapping,
        _analyze_workflow_nodes py_repr g = Ok mapping
        /\ positive_prompt_node mapping = Some node_id
        /\ negative_prompt_node mapping = None).
Proof.
  destruct (first_pass_polarity g) as [Hp Hn]. split.
  - intros Hcl. rewrite analyze_unfold, Hcl. simpl. by eexists.
  - intros node_id nd Hcl. rewrite analyze_unfold, Hcl. simpl.
    eexists. split; [reflexivity|]. by split.
Qed.

Lemma trace_some_shape d ref g targets t :
  trace_link_source py_repr d ref g targets = Ok (Some t) ->
  exists v rest, ref = JList (v :: rest).
Proof.
  destruct d as [|d]; [discriminate|].
  destruct ref as [| | | | |[|v rest]|]; try discriminate. by eexists _, _.
Qed.

Lemma resolve_polarity_traced ref g ids t :
  _trace_link_source py_repr ref g CLIP_TEXT_ENCODE_TYPES default_max_depth
  = Ok (Some t) ->
  In t ids -> t <> "" ->
  resolve_polarity py_repr ref g ids = Ok (Some t).
Proof.
  intros Htrace Hin Ht.
  destruct (trace_some_shape _ _ _ _ _ Htrace) as (v & rest & ->).
  unfold resolve_polarity. rewrite Htrace. simpl.
  destruct (String.eqb_spec t ""); [contradiction|]. simpl.
  rewrite bool_decide_eq_true_2; [reflexivity|].
  apply list_elem_of_fmap. exists t. split; [reflexivity|].
  by apply list_elem_of_In.
Qed.

Lemma classify_by_links_traced m g ids s p n positive_ref negative_ref :
  sampler_node m = Some s ->
  s <> "" ->
  input_field g s "positive" = Some positive_ref ->
  input_field g s "negative" = Some negative_ref ->
  _trace_link_source py_repr positive_ref g CLIP_TEXT_ENCODE_TYPES
    default_max_depth = Ok (Some p) ->
  _trace_link_source py_repr negative_ref g CLIP_TEXT_ENCODE_TYPES
    default_max_depth = Ok (Some n) ->
  In p ids -> In n ids -> p <> "" -> n <> "" ->
  classify_by_links py_repr m g ids
  = Ok (set_negative (set_positive m p) n).
Proof.
  intros Hs Hne Hpos Hneg Htp Htn Hp Hn Hpe Hnn.
  unfold classify_by_links. rewrite Hs.
  unfold Py.truthy. destruct (String.eqb_spec s ""); [contradiction|].
  cbn [negb].
  unfold input_field, node_field in Hpos, Hneg.
  destruct (Py.dict_get g s) as [sampler|]; [|discriminate].
  destruct sampler as [| | | | | |snd]; try discriminate.
  cbn [field] in Hpos, Hneg.
  destruct (Py.dict_get snd "inputs") as [x|] eqn:Hx; [|discriminate].
  destruct x as [| | | | | |si]; try discriminate.
  cbn [field] in Hpos, Hneg.
  unfold Py.get. rewrite Hx. cbn [obind]. rewrite Hpos, Hneg. cbn [obind].
  rewrite (resolve_polarity_traced _ _ _ _ Htp Hp Hpe). cbn [obind].
  rewrite (resolve_polarity_traced _ _ _ _ Htn Hn Hnn). cbn [obind].
  reflexivity.
Qed.

(** X7: when the graph has at least two prompt-encode candidates and the
    links of the primary sampler's [positive] and [negative] inputs trace
    to candidates, these become the positive and the negative prompt node,
    whatever the order of the nodes in the graph. *)
Theorem classify_follows_sampler_links (g : dict) (s p n : string)
    (positive_ref negative_ref : json) :
  (2 <= length (clip_candidates g))%nat ->
  sampler_node (first_pass g) = Some s ->
  s <> "" ->
  input_field g s "positive" = Some positive_ref ->
  input_field g s "negative" = Some negative_ref ->
  _trace_link_source py_repr positive_ref g CLIP_TEXT_ENCODE_TYPES
    default_max_depth = Ok (Some p) ->
  _trace_link_source py_repr negative_ref g CLIP_TEXT_ENCODE_TYPES
    default_max_depth = Ok (Some n) ->
  In p (map fst (clip_candidates g)) ->
  In n (map fst (clip_candidates g)) ->
  p <> "" -> n <> "" ->
  exists mapping,
    _analyze_workflow_nodes py_repr g = Ok mapping
    /\ positive_prompt_node mapping = Some p
    /\ negative_prompt_node mapping = Some n.
Proof.
  intros Hlen Hs Hne Hpos Hneg Htp Htn Hp Hn Hpe Hnn.
  rewrite analyze_unfold. unfold _classify_clip_nodes.
  destruct (clip_candidates g) as [|[id1 nd1] [|item2 cl]] eqn:Hcl;
    cbn [length] in Hlen; try lia.
  rewrite (classify_by_links_traced _ _ _ s p n positive_ref negative_ref
             Hs Hne Hpos Hneg Htp Htn Hp Hn Hpe Hnn).
  cbn [obind].
  exists (set_negative (set_positive (first_pass g) p) n).
  split; [|by split].
  cbn [set_negative set_positive positive_prompt_node negative_prompt_node].
  unfold Py.truthy.
  destruct (String.eqb_spec p ""); [contradiction|].
  destruct (String.eqb_spec n ""); [contradiction|].
  reflexivity.
Qed.

End PolarityProps.

Lemma classify_polarity_witness :
  (forall p, positive_prompt_node txt2img_mapping = Some p ->
     In p (map fst (clip_candidates txt2img_graph)))
  /\ (forall n, negative_prompt_node txt2img_mapping = Some n ->
     In n (map fst (clip_candidates txt2img_graph))).
Proof.
  apply (classify_polarity_is_candidate (fun _ => "") txt2img_graph).
  apply classify_txt2img_mapping.
Defined.

Lemma classify_one_candidate_witness :
  exists mapping,
    _analyze_workflow_nodes (fun _ => "") (reroute_chain 1 1) = Ok mapping
    /\ positive_prompt_node mapping = Some "2"
    /\ negative_prompt_node mapping = None.
Proof.
  apply (proj2 (classify_zero_or_one_candidate (fun _ => "")
                  (reroute_chain 1 1))
           "2" [("class_type", JStr "CLIPTextEncode")]).
  reflexivity.
Defined.

Lemma classify_follows_links_witness :
  exists mapping,
    _analyze_workflow_nodes (fun _ => "") txt2img_graph = Ok mapping
    /\ positive_prompt_node mapping = Some "6"
    /\ negative_prompt_node mapping = Some "7".
Proof.
  apply (classify_follows_sampler_links (fun _ => "") txt2img_graph "3"
           "6" "7" (JList [JStr "10"; JInt 0]) (JList [JStr "7"; JInt 0]));
    try reflexivity; try discriminate.
  - vm_compute. by left.
  - vm_compute. right. by left.
Defined.

(** ** More on the link tracer *)

Section TracerExtras.

Variable py_repr : json -> string.

Lemma trace_result_in_graph d ref g targets t :
  trace_link_source py_repr d ref g targets = Ok (Some t) ->
  Py.dict_has g t = true.
Proof.
  revert ref. induction d as [|d IH]; intros ref; simpl; [discriminate|].
  destruct ref as [| | | | |[|v rest]|]; try discriminate.
  destruct (Py.dict_get g (py_str py_repr v)) as [node|] eqn:Hget;
    [|discriminate].
  assert (Hhas : Py.dict_has g (py_str py_repr v) = true)
    by (unfold Py.dict_has; by rewrite Hget).
  destruct (Py.get node "class_type" (JStr "")) as [c|]; simpl;
    [|discriminate].
  destruct (Py.in_types c targets); [by intros [= <-]|].
  destruct (Py.in_types c PASSTHROUGH_TYPES); [|by intros [= <-]].
  destruct (Py.get node "inputs" (JDict [])) as [x|]; simpl; [|discriminate].
  destruct (Py.values x) as [vals|]; simpl; [|discriminate].
  destruct (find _ vals) as [next|]; [apply IH | by intros [= <-]].
Qed.

Lemma trace_more_depth d ref g targets t :
  trace_link_source py_repr d ref g targets = Ok (Some t) ->
  forall d', (d <= d')%nat ->
  trace_link_source py_repr d' ref g targets = Ok (Some t).
Proof.
  revert ref. induction d as [|d IH]; intros ref; [discriminate|].
  intros H [|d'] Hle; [lia|]. simpl in H |- *.
  destruct ref as [| | | | |[|v rest]|]; try discriminate.
  destruct (Py.dict_get g (py_str py_repr v)) as [node|]; [|discriminate].
  destruct (Py.get node "class_type" (JStr "")) as [c|]; simpl in *;
    [|discriminate].
  destruct (Py.in_types c targets); [assumption|].
  destruct (Py.in_types c PASSTHROUGH_TYPES); [|assumption].
  destruct (Py.get node "inputs" (JDict [])) as [x|]; simpl in *;
    [|discriminate].
  destruct (Py.values x) as [vals|]; simpl in *; [|discriminate].
  destruct (find _ vals) as [next|]; [|assumption].
  apply (IH _ H). lia.
Qed.

(** X8: a node id that the tracer returns is always a key of the graph:
    the tracer never invents an id and never returns the id of a dangling
    link. *)
Theorem trace_returns_graph_nodes (ref : json) (g : dict)
    (targets : list string) (max_depth : Z) (t : string) :
  _trace_link_source py_repr ref g targets max_depth = Ok (Some t) ->
  Py.dict_has g t = true.
Proof. apply trace_result_in_graph. Qed.

(** X9: a larger depth budget never changes a resolved trace: a link that
    resolves to a node with budget [d] resolves to the same node with any
    budget above [d]. *)
Theorem trace_monotone_in_depth (ref : json) (g : dict)
    (targets : list string) (d d' : Z) (t : string) :
  _trace_link_source py_repr ref g targets d = Ok (Some t) ->
  d <= d' ->
  _trace_link_source py_repr ref g targets d' = Ok (Some t).
Proof.
  unfold _trace_link_source. intros H Hle.
  apply (trace_more_depth _ _ _ _ _ H). lia.
Qed.

End TracerExtras.

Lemma trace_returns_graph_nodes_witness :
  Py.dict_has (reroute_chain 1 2) "3" = true.
Proof.
  apply (trace_returns_graph_nodes (fun _ => "") (JList [JStr "1"; JInt 0])
           (reroute_chain 1 2) CLIP_TEXT_ENCODE_TYPES default_max_depth "3").
  reflexivity.
Defined.

Lemma trace_monotone_witness :
  _trace_link_source (fun _ => "") (JList [JStr "1"; JInt 0])
    (reroute_chain 1 2) CLIP_TEXT_ENCODE_TYPES 25 = Ok (Some "3").
Proof.
  apply (trace_monotone_in_depth (fun _ => "") (JList [JStr "1"; JInt 0])
           (reroute_chain 1 2) CLIP_TEXT_ENCODE_TYPES 3 25 "3");
    [reflexivity | lia].
Defined.

(** ** What the scan establishes *)

Lemma randint_range lo hi w :
  lo <= hi ->
  exists r w', randint lo hi w = (Ok r, w') /\ lo <= r <= hi
                /\ store w' = store w.
Proof.
  intros Hle. unfold randint. eexists _, _. split; [reflexivity|].
  split; [|reflexivity].
  pose proof (Z.mod_pos_bound (rng w 0%nat) (hi - lo + 1)). lia.
Qed.

Lemma kept_seed_drawn r : 1 <= r -> kept_seed (JInt r) = true.
Proof.
  intros Hr. unfold kept_seed. simpl.
  destruct (Z.eqb_spec r (-1)); [lia | reflexivity].
Qed.

Lemma seed_step_cases c x sd key w x' sd' w' :
  seed_step c (x, sd) key w = (Ok (x', sd'), w') ->
  exists v1,
    field x' key = Some v1
    /\ kept_seed v1 = true
    /\ (forall k, k <> key -> field x' k = field x k)
    /\ (field x key = Some v1 \/ drawn v1)
    /\ (sd' = sd
        \/ exists n,
             Py.int v1 = Ok n
             /\ (sd' = {| ksampler_seed := Some n; main_seed := main_seed sd |}
                 \/ sd' = {| ksampler_seed := ksampler_seed sd;
                             main_seed := Some n |})).
Proof.
  unfold seed_step. msimpl.
  destruct x as [| | | | | |d]; simpl; try discriminate.
  destruct (Py.dict_get d key) as [v|] eqn:Hget; simpl; [|discriminate].
  destruct (negb (Py.is_number v) || Py.eq_int v (-1))%bool eqn:Hrep; simpl.
  - set (r := 1 + rng w 0%nat mod (MAX_SEED - 1 + 1)).
    assert (Hr : 1 <= r <= MAX_SEED).
    { pose proof (Z.mod_pos_bound (rng w 0%nat) (MAX_SEED - 1 + 1)).
      unfold r. unfold MAX_SEED in *. lia. }
    intros H. exists (JInt r).
    assert (Hx' : x' = JDict (Py.dict_set d key (JInt r))
                  /\ (sd' = sd
                       \/ exists n,
                            Py.int (JInt r) = Ok n
                            /\ (sd' = {| ksampler_seed := Some n;
                                         main_seed := main_seed sd |}
                                \/ sd' = {| ksampler_seed := ksampler_seed sd;
                                            main_seed := Some n |}))).
    { destruct (Py.py_in "Sampler" c) as [[|]|]; simpl in H;
        try discriminate; rewrite ?dict_get_set_eq in H; simpl in H.
      - injection H as <- <- _. split; [reflexivity|]. right. exists r.
        split; [reflexivity|]. by left.
      - destruct (main_seed sd) eqn:Hm; rewrite ?dict_get_set_eq in H;
          simpl in H; injection H as <- <- _; (split; [reflexivity|]).
        + by left.
        + right. exists r. split; [reflexivity|]. by right. }
    destruct Hx' as [-> Hsd]. simpl.
    repeat split; try assumption.
    + apply dict_get_set_eq.
    + apply kept_seed_drawn. lia.
    + intros k Hk. apply dict_get_set_ne. congruence.
    + right. by exists r.
  - assert (Hk : kept_seed v = true).
    { apply orb_false_iff in Hrep as [Hn He].
      apply negb_false_iff in Hn. unfold kept_seed. by rewrite Hn, He. }
    intros H. exists v.
    assert (Hx' : x' = JDict d
                  /\ (sd' = sd
                       \/ exists n,
                            Py.int v = Ok n
                            /\ (sd' = {| ksampler_seed := Some n;
                                         main_seed := main_seed sd |}
                                \/ sd' = {| ksampler_seed := ksampler_seed sd;
                                            main_seed := Some n |}))).
    { destruct (Py.py_in "Sampler" c) as [[|]|]; simpl in H;
        try discriminate; rewrite ?Hget in H; simpl in H.
      - destruct (Py.int v) as [n|]; simpl in H; [|discriminate].
        injection H as <- <- _. split; [reflexivity|]. right. exists n.
        split; [reflexivity|]. by left.
      - destruct (main_seed sd) eqn:Hm; rewrite ?Hget in H; simpl in H.
        + injection H as <- <- _. split; [reflexivity|]. by left.
        + destruct (Py.int v) as [n|]; simpl in H; [|discriminate].
          injection H as <- <- _. split; [reflexivity|]. right. exists n.
          split; [reflexivity|]. by right. }
    destruct Hx' as [-> Hsd]. simpl. repeat split; try assumption.
    by left.
Qed.

Lemma seed_step_settles x0 c x sd key w x' sd' w' :
  seed_step c (x, sd) key w = (Ok (x', sd'), w') ->
  (forall k, field x k = field x0 k \/ settled_at x0 x k) ->
  (forall k, field x' k = field x0 k \/ settled_at x0 x' k)
  /\ settled_at x0 x' key
  /\ (forall k, settled_at x0 x k -> settled_at x0 x' k).
Proof.
  intros Hstep Hinv.
  destruct (seed_step_cases _ _ _ _ _ _ _ _ Hstep)
    as (v1 & Hkey & Hkept & Hother & Horig & _).
  assert (Hset : settled_at x0 x' key).
  { exists v1. repeat split; try assumption.
    destruct Horig as [Hx|Hd]; [|by right].
    destruct (Hinv key) as [Heq|(v & Hv & _ & Hv0)].
    - left. by rewrite <- Heq.
    - rewrite Hx in Hv. injection Hv as <-. exact Hv0. }
  assert (Hkeep : forall k, settled_at x0 x k -> settled_at x0 x' k).
  { intros k Hk. destruct (String.eqb_spec k key) as [->|Hne];
      [assumption|].
    destruct Hk as (v & Hv & Hkv & Hv0). exists v.
    rewrite (Hother k Hne). by repeat split. }
  repeat split; try assumption.
  intros k. destruct (String.eqb_spec k key) as [->|Hne]; [by right|].
  rewrite (Hother k Hne). destruct (Hinv k) as [?|Hk]; [by left|].
  right. by apply Hkeep.
Qed.

Lemma seed_loop_settles x0 c keys x sd w x' sd' w' :
  for_eachM (seed_step c) keys (x, sd) w = (Ok (x', sd'), w') ->
  (forall k, field x k = field x0 k \/ settled_at x0 x k) ->
  (forall k, field x' k = field x0 k \/ settled_at x0 x' k)
  /\ (forall k, In k keys \/ settled_at x0 x k -> settled_at x0 x' k).
Proof.
  revert x sd w. induction keys as [|key keys IH]; intros x sd w Hloop Hinv.
  - msimpl. injection Hloop as <- _ _. split; [assumption|].
    by intros k [[]|Hk].
  - cbn [for_eachM] in Hloop. unfold bind at 1 in Hloop.
    destruct (seed_step c (x, sd) key w) as [[[x1 sd1]|e] w1] eqn:Hstep;
      [|discriminate].
    destruct (seed_step_settles x0 _ _ _ _ _ _ _ _ Hstep Hinv)
      as (Hinv1 & Hkey & Hkeep).
    destruct (IH _ _ _ Hloop Hinv1) as [Hinv' Hall].
    split; [assumption|].
    intros k [[<-|Hin]|Hk]; apply Hall; auto.
Qed.

Lemma fix_control_other x x' k :
  fix_control x = Ok x' -> k <> CONTROL -> field x' k = field x k.
Proof.
  unfold fix_control. intros H Hk.
  destruct (Py.py_in "control_after_generate" x) as [[|]|] eqn:Hin;
    simpl in H; try discriminate; [|by injection H as <-].
  destruct (Py.getitem x "control_after_generate") as [c|]; simpl in H;
    [|discriminate].
  destruct (Py.in_types c control_values); [|by injection H as <-].
  destruct x as [| | | | | |d]; try discriminate. injection H as <-.
  simpl. apply dict_get_set_ne. unfold CONTROL in Hk. congruence.
Qed.

Lemma seed_key_control : seed_key CONTROL = false.
Proof. reflexivity. Qed.

Lemma seed_key_listed (d : dict) k v :
  Py.dict_get d k = Some v -> seed_key k = true ->
  In k (List.filter seed_key (map fst d)).
Proof.
  intros Hget Hk. apply filter_In. split; [|assumption].
  apply dict_get_In in Hget. by apply (in_map fst) in Hget.
Qed.

Lemma enforce_node_settles sd v w v' sd' w' x' k val' :
  enforce_node sd v w = (Ok (v', sd'), w') ->
  field v' "inputs" = Some x' ->
  seed_key k = true ->
  field x' k = Some val' ->
  kept_seed val' = true
  /\ ((exists x, field v "inputs" = Some x /\ field x k = Some val')
      \/ drawn val').
Proof.
  unfold enforce_node. intros H Hx' Hk Hval.
  destruct v as [| | | | | |nd];
    try (msimpl; injection H as <- _ _; discriminate).
  destruct (Py.dict_get nd "inputs") as [x|] eqn:Hin.
  2:{ msimpl. injection H as <- _ _. simpl in Hx'. congruence. }
  unfold bind at 1 in H. unfold lift at 1 in H.
  destruct (seed_keys x) as [keys|] eqn:Hkeys; [|discriminate].
  unfold bind at 1 in H.
  destruct (for_eachM _ keys (x, sd) w) as [[[x1 sd1]|e] w1] eqn:Hloop;
    [|discriminate].
  unfold bind, lift, ret in H.
  destruct (fix_control x1) as [x2|] eqn:Hfix; [|discriminate].
  injection H as <- _ _. simpl in Hx'. rewrite dict_get_set_eq in Hx'.
  injection Hx' as <-.
  assert (Hne : k <> CONTROL).
  { intros ->. by rewrite seed_key_control in Hk. }
  rewrite (fix_control_other _ _ _ Hfix Hne) in Hval.
  destruct (seed_loop_settles x _ _ _ _ _ _ _ _ Hloop) as [Hinv Hall];
    [by left|].
  assert (Hset : settled_at x x1 k).
  { destruct (Hinv k) as [Heq|?]; [|assumption].
    apply Hall. left. rewrite Heq in Hval.
    destruct x as [| | | | | |d]; try discriminate.
    rewrite seed_keys_dict in Hkeys. injection Hkeys as <-.
    by apply (seed_key_listed d k val'). }
  destruct Hset as (v0 & Hv0 & Hkept & Horig).
  rewrite Hval in Hv0. injection Hv0 as <-. split; [assumption|].
  destruct Horig as [Ho|Hd]; [|by right].
  left. exists x. by split.
Qed.

Lemma enforce_nodes_lookup g sd w g' sd' w' node_id :
  enforce_nodes g sd w = (Ok (g', sd'), w') ->
  match Py.dict_get g node_id with
  | Some v =>
      exists v' sd1 w1 sd1' w1',
        Py.dict_get g' node_id = Some v'
        /\ enforce_node sd1 v w1 = (Ok (v', sd1'), w1')
  | None => Py.dict_get g' node_id = None
  end.
Proof.
  revert sd w g' sd' w'.
  induction g as [|[k0 v0] g IH]; intros sd w g' sd' w' H.
  - msimpl. by injection H as <- _ _.
  - cbn [enforce_nodes] in H. unfold bind at 1 in H.
    destruct (enforce_node sd v0 w) as [[[v0' sd1]|e] w1] eqn:Hnode;
      [|discriminate].
    unfold bind at 1 in H.
    destruct (enforce_nodes g sd1 w1) as [[[t' sd2]|e] w2] eqn:Hrest;
      [|discriminate].
    unfold ret in H. injection H as <- _ _. simpl.
    destruct (String.eqb_spec k0 node_id) as [->|Hne].
    + by exists v0', sd, w, sd1, w1.
    + apply (IH _ _ _ _ _ Hrest).
Qed.

(** X10: in the graph the enforcer returns, every input field with a
    seed-like name holds a number other than -1, and it is the value the
    field had before or an integer drawn from 1..2^63-1. *)
Theorem enforce_settles_every_seed (g g' : dict) (s : Z) (w w' : world)
    (node_id k : string) (v' : json) :
  _enforce_deterministic_workflow (JDict g) w = (Ok (JDict g', s), w') ->
  seed_key k = true ->
  input_field g' node_id k = Some v' ->
  kept_seed v' = true
  /\ (input_field g node_id k = Some v' \/ drawn v').
Proof.
  unfold _enforce_deterministic_workflow, bind, ret.
  destruct (enforce_nodes g _ w) as [[[nodes' sd]|e] w1] eqn:Hnodes;
    [|discriminate].
  intros [= <- _ _] Hk. unfold input_field, node_field.
  pose proof (enforce_nodes_lookup _ _ _ _ _ _ node_id Hnodes) as Hlook.
  destruct (Py.dict_get g node_id) as [v|].
  - destruct Hlook as (v1 & sd1 & w2 & sd1' & w2' & -> & Hnode).
    destruct (field v1 "inputs") as [x'|] eqn:Hx'; [|discriminate].
    intros Hval.
    destruct (enforce_node_settles _ _ _ _ _ _ _ _ _ Hnode Hx' Hk Hval)
      as [Hkept [(x & -> & Hx)|Hd]]; split; auto.
  - rewrite Hlook. discriminate.
Qed.

Lemma enforce_settles_witness :
  kept_seed (JInt 1) = true
  /\ (input_field txt2img_graph "3" "seed" = Some (JInt 1)
      \/ drawn (JInt 1)).
Proof.
  apply (enforce_settles_every_seed txt2img_graph txt2img_fixed 1 empty_world
           {| store := []; rng := fun n => 0 |} "3" "seed" (JInt 1));
    reflexivity.
Defined.

(** ** Controls, shape and the reported seed *)

Lemma seed_loop_other c keys x sd w x' sd' w' k :
  for_eachM (seed_step c) keys (x, sd) w = (Ok (x', sd'), w') ->
  ~ In k keys -> field x' k = field x k.
Proof.
  revert x sd w. induction keys as [|key keys IH]; intros x sd w Hloop Hk.
  - msimpl. by injection Hloop as <- _ _.
  - cbn [for_eachM] in Hloop. unfold bind at 1 in Hloop.
    destruct (seed_step c (x, sd) key w) as [[[x1 sd1]|e] w1] eqn:Hstep;
      [|discriminate].
    destruct (seed_step_cases _ _ _ _ _ _ _ _ Hstep)
      as (v1 & _ & _ & Hother & _).
    rewrite (IH _ _ _ Hloop); [|intros Hin; apply Hk; by right].
    apply Hother. intros ->. apply Hk. by left.
Qed.

Lemma fix_control_pins x x' c :
  fix_control x = Ok x' ->
  field x' CONTROL = Some c ->
  Py.in_types c control_values = false
  /\ (field x CONTROL = Some c \/ c = JStr "fixed").
Proof.
  unfold fix_control. intros H Hc.
  destruct (Py.py_in "control_after_generate" x) as [[|]|] eqn:Hin;
    simpl in H; try discriminate.
  - destruct (Py.getitem x "control_after_generate") as [c0|] eqn:Hget;
      simpl in H; [|discriminate].
    destruct x as [| | | | | |d]; try discriminate. simpl in Hget.
    destruct (Py.dict_get d "control_after_generate") as [c1|] eqn:Hd;
      [|discriminate].
    injection Hget as ->.
    destruct (Py.in_types c0 control_values) eqn:Hv; injection H as <-.
    + simpl in Hc. unfold CONTROL in Hc. rewrite dict_get_set_eq in Hc.
      injection Hc as <-. split; [reflexivity | by right].
    + simpl in Hc. unfold CONTROL in Hc. rewrite Hd in Hc.
      injection Hc as <-. split; [assumption|]. left. exact Hd.
  - injection H as <-.
    destruct x as [| | | | | |d]; try discriminate.
    simpl in Hin, Hc. unfold Py.dict_has in Hin. unfold CONTROL in Hc.
    rewrite Hc in Hin. discriminate.
Qed.

Lemma enforce_node_pins sd v w v' sd' w' x' c :
  enforce_node sd v w = (Ok (v', sd'), w') ->
  field v' "inputs" = Some x' ->
  field x' CONTROL = Some c ->
  Py.in_types c control_values = false
  /\ ((exists x, field v "inputs" = Some x /\ field x CONTROL = Some c)
      \/ c = JStr "fixed").
Proof.
  unfold enforce_node. intros H Hx' Hc.
  destruct v as [| | | | | |nd];
    try (msimpl; injection H as <- _ _; discriminate).
  destruct (Py.dict_get nd "inputs") as [x|] eqn:Hin.
  2:{ msimpl. injection H as <- _ _. simpl in Hx'. congruence. }
  unfold bind at 1 in H. unfold lift at 1 in H.
  destruct (seed_keys x) as [keys|] eqn:Hkeys; [|discriminate].
  unfold bind at 1 in H.
  destruct (for_eachM _ keys (x, sd) w) as [[[x1 sd1]|e] w1] eqn:Hloop;
    [|discriminate].
  unfold bind, lift, ret in H.
  destruct (fix_control x1) as [x2|] eqn:Hfix; [|discriminate].
  injection H as <- _ _. simpl in Hx'. rewrite dict_get_set_eq in Hx'.
  injection Hx' as <-.
  destruct (fix_control_pins _ _ _ Hfix Hc) as [Hv [Ho|Hf]];
    (split; [assumption|]); [|by right].
  left. exists x. split; [exact Hin|].
  rewrite <- (seed_loop_other _ _ _ _ _ _ _ _ CONTROL Hloop); [assumption|].
  intros Hmem. apply (seed_keys_sound _ _ Hkeys) in Hmem.
  by rewrite seed_key_control in Hmem.
Qed.

(** X11: in the graph the enforcer returns, no [control_after_generate]
    input holds "randomize", "increment" or "decrement": such a field
    holds the value it had before or "fixed". *)
Theorem enforce_pins_every_control (g g' : dict) (s : Z) (w w' : world)
    (node_id : string) (c : json) :
  _enforce_deterministic_workflow (JDict g) w = (Ok (JDict g', s), w') ->
  input_field g' node_id CONTROL = Some c ->
  Py.in_types c control_values = false
  /\ (input_field g node_id CONTROL = Some c \/ c = JStr "fixed").
Proof.
  unfold _enforce_deterministic_workflow, bind, ret.
  destruct (enforce_nodes g _ w) as [[[nodes' sd]|e] w1] eqn:Hnodes;
    [|discriminate].
  intros [= <- _ _]. unfold input_field, node_field.
  pose proof (enforce_nodes_lookup _ _ _ _ _ _ node_id Hnodes) as Hlook.
  destruct (Py.dict_get g node_id) as [v|].
  - destruct Hlook as (v1 & sd1 & w2 & sd1' & w2' & -> & Hnode).
    destruct (field v1 "inputs") as [x'|] eqn:Hx'; [|discriminate].
    intros Hc.
    destruct (enforce_node_pins _ _ _ _ _ _ _ _ Hnode Hx' Hc)
      as [Hv [(x & -> & Hx)|Hf]]; split; auto.
  - rewrite Hlook. discriminate.
Qed.

Lemma enforce_pins_witness :
  Py.in_types (JStr "fixed") control_values = false
  /\ (input_field txt2img_graph "3" CONTROL = Some (JStr "fixed")
      \/ JStr "fixed" = JStr "fixed").
Proof.
  apply (enforce_pins_every_control txt2img_graph txt2img_fixed 1 empty_world
           {| store := []; rng := fun n => 0 |} "3" (JStr "fixed"));
    reflexivity.
Defined.

Lemma found_in_loop c keys x sd w x' sd' w' z :
  for_eachM (seed_step c) keys (x, sd) w = (Ok (x', sd'), w') ->
  found_in x z -> found_in x' z.
Proof.
  intros Hloop (k & v & Hk & Hv & Hkept & Hint). exists k, v.
  repeat split; try assumption.
  apply (seed_loop_frame _ _ _ _ _ _ _ _ Hloop); auto.
Qed.

Lemma found_in_fix_control x x' z :
  fix_control x = Ok x' -> found_in x z -> found_in x' z.
Proof.
  intros Hfix (k & v & Hk & Hv & Hkept & Hint). exists k, v.
  repeat split; try assumption.
  rewrite (fix_control_other _ _ k Hfix); [assumption|].
  intros ->. by rewrite seed_key_control in Hk.
Qed.

Lemma reported_from_step x sd sd' proj :
  proj = ksampler_seed \/ proj = main_seed ->
  (exists v1 key,
     seed_key key = true /\ field x key = Some v1 /\ kept_seed v1 = true
     /\ (sd' = sd
         \/ exists n,
              Py.int v1 = Ok n
              /\ (sd' = {| ksampler_seed := Some n;
                           main_seed := main_seed sd |}
                  \/ sd' = {| ksampler_seed := ksampler_seed sd;
                              main_seed := Some n |}))) ->
  reported_from x sd sd' proj.
Proof.
  intros Hproj (v1 & key & Hk & Hv & Hkept & Hsd).
  destruct Hsd as [->|(n & Hn & Hsd)]; [by left|].
  assert (Hfound : found_in x n) by (exists key, v1; by repeat split).
  destruct Hproj as [-> | ->], Hsd as [-> | ->]; simpl;
    first [ by left | right; by exists n ].
Qed.

Lemma seed_loop_reported c keys x sd w x' sd' w' proj :
  proj = ksampler_seed \/ proj = main_seed ->
  for_eachM (seed_step c) keys (x, sd) w = (Ok (x', sd'), w') ->
  (forall k, In k keys -> seed_key k = true) ->
  reported_from x' sd sd' proj.
Proof.
  intros Hproj. revert x sd w.
  induction keys as [|key keys IH]; intros x sd w Hloop Hkeys.
  - msimpl. injection Hloop as _ <- _. by left.
  - cbn [for_eachM] in Hloop. unfold bind at 1 in Hloop.
    destruct (seed_step c (x, sd) key w) as [[[x1 sd1]|e] w1] eqn:Hstep;
      [|discriminate].
    destruct (seed_step_cases _ _ _ _ _ _ _ _ Hstep)
      as (v1 & Hkey & Hkept & _ & _ & Hsd).
    assert (H1 : reported_from x1 sd sd1 proj).
    { apply reported_from_step; [assumption|]. exists v1, key.
      repeat split; try assumption. apply Hkeys. by left. }
    destruct (IH _ _ _ Hloop) as [Heq|(z & Hz & Hf)].
    { intros k Hin. apply Hkeys. by right. }
    + destruct H1 as [H1|(z & Hz & Hf)].
      * left. by rewrite Heq.
      * right. exists z. split; [by rewrite Heq|].
        by apply (found_in_loop _ _ _ _ _ _ _ _ _ Hloop).
    + right. by exists z.
Qed.

Lemma enforce_node_reported sd v w v' sd' w' proj :
  proj = ksampler_seed \/ proj = main_seed ->
  enforce_node sd v w = (Ok (v', sd'), w') ->
  proj sd' = proj sd
  \/ exists z x', proj sd' = Some z /\ field v' "inputs" = Some x'
                  /\ found_in x' z.
Proof.
  intros Hproj. unfold enforce_node. intros H.
  destruct v as [| | | | | |nd];
    try (msimpl; injection H as _ <- _; by left).
  destruct (Py.dict_get nd "inputs") as [x|] eqn:Hin;
    [|msimpl; injection H as _ <- _; by left].
  unfold bind at 1 in H. unfold lift at 1 in H.
  destruct (seed_keys x) as [keys|] eqn:Hkeys; [|discriminate].
  unfold bind at 1 in H.
  destruct (for_eachM _ keys (x, sd) w) as [[[x1 sd1]|e] w1] eqn:Hloop;
    [|discriminate].
  unfold bind, lift, ret in H.
  destruct (fix_control x1) as [x2|] eqn:Hfix; [|discriminate].
  injection H as <- <- _.
  destruct (seed_loop_reported _ _ _ _ _ _ _ _ proj Hproj Hloop
              (seed_keys_sound _ _ Hkeys)) as [Heq|(z & Hz & Hf)];
    [by left|].
  right. exists z, x2. split; [assumption|]. split.
  - simpl. apply dict_get_set_eq.
  - by apply (found_in_fix_control _ _ _ Hfix).
Qed.

Lemma enforce_nodes_reported g sd w g' sd' w' proj :
  proj = ksampler_seed \/ proj = main_seed ->
  enforce_nodes g sd w = (Ok (g', sd'), w') ->
  proj sd' = proj sd \/ exists z, proj sd' = Some z /\ seed_in g' z.
Proof.
  intros Hproj. revert sd w g' sd' w'.
  induction g as [|[k0 v0] g IH]; intros sd w g' sd' w' H.
  - msimpl. injection H as _ <- _. by left.
  - cbn [enforce_nodes] in H. unfold bind at 1 in H.
    destruct (enforce_node sd v0 w) as [[[v0' sd1]|e] w1] eqn:Hnode;
      [|discriminate].
    unfold bind at 1 in H.
    destruct (enforce_nodes g sd1 w1) as [[[t' sd2]|e] w2] eqn:Hrest;
      [|discriminate].
    unfold ret in H. injection H as <- <- _.
    destruct (IH _ _ _ _ _ Hrest) as [Heq|(z & Hz & (i & v & x & Hi & Hx))].
    + destruct (enforce_node_reported _ _ _ _ _ _ proj Hproj Hnode)
        as [Heq1|(z & x' & Hz & Hx' & Hf)].
      * left. by rewrite Heq.
      * right. exists z. split; [by rewrite Heq|].
        exists k0, v0', x'. split; [by left | by split].
    + right. exists z. split; [assumption|].
      exists i, v, x. split; [by right | assumption].
Qed.

(** X12: the seed the enforcer reports is 0 or a seed of the graph it
    returns: some node of that graph holds, under a seed-like name, a
    number whose integer value is the reported seed. *)
Theorem enforce_reports_a_seed_of_the_graph (g g' : dict) (s : Z)
    (w w' : world) :
  _enforce_deterministic_workflow (JDict g) w = (Ok (JDict g', s), w') ->
  s = 0 \/ seed_in g' s.
Proof.
  unfold _enforce_deterministic_workflow, bind, ret.
  destruct (enforce_nodes g _ w) as [[[nodes' sd]|e] w1] eqn:Hnodes;
    [|discriminate].
  intros [= <- <- _].
  destruct (enforce_nodes_reported _ _ _ _ _ _ ksampler_seed
              (or_introl eq_refl) Hnodes) as [Hk|(zk & Hk & Hfk)];
    destruct (enforce_nodes_reported _ _ _ _ _ _ main_seed
                (or_intror eq_refl) Hnodes) as [Hm|(zm & Hm & Hfm)];
    simpl in Hk, Hm; unfold final_seed, Py.or_int; rewrite Hk, Hm; simpl;
    try (by left).
  - destruct (Z.eqb_spec zm 0); simpl; [by left|].
    destruct (Z.eqb_spec zm 0); [contradiction | by right].
  - destruct (Z.eqb_spec zk 0); simpl; [by left|].
    destruct (Z.eqb_spec zk 0); [contradiction | by right].
  - destruct (Z.eqb_spec zk 0); simpl.
    + destruct (Z.eqb_spec zm 0); simpl; [by left|].
      destruct (Z.eqb_spec zm 0); [contradiction | by right].
    + destruct (Z.eqb_spec zk 0); [contradiction | by right].
Qed.

Lemma enforce_reports_witness : 1 = 0 \/ seed_in txt2img_fixed 1.
Proof.
  apply (enforce_reports_a_seed_of_the_graph txt2img_graph txt2img_fixed 1
           empty_world {| store := []; rng := fun n => 0 |}).
  reflexivity.
Defined.

Lemma dict_set_keeps_keys (d : dict) key v k :
  is_Some (Py.dict_get d key) ->
  is_Some (Py.dict_get (Py.dict_set d key v) k) <-> is_Some (Py.dict_get d k).
Proof.
  intros Hkey. destruct (String.eqb_spec key k) as [<-|Hne].
  - rewrite dict_get_set_eq. split; [by intros _ | by eexists].
  - by rewrite dict_get_set_ne.
Qed.

Lemma seed_loop_keys c keys x sd w x' sd' w' k :
  for_eachM (seed_step c) keys (x, sd) w = (Ok (x', sd'), w') ->
  is_Some (field x' k) <-> is_Some (field x k).
Proof.
  revert x sd w. induction keys as [|key keys IH]; intros x sd w Hloop.
  - msimpl. by injection Hloop as <- _ _.
  - cbn [for_eachM] in Hloop. unfold bind at 1 in Hloop.
    destruct (seed_step c (x, sd) key w) as [[[x1 sd1]|e] w1] eqn:Hstep;
      [|discriminate].
    rewrite (IH _ _ _ Hloop).
    apply seed_step_frame in Hstep
      as [->|(d & v0 & r & -> & Hget & _ & ->)]; [reflexivity|].
    simpl. apply dict_set_keeps_keys. by eexists.
Qed.

Lemma fix_control_keys x x' k :
  fix_control x = Ok x' ->
  is_Some (field x' k) <-> is_Some (field x k).
Proof.
  unfold fix_control. intros H.
  destruct (Py.py_in "control_after_generate" x) as [[|]|] eqn:Hin;
    simpl in H; try discriminate; [|by injection H as <-].
  destruct (Py.getitem x "control_after_generate") as [c|] eqn:Hget;
    simpl in H; [|discriminate].
  destruct (Py.in_types c control_values); [|by injection H as <-].
  destruct x as [| | | | | |d]; try discriminate. injection H as <-.
  simpl in *. apply dict_set_keeps_keys.
  destruct (Py.dict_get d "control_after_generate"); [by eexists|discriminate].
Qed.

Lemma enforce_node_keys sd v w v' sd' w' k :
  enforce_node sd v w = (Ok (v', sd'), w') ->
  is_Some (match field v' "inputs" with
           | Some x => field x k
           | None => None
           end)
  <-> is_Some (match field v "inputs" with
               | Some x => field x k
               | None => None
               end).
Proof.
  unfold enforce_node. intros H.
  destruct v as [| | | | | |nd];
    try (msimpl; by injection H as <- _ _).
  destruct (Py.dict_get nd "inputs") as [x|] eqn:Hin;
    [|msimpl; by injection H as <- _ _].
  unfold bind at 1 in H. unfold lift at 1 in H.
  destruct (seed_keys x) as [keys|] eqn:Hkeys; [|discriminate].
  unfold bind at 1 in H.
  destruct (for_eachM _ keys (x, sd) w) as [[[x1 sd1]|e] w1] eqn:Hloop;
    [|discriminate].
  unfold bind, lift, ret in H.
  destruct (fix_control x1) as [x2|] eqn:Hfix; [|discriminate].
  injection H as <- _ _. simpl. rewrite dict_get_set_eq, Hin.
  rewrite (fix_control_keys _ _ k Hfix).
  apply (seed_loop_keys _ _ _ _ _ _ _ _ k Hloop).
Qed.

Lemma enforce_nodes_ids g sd w g' sd' w' :
  enforce_nodes g sd w = (Ok (g', sd'), w') -> map fst g' = map fst g.
Proof.
  revert sd w g' sd' w'.
  induction g as [|[k0 v0] g IH]; intros sd w g' sd' w' H.
  - msimpl. by injection H as <- _ _.
  - cbn [enforce_nodes] in H. unfold bind at 1 in H.
    destruct (enforce_node sd v0 w) as [[[v0' sd1]|e] w1] eqn:Hnode;
      [|discriminate].
    unfold bind at 1 in H.
    destruct (enforce_nodes g sd1 w1) as [[[t' sd2]|e] w2] eqn:Hrest;
      [|discriminate].
    unfold ret in H. injection H as <- _ _. simpl.
    by rewrite (IH _ _ _ _ _ Hrest).
Qed.

(** X13: the enforcer changes values only: the graph it returns has the
    same node ids in the same order, and every node has exactly the input
    field names it had before. *)
Theorem enforce_keeps_shape (g g' : dict) (s : Z) (w w' : world) :
  _enforce_deterministic_workflow (JDict g) w = (Ok (JDict g', s), w') ->
  map fst g' = map fst g
  /\ forall node_id k,
       is_Some (input_field g' node_id k) <-> is_Some (input_field g node_id k).
Proof.
  unfold _enforce_deterministic_workflow, bind, ret.
  destruct (enforce_nodes g _ w) as [[[nodes' sd]|e] w1] eqn:Hnodes;
    [|discriminate].
  intros [= <- _ _]. split; [by apply enforce_nodes_ids in Hnodes|].
  intros node_id k. unfold input_field, node_field.
  pose proof (enforce_nodes_lookup _ _ _ _ _ _ node_id Hnodes) as Hlook.
  destruct (Py.dict_get g node_id) as [v|].
  - destruct Hlook as (v1 & sd1 & w2 & sd1' & w2' & -> & Hnode).
    apply (enforce_node_keys _ _ _ _ _ _ k Hnode).
  - by rewrite Hlook.
Qed.

Lemma enforce_keeps_shape_witness :
  map fst txt2img_fixed = map fst txt2img_graph
  /\ forall node_id k,
       is_Some (input_field txt2img_fixed node_id k)
       <-> is_Some (input_field txt2img_graph node_id k).
Proof.
  apply (enforce_keeps_shape txt2img_graph txt2img_fixed 1 empty_world
           {| store := []; rng := fun n => 0 |}).
  reflexivity.
Defined.

(** ** The preparer, exactly, on a well-formed template *)

Lemma assign_input_tail (l : list json) g r node_id k v :
  well_formed_template g = true ->
  Py.dict_has g node_id = true ->
  assign (length l) [node_id; "inputs"] k v
    {| store := (l ++ [JDict g])%list; rng := r |}
  = (Ok tt,
     {| store := (l ++ [JDict (set_input g node_id k v)])%list; rng := r |}).
Proof.
  intros Hg Hhas. unfold assign, bind, read, lift, write. cbn [store rng].
  rewrite list_lookup_middle by reflexivity.
  rewrite (update_input g node_id k v Hg Hhas).
  f_equal. f_equal. cbn [store].
  rewrite insert_app_r_alt by lia.
  by rewrite Nat.sub_diag.
Qed.

Lemma write_prompt_tail (l : list json) g r node fld text :
  well_formed_template g = true ->
  write_prompt (length l) node fld text
    {| store := (l ++ [JDict g])%list; rng := r |}
  = (Ok tt,
     {| store := (l ++ [JDict (put_prompt g node fld text)])%list;
        rng := r |}).
Proof.
  intros Hg. unfold write_prompt, put_prompt.
  destruct node as [node_id|]; [|reflexivity].
  destruct (Py.truthy (Some node_id)); [|reflexivity].
  unfold bind at 1. unfold read at 1. simpl store.
  rewrite list_lookup_middle by reflexivity.
  unfold bind at 1. unfold lift at 1. simpl.
  destruct (Py.dict_has g node_id) eqn:Hhas; [|reflexivity].
  by apply assign_input_tail.
Qed.

Lemma write_seed_tail (l : list json) g r S sampler_id :
  well_formed_template g = true ->
  write_seed (length l) S tt sampler_id
    {| store := (l ++ [JDict g])%list; rng := r |}
  = (Ok tt,
     {| store := (l ++ [JDict (put_seed S g sampler_id)])%list; rng := r |}).
Proof.
  intros Hg. unfold write_seed, put_seed.
  unfold bind at 1. unfold read at 1. simpl store.
  rewrite list_lookup_middle by reflexivity.
  unfold bind at 1. unfold lift at 1. simpl.
  destruct (Py.dict_has g sampler_id) eqn:Hhas; [|reflexivity].
  destruct (well_formed_lookup g sampler_id Hg Hhas)
    as (nd & i & Hn & Hi & _).
  unfold bind at 1. unfold lift at 1. simpl. rewrite Hn.
  unfold bind at 1. unfold lift at 1. simpl.
  unfold Py.dict_has at 1. rewrite Hi.
  unfold bind at 1. unfold ret at 1.
  by apply assign_input_tail.
Qed.

Lemma well_formed_put_seed S g sid :
  well_formed_template g = true ->
  well_formed_template (put_seed S g sid) = true.
Proof.
  intros Hg. unfold put_seed. destruct (Py.dict_has g sid); [|assumption].
  apply well_formed_set_input; [assumption | apply seed_entry_ok_int].
Qed.

Lemma well_formed_put_prompt g node fld text :
  well_formed_template g = true ->
  well_formed_template (put_prompt g node fld text) = true.
Proof.
  intros Hg. unfold put_prompt. destruct node as [node_id|]; [|assumption].
  destruct (_ && _); [|assumption].
  apply well_formed_set_input; [assumption | apply seed_entry_ok_str].
Qed.

Lemma well_formed_put_seeds S sids g :
  well_formed_template g = true ->
  well_formed_template (fold_left (put_seed S) sids g) = true.
Proof.
  revert g. induction sids as [|sid sids IH]; intros g Hg; simpl;
    [assumption|].
  by apply IH, well_formed_put_seed.
Qed.

Lemma write_seeds_tail (l : list json) r S sids g :
  well_formed_template g = true ->
  for_eachM (write_seed (length l) S) sids tt
    {| store := (l ++ [JDict g])%list; rng := r |}
  = (Ok tt,
     {| store := (l ++ [JDict (fold_left (put_seed S) sids g)])%list;
        rng := r |}).
Proof.
  revert g. induction sids as [|sid sids IH]; intros g Hg; [reflexivity|].
  cbn [for_eachM fold_left]. unfold bind at 1.
  rewrite (write_seed_tail l g r S sid Hg).
  by apply IH, well_formed_put_seed.
Qed.

Lemma write_image_tail (l : list json) g r mapping image :
  well_formed_template g = true ->
  write_image (length l) mapping image
    {| store := (l ++ [JDict g])%list; rng := r |}
  = (Ok tt,
     {| store := (l ++ [JDict (put_image g mapping image)])%list;
        rng := r |}).
Proof.
  intros Hg. unfold write_image, put_image.
  destruct image as [filename|]; [|reflexivity].
  destruct (load_image_node mapping) as [node_id|]; [|reflexivity].
  destruct (Py.truthy (Some filename) && Py.truthy (Some node_id));
    [|reflexivity].
  unfold bind at 1. unfold read at 1. simpl store.
  rewrite list_lookup_middle by reflexivity.
  unfold bind at 1. unfold lift at 1. simpl.
  destruct (Py.dict_has g node_id) eqn:Hhas; [|reflexivity].
  by apply assign_input_tail.
Qed.

Lemma prepare_exact self workflow_index positive_prompt negative_prompt seed
    image w wi g :
  get_workflow self workflow_index = Some wi ->
  holds (workflow_data wi) g w ->
  well_formed_template g = true ->
  prepare_workflow self workflow_index positive_prompt negative_prompt seed
    image w
  = (Ok (Some (length (store w)), Some (actual_seed_of seed w),
         Some negative_prompt),
     {| store :=
          (store w
           ++ [JDict (prepared g (node_mapping wi) positive_prompt
                        negative_prompt (actual_seed_of seed w) image)])%list;
        rng := rng_after seed w |}).
Proof.
  intros Hwi Ho Hg. unfold prepare_workflow. rewrite Hwi.
  assert (Hcopy : deepcopy (workflow_data wi) w
                  = (Ok (length (store w)),
                     {| store := (store w ++ [JDict g])%list;
                        rng := rng w |})).
  { unfold deepcopy, bind, read, alloc. by rewrite Ho. }
  unfold bind at 1. rewrite Hcopy.
  unfold bind at 1. rewrite (write_prompt_tail _ _ _ _ _ _ Hg).
  pose proof (well_formed_put_prompt g
                (positive_prompt_node (node_mapping wi))
                (positive_prompt_field (node_mapping wi)) positive_prompt Hg)
    as Hg1.
  unfold bind at 1. rewrite (write_prompt_tail _ _ _ _ _ _ Hg1).
  pose proof (well_formed_put_prompt _
                (negative_prompt_node (node_mapping wi))
                (negative_prompt_field (node_mapping wi)) negative_prompt Hg1)
    as Hg2.
  unfold bind at 1.
  destruct seed as [s|]; [unfold ret at 1 | unfold randint at 1];
    cbn [store rng];
    unfold bind at 1;
    rewrite (write_seeds_tail _ _ _ _ _ Hg2);
    unfold bind at 1;
    rewrite (write_image_tail _ _ _ _ _
               (well_formed_put_seeds _ _ _ Hg2));
    reflexivity.
Qed.

(** ** The prepared graph, field by field *)

Lemma map_fst_dict_set (d : dict) k v :
  is_Some (Py.dict_get d k) -> map fst (Py.dict_set d k v) = map fst d.
Proof.
  induction d as [|[k' v'] d IH]; simpl; [by intros [? [=]]|].
  destruct (String.eqb_spec k' k) as [->|Hne]; [reflexivity|].
  intros H. simpl. by rewrite IH.
Qed.


Lemma input_field_set_input_ne g node_id k v node_id' k' :
  node_id' <> node_id \/ k' <> k ->
  input_field (set_input g node_id k v) node_id' k' = input_field g node_id' k'.
Proof.
  intros Hne. unfold set_input.
  destruct (Py.dict_get g node_id) as [[| | | | | |nd]|] eqn:Hn;
    try reflexivity.
  destruct (Py.dict_get nd "inputs") as [[| | | | | |i]|] eqn:Hi;
    try reflexivity.
  unfold input_field, node_field.
  destruct (String.eqb_spec node_id node_id') as [<-|Hid].
  - destruct Hne as [?|Hk]; [congruence|].
    rewrite dict_get_set_eq, Hn. simpl. rewrite dict_get_set_eq, Hi. simpl.
    apply dict_get_set_ne. congruence.
  - by rewrite dict_get_set_ne.
Qed.


Lemma put_seed_other S g sid node_id k :
  k <> "seed" ->
  input_field (put_seed S g sid) node_id k = input_field g node_id k.
Proof.
  intros Hk. unfold put_seed. destruct (Py.dict_has g sid); [|reflexivity].
  apply input_field_set_input_ne. by right.
Qed.

Lemma put_seeds_other S sids g node_id k :
  k <> "seed" ->
  input_field (fold_left (put_seed S) sids g) node_id k
  = input_field g node_id k.
Proof.
  intros Hk. revert g. induction sids as [|sid sids IH]; intros g; simpl;
    [reflexivity|].
  by rewrite IH, put_seed_other.
Qed.

Lemma put_image_other g mapping image node_id k :
  k <> "image" ->
  input_field (put_image g mapping image) node_id k = input_field g node_id k.
Proof.
  intros Hk. unfold put_image. destruct image as [f|]; [|reflexivity].
  destruct (load_image_node mapping) as [l|]; [|reflexivity].
  destruct (_ && _); [|reflexivity].
  apply input_field_set_input_ne. by right.
Qed.

Lemma dict_has_put_prompt g node fld text node_id :
  Py.dict_has (put_prompt g node fld text) node_id = Py.dict_has g node_id.
Proof.
  unfold put_prompt. destruct node as [n|]; [|reflexivity].
  destruct (_ && _); [|reflexivity]. apply dict_has_set_input.
Qed.

Lemma dict_has_put_seeds S sids g node_id :
  Py.dict_has (fold_left (put_seed S) sids g) node_id = Py.dict_has g node_id.
Proof.
  revert g. induction sids as [|sid sids IH]; intros g; simpl; [reflexivity|].
  rewrite IH. unfold put_seed. destruct (Py.dict_has g sid); [|reflexivity].
  apply dict_has_set_input.
Qed.


Lemma put_seeds_seeded S sids g sid :
  well_formed_template g = true ->
  In sid sids -> Py.dict_has g sid = true ->
  input_field (fold_left (put_seed S) sids g) sid "seed" = Some (JInt S).
Proof.
  revert g. induction sids as [|s0 sids IH]; intros g Hg; [intros []|].
  assert (Hkeep : forall sids g,
             input_field g sid "seed" = Some (JInt S) ->
             input_field (fold_left (put_seed S) sids g) sid "seed"
             = Some (JInt S)).
  { clear. induction sids as [|s1 sids IH]; intros g Hs; simpl; [assumption|].
    apply IH. unfold put_seed. destruct (Py.dict_has g s1); [|assumption].
    by apply input_field_set_input_keep. }
  intros [->|Hin] Hhas; simpl.
  - apply Hkeep. unfold put_seed. rewrite Hhas.
    by apply input_field_set_input_eq.
  - apply IH; [by apply well_formed_put_seed | assumption |].
    unfold put_seed. destruct (Py.dict_has g s0) eqn:H0; [|assumption].
    by rewrite dict_has_set_input.
Qed.

(** ** What the preparer writes *)

Lemma actual_seed_range w : 1 <= actual_seed_of None w <= MAX_SEED.
Proof.
  unfold actual_seed_of.
  pose proof (Z.mod_pos_bound (rng w 0%nat) (MAX_SEED - 1 + 1)).
  unfold MAX_SEED in *. lia.
Qed.

(** X14: without a caller seed, the preparer on a well-formed template
    draws one seed in 1..2^63-1, writes it into the seed field of every
    sampler of the role mapping's sampler list, and returns it. *)
Theorem prepare_draws_one_seed (self : WorkflowParser) (workflow_index : Z)
    (positive_prompt negative_prompt : string)
    (input_image_filename : option string) (w : world) (wi : WorkflowInfo)
    (g : dict) :
  workflows self !! workflow_index = Some wi ->
  store w !! workflow_data wi = Some (JDict g) ->
  well_formed_template g = true ->
  exists S g' w',
    prepare_workflow self workflow_index positive_prompt negative_prompt None
      input_image_filename w
    = (Ok (Some (length (store w)), Some S, Some negative_prompt), w')
    /\ 1 <= S <= MAX_SEED
    /\ store w' !! length (store w) = Some (JDict g')
    /\ forall sid,
         In sid (sampler_nodes (node_mapping wi)) ->
         Py.dict_has g sid = true ->
         input_field g' sid "seed" = Some (JInt S).
Proof.
  intros Hwi Ho Hg.
  eexists _, _, _. split; [by apply (prepare_exact _ _ _ _ None)|].
  split; [apply actual_seed_range|]. split.
  - cbn [store]. by apply list_lookup_middle.
  - intros sid Hin Hhas. unfold prepared.
    rewrite put_image_other by discriminate.
    apply put_seeds_seeded; [|assumption|].
    + by do 2 apply well_formed_put_prompt.
    + by rewrite !dict_has_put_prompt.
Qed.

Lemma prepare_draws_one_seed_witness :
  exists S g' w',
    prepare_workflow sample_parser 1 "a cat" "blurry" None None sample_world
    = (Ok (Some (length (store sample_world)), Some S, Some "blurry"), w')
    /\ 1 <= S <= MAX_SEED
    /\ store w' !! length (store sample_world) = Some (JDict g')
    /\ forall sid,
         In sid (sampler_nodes (node_mapping sample_info)) ->
         Py.dict_has seeded_graph sid = true ->
         input_field g' sid "seed" = Some (JInt S).
Proof.
  apply (prepare_draws_one_seed sample_parser 1 "a cat" "blurry" None
           sample_world sample_info seeded_graph); reflexivity.
Defined.



(** X16: with a non-empty image name and a load-image role that names a
    node of a well-formed template, the preparer writes the name into the
    [image] input of that node. *)
Theorem prepare_writes_image (self : WorkflowParser) (workflow_index : Z)
    (positive_prompt negative_prompt : string) (seed : option Z)
    (filename load_id : string) (w : world) (wi : WorkflowInfo) (g : dict) :
  workflows self !! workflow_index = Some wi ->
  store w !! workflow_data wi = Some (JDict g) ->
  well_formed_template g = true ->
  load_image_node (node_mapping wi) = Some load_id ->
  load_id <> "" -> filename <> "" ->
  Py.dict_has g load_id = true ->
  exists S g' w',
    prepare_workflow self workflow_index positive_prompt negative_prompt seed
      (Some filename) w
    = (Ok (Some (length (store w)), Some S, Some negative_prompt), w')
    /\ store w' !! length (store w) = Some (JDict g')
    /\ input_field g' load_id "image" = Some (JStr filename).
Proof.
  intros Hwi Ho Hg Hl Hne Hf Hhas.
  eexists _, _, _. split; [by apply prepare_exact|]. split.
  - cbn [store]. by apply list_lookup_middle.
  - unfold prepared, put_image. rewrite Hl. unfold Py.truthy.
    destruct (String.eqb_spec filename ""); [contradiction|].
    destruct (String.eqb_spec load_id ""); [contradiction|].
    rewrite dict_has_put_seeds, !dict_has_put_prompt, Hhas. simpl.
    apply input_field_set_input_eq.
    + by apply well_formed_put_seeds; do 2 apply well_formed_put_prompt.
    + by rewrite dict_has_put_seeds, !dict_has_put_prompt.
Qed.

Lemma prepare_writes_image_witness :
  exists S g' w',
    prepare_workflow img2img_parser 1 "a cat" "blurry" (Some 7)
      (Some "upload.png") img2img_world
    = (Ok (Some (length (store img2img_world)), Some S, Some "blurry"), w')
    /\ store w' !! length (store img2img_world) = Some (JDict g')
    /\ input_field g' "12" "image" = Some (JStr "upload.png").
Proof.
  apply (prepare_writes_image img2img_parser 1 "a cat" "blurry" (Some 7)
           "upload.png" "12" img2img_world img2img_info img2img_graph);
    try reflexivity; discriminate.
Defined.

(** X17: on a well-formed template whose mapping keeps the prompt fields
    at [text], the preparer writes the negative prompt into the negative
    node and the positive prompt into the positive node; when both roles
    name the same node, that node ends with the negative prompt. *)
Theorem prepare_writes_prompts (self : WorkflowParser) (workflow_index : Z)
    (positive_prompt negative_prompt : string) (seed : option Z)
    (input_image_filename : option string) (w : world) (wi : WorkflowInfo)
    (g : dict) :
  workflows self !! workflow_index = Some wi ->
  store w !! workflow_data wi = Some (JDict g) ->
  well_formed_template g = true ->
  positive_prompt_field (node_mapping wi) = "text" ->
  negative_prompt_field (node_mapping wi) = "text" ->
  exists S g' w',
    prepare_workflow self workflow_index positive_prompt negative_prompt seed
      input_image_filename w
    = (Ok (Some (length (store w)), Some S, Some negative_prompt), w')
    /\ store w' !! length (store w) = Some (JDict g')
    /\ (forall n,
          negative_prompt_node (node_mapping wi) = Some n ->
          n <> "" -> Py.dict_has g n = true ->
          input_field g' n "text" = Some (JStr negative_prompt))
    /\ (forall p,
          positive_prompt_node (node_mapping wi) = Some p ->
          p <> "" -> Py.dict_has g p = true ->
          negative_prompt_node (node_mapping wi) <> Some p ->
          input_field g' p "text" = Some (JStr positive_prompt)).
Proof.
  intros Hwi Ho Hg Hpf Hnf.
  eexists _, _, _. split; [by apply prepare_exact|]. split.
  { cbn [store]. by apply list_lookup_middle. }
  unfold prepared. rewrite Hpf, Hnf. split.
  - intros n Hn Hne Hhas.
    rewrite put_image_other, put_seeds_other by discriminate.
    rewrite Hn. unfold put_prompt at 1. unfold Py.truthy.
    destruct (String.eqb_spec n ""); [contradiction|].
    rewrite dict_has_put_prompt, Hhas. simpl.
    apply input_field_set_input_eq.
    + by apply well_formed_put_prompt.
    + by rewrite dict_has_put_prompt.
  - intros p Hp Hne Hhas Hdiff.
    rewrite put_image_other, put_seeds_other by discriminate.
    assert (input_field
              (put_prompt
                 (put_prompt g (positive_prompt_node (node_mapping wi)) "text"
                    positive_prompt)
                 (negative_prompt_node (node_mapping wi)) "text"
                 negative_prompt) p "text"
            = input_field
                (put_prompt g (positive_prompt_node (node_mapping wi)) "text"
                   positive_prompt) p "text") as ->.
    { unfold put_prompt at 1.
      destruct (negative_prompt_node (node_mapping wi)) as [n|];
        [|reflexivity].
      destruct (_ && _); [|reflexivity].
      apply input_field_set_input_ne. left. congruence. }
    rewrite Hp. unfold put_prompt, Py.truthy.
    destruct (String.eqb_spec p ""); [contradiction|].
    rewrite Hhas. simpl. by apply input_field_set_input_eq.
Qed.

Lemma prepare_writes_prompts_witness :
  exists S g' w',
    prepare_workflow img2img_parser 1 "a cat" "blurry" None None img2img_world
    = (Ok (Some (length (store img2img_world)), Some S, Some "blurry"), w')
    /\ store w' !! length (store img2img_world) = Some (JDict g')
    /\ (forall n,
          negative_prompt_node (node_mapping img2img_info) = Some n ->
          n <> "" -> Py.dict_has img2img_graph n = true ->
          input_field g' n "text" = Some (JStr "blurry"))
    /\ (forall p,
          positive_prompt_node (node_mapping img2img_info) = Some p ->
          p <> "" -> Py.dict_has img2img_graph p = true ->
          negative_prompt_node (node_mapping img2img_info) <> Some p ->
          input_field g' p "text" = Some (JStr "a cat")).
Proof.
  apply (prepare_writes_prompts img2img_parser 1 "a cat" "blurry" None None
           img2img_world img2img_info img2img_graph); reflexivity.
Defined.

(** ** Nodes without an inputs entry *)

(** X18: when the positive-prompt role names a node of the template that
    is a dictionary without an [inputs] entry, the preparer raises
    KeyError: the subscript at line 273 is not guarded. *)
Theorem prepare_raises_without_inputs (self : WorkflowParser)
    (workflow_index : Z) (positive_prompt negative_prompt : string)
    (seed : option Z) (input_image_filename : option string) (w : world)
    (wi : WorkflowInfo) (g nd : dict) (p : string) :
  workflows self !! workflow_index = Some wi ->
  store w !! workflow_data wi = Some (JDict g) ->
  positive_prompt_node (node_mapping wi) = Some p ->
  p <> "" ->
  Py.dict_get g p = Some (JDict nd) ->
  Py.dict_get nd "inputs" = None ->
  fst (prepare_workflow self workflow_index positive_prompt negative_prompt
         seed input_image_filename w) = Raise KeyError.
Proof.
  intros Hwi Ho Hp Hne Hn Hi.
  unfold prepare_workflow, get_workflow. rewrite Hwi.
  unfold deepcopy. unfold bind at 1. unfold bind at 1. unfold read at 1.
  rewrite Ho. unfold alloc at 1.
  unfold bind at 1. rewrite Hp. unfold write_prompt, Py.truthy.
  destruct (String.eqb_spec p ""); [contradiction|]. cbn [negb].
  unfold bind at 1. unfold read at 1. cbn [store].
  rewrite list_lookup_middle by reflexivity.
  unfold bind at 1. unfold lift at 1. cbn [Py.py_in].
  unfold Py.dict_has. rewrite Hn.
  unfold assign. unfold bind at 1. unfold read at 1. cbn [store].
  rewrite list_lookup_middle by reflexivity.
  unfold bind at 1. unfold lift at 1.
  cbn [update_at Py.getitem obind]. rewrite Hn. cbn [obind Py.getitem].
  rewrite Hi. reflexivity.
Qed.

Lemma prepare_raises_without_inputs_witness :
  fst (prepare_workflow
         {| workflows_dir := "workflows";
            workflows :=
              {[ 1 := {| name := "bare"; file_path := "workflows/bare.json";
                         workflow_data := 0%nat;
                         node_mapping := set_positive default_mapping "6";
                         description := "bare" |} ]} |}
         1 "a cat" "blurry" None None
         {| store := [JDict [("6", JDict [("class_type",
                                           JStr "CLIPTextEncode")])]];
            rng := fun _ => 0 |})
  = Raise KeyError.
Proof.
  apply (prepare_raises_without_inputs _ 1 "a cat" "blurry" None None _
           {| name := "bare"; file_path := "workflows/bare.json";
              workflow_data := 0%nat;
              node_mapping := set_positive default_mapping "6";
              description := "bare" |}
           [("6", JDict [("class_type", JStr "CLIPTextEncode")])]
           [("class_type", JStr "CLIPTextEncode")] "6");
    try reflexivity; discriminate.
Defined.

(** X19: the seed loop of the preparer repairs a sampler node that has no
    [inputs] entry: the node gets [inputs] equal to the one-entry
    dictionary with the seed, the graph keeps its node ids, and no other
    object of the store changes. *)
Theorem write_seed_creates_inputs (workflow : oid) (actual_seed : Z)
    (sampler_id : string) (w : world) (g nd : dict) :
  store w !! workflow = Some (JDict g) ->
  Py.dict_get g sampler_id = Some (JDict nd) ->
  Py.dict_get nd "inputs" = None ->
  exists g' w',
    write_seed workflow actual_seed tt sampler_id w = (Ok tt, w')
    /\ store w' !! workflow = Some (JDict g')
    /\ node_field g' sampler_id "inputs"
       = Some (JDict [("seed", JInt actual_seed)])
    /\ map fst g' = map fst g
    /\ forall o, o <> workflow -> store w' !! o = store w !! o.
Proof.
  intros Ho Hn Hi.
  assert (workflow < length (store w))%nat as Hlt
    by (by eapply lookup_lt_Some).
  set (nd1 := Py.dict_set nd "inputs" (JDict [])).
  set (g1 := Py.dict_set g sampler_id (JDict nd1)).
  set (nd2 := Py.dict_set nd1 "inputs" (JDict [("seed", JInt actual_seed)])).
  set (g2 := Py.dict_set g1 sampler_id (JDict nd2)).
  exists g2,
    {| store := <[workflow := JDict g2]> (<[workflow := JDict g1]> (store w));
       rng := rng w |}.
  split; [|split; [|split; [|split]]].
  - unfold write_seed.
    unfold bind at 1. unfold read at 1. rewrite Ho.
    unfold bind at 1. unfold lift at 1. cbn [Py.py_in].
    unfold Py.dict_has at 1. rewrite Hn.
    unfold bind at 1. unfold lift at 1. cbn [Py.getitem]. rewrite Hn.
    unfold bind at 1. unfold lift at 1. cbn [Py.py_in].
    unfold Py.dict_has at 1. rewrite Hi. cbn [negb].
    unfold bind at 1. unfold assign at 1.
    unfold bind at 1. unfold read at 1. rewrite Ho.
    unfold bind at 1. unfold lift at 1.
    cbn [update_at Py.getitem Py.setitem obind]. rewrite Hn.
    cbn [obind Py.setitem]. unfold write at 1.
    unfold assign. unfold bind at 1. unfold read at 1. cbn [store].
    rewrite list_lookup_insert_eq by assumption.
    unfold bind at 1. unfold lift at 1.
    cbn [update_at Py.getitem Py.setitem obind].
    fold nd1. fold g1. unfold g1 at 1. rewrite dict_get_set_eq.
    cbn [obind Py.getitem]. unfold nd1 at 1. rewrite dict_get_set_eq.
    cbn [obind Py.setitem Py.dict_set]. reflexivity.
  - cbn [store]. apply list_lookup_insert_eq.
    by rewrite length_insert.
  - unfold node_field, g2. rewrite dict_get_set_eq. cbn [field].
    unfold nd2. apply dict_get_set_eq.
  - unfold g2, g1. rewrite !map_fst_dict_set; [reflexivity| |].
    + by rewrite Hn.
    + by rewrite dict_get_set_eq.
  - intros o Hne. cbn [store].
    by rewrite !list_lookup_insert_ne.
Qed.

Lemma write_seed_creates_inputs_witness :
  exists g' w',
    write_seed 0%nat 7 tt "3"
      {| store := [JDict [("3", JDict [("class_type", JStr "KSampler")])]];
         rng := fun _ => 0 |}
    = (Ok tt, w')
    /\ store w' !! 0%nat = Some (JDict g')
    /\ node_field g' "3" "inputs" = Some (JDict [("seed", JInt 7)])
    /\ map fst g' = map fst [("3", JDict [("class_type", JStr "KSampler")])]
    /\ forall o, o <> 0%nat ->
         store w' !! o
         = store {| store := [JDict [("3", JDict [("class_type",
                                                   JStr "KSampler")])]];
                    rng := fun _ => 0 |} !! o.
Proof.
  apply (write_seed_creates_inputs 0%nat 7 "3"
           {| store := [JDict [("3", JDict [("class_type", JStr "KSampler")])]];
              rng := fun _ => 0 |}
           [("3", JDict [("class_type", JStr "KSampler")])]
           [("class_type", JStr "KSampler")]); reflexivity.
Defined.

(** ** Which image the orchestrator fetches *)

Lemma scan_images_search imgs target :
  forallb is_dict imgs = true ->
  is_output target = false ->
  scan_images imgs target
  = Ok (match List.find (fun i => is_output (Some i)) (map ref_of imgs) with
        | Some i => Some i
        | None =>
            match target with
            | Some _ => target
            | None => head (map ref_of imgs)
            end
        end).
Proof.
  revert target. induction imgs as [|img imgs IH]; intros target Ht Hno.
  { by destruct target. }
  simpl in Ht. apply andb_true_iff in Ht as [Hd Ht].
  destruct img as [| | | | | |d]; try discriminate.
  cbn [scan_images Py.get obind map List.find ref_of].
  unfold is_output at 1. cbn [folder_type].
  destruct (Py.is_str "output"
              (match Py.dict_get d "type" with
               | Some v => v
               | None => JStr "output"
               end)) eqn:Hout; [reflexivity|].
  rewrite IH; [|assumption|].
  - destruct (List.find _ (map ref_of imgs)); [reflexivity|].
    by destruct target.
  - destruct target; [assumption|].
    unfold is_output. cbn [folder_type]. exact Hout.
Qed.

Lemma find_app_output (l1 l2 : list image_ref) :
  List.find (fun i => is_output (Some i)) (l1 ++ l2)%list
  = match List.find (fun i => is_output (Some i)) l1 with
    | Some i => Some i
    | None => List.find (fun i => is_output (Some i)) l2
    end.
Proof.
  induction l1 as [|a l1 IH]; [reflexivity|].
  cbn [app List.find]. by destruct (is_output (Some a)).
Qed.

Lemma find_is_output (l : list image_ref) i :
  List.find (fun i => is_output (Some i)) l = Some i ->
  is_output (Some i) = true.
Proof. intros H. by apply find_some in H as [_ H]. Qed.

Lemma scan_outputs_search outs target :
  forallb well_typed_output outs = true ->
  is_output target = false ->
  scan_outputs outs target
  = Ok (match List.find (fun i => is_output (Some i))
                (map ref_of (flat_map images_of outs)) with
        | Some i => Some i
        | None =>
            match target with
            | Some _ => target
            | None => head (map ref_of (flat_map images_of outs))
            end
        end).
Proof.
  revert target. induction outs as [|out outs IH]; intros target Ht Hno.
  { by destruct target. }
  simpl in Ht. apply andb_true_iff in Ht as [Hd Ht].
  destruct out as [| | | | | |d]; try discriminate.
  cbn [scan_outputs Py.py_in obind flat_map].
  unfold images_of at 1 3. cbn [field]. unfold Py.dict_has.
  simpl in Hd.
  destruct (Py.dict_get d "images") as [[| | | | |l|]|] eqn:Himg;
    try discriminate.
  - cbn [Py.getitem obind]. rewrite Himg. cbn [obind Py.iter].
    rewrite scan_images_search by assumption. cbn [obind].
    rewrite map_app, find_app_output.
    destruct (List.find _ (map ref_of l)) as [i|] eqn:Hf.
    + by rewrite (find_is_output _ _ Hf).
    + destruct target as [t|].
      * rewrite Hno. by rewrite IH.
      * destruct l as [|img l].
        { cbn [map head]. change (is_output None) with false. cbn iota.
          by rewrite IH. }
        cbn [map head app].
        destruct (is_output (Some (ref_of img))) eqn:Ho.
        { cbn [map List.find] in Hf. by rewrite Ho in Hf. }
        by rewrite IH.
  - cbn [app]. by apply IH.
Qed.

(** X20: for a history record whose outputs are a dictionary of node
    outputs listing their images as dictionaries, the orchestrator
    chooses the first image of the output folder in listing order (a
    missing [type] counts as the output folder), else the first image,
    and none when the record lists no image. *)
Theorem select_image_prefers_output_folder (record outputs : dict) :
  Py.dict_get record "outputs" = Some (JDict outputs) ->
  forallb well_typed_output (map snd outputs) = true ->
  select_image (Some (JDict record))
  = Ok (preferred_image (listed_images outputs)).
Proof.
  intros Hout Ht. unfold select_image.
  assert (Py.truthy_json (JDict record) = true) as ->.
  { destruct record; [discriminate|reflexivity]. }
  cbn [Py.py_in obind]. unfold Py.dict_has. rewrite Hout.
  cbn [Py.getitem obind]. rewrite Hout. cbn [obind Py.values].
  rewrite scan_outputs_search by (assumption || reflexivity).
  reflexivity.
Qed.

Lemma select_image_prefers_witness :
  select_image
    (Some (JDict [("outputs",
                   JDict [("8", JDict [("images",
                                        JList [JDict [("filename",
                                                       JStr "tmp.png");
                                                      ("type",
                                                       JStr "temp")]])]);
                          ("9", JDict [("images",
                                        JList [JDict [("filename",
                                                       JStr "out.png")]])])])]))
  = Ok (preferred_image
          (listed_images
             [("8", JDict [("images",
                            JList [JDict [("filename", JStr "tmp.png");
                                          ("type", JStr "temp")]])]);
              ("9", JDict [("images",
                            JList [JDict [("filename", JStr "out.png")]])])])).
Proof.
  apply (select_image_prefers_output_folder
           [("outputs",
             JDict [("8", JDict [("images",
                                  JList [JDict [("filename", JStr "tmp.png");
                                                ("type", JStr "temp")]])]);
                    ("9", JDict [("images",
                                  JList [JDict [("filename",
                                                 JStr "out.png")]])])])]);
    reflexivity.
Defined.

(** ** The polling loop *)

Lemma history_verdict_cases prompt_id history ok result msg :
  history_verdict prompt_id history = Ok (Some (ok, result, msg)) ->
  (ok = true
   /\ exists h record,
        history = Some h
        /\ Py.getitem h prompt_id = Ok record
        /\ Py.py_in "outputs" record = Ok true
        /\ result = Some record /\ msg = MSG_EXEC_DONE)
  \/ (ok = false /\ result = None /\ msg = MSG_EXEC_ERROR).
Proof.
  unfold history_verdict. destruct history as [h|]; [|discriminate].
  destruct (Py.truthy_json h); [|discriminate].
  destruct (Py.py_in prompt_id h) as [[]|]; cbn [obind]; try discriminate.
  destruct (Py.getitem h prompt_id) as [record|] eqn:Hrec; cbn [obind];
    [|discriminate].
  destruct (Py.py_in "outputs" record) as [[]|] eqn:Hout; cbn [obind];
    try discriminate.
  destruct (Py.py_in "status" record) as [[]|]; cbn [obind];
    try discriminate.
  - destruct (Py.getitem record "status") as [status|]; cbn [obind];
      [|discriminate].
    destruct (Py.get status "status_str" JNull) as [str|]; cbn [obind];
      [|discriminate].
    destruct (Py.is_str "error" str); intros [= <- <- <-].
    + right. by repeat split.
    + left. split; [reflexivity|]. by exists h, record.
  - intros [= <- <- <-]. left. split; [reflexivity|]. by exists h, record.
Qed.

Lemma wait_cases prompt_id timeout_seconds polls ok result msg :
  wait_for_completion prompt_id timeout_seconds polls
  = Some (Ok (ok, result, msg)) ->
  (ok = true
   /\ exists elapsed h record,
        In (elapsed, Some h) polls
        /\ in_time timeout_seconds (elapsed, Some h) = true
        /\ Py.getitem h prompt_id = Ok record
        /\ Py.py_in "outputs" record = Ok true
        /\ result = Some record /\ msg = MSG_EXEC_DONE)
  \/ (ok = false /\ result = None
      /\ (msg = MSG_TIMEOUT timeout_seconds \/ msg = MSG_EXEC_ERROR)).
Proof.
  induction polls as [|[elapsed history] polls IH]; [discriminate|].
  cbn [wait_for_completion].
  destruct (Qle_bool elapsed (inject_Z timeout_seconds)) eqn:Hin; cbn [negb].
  - destruct (history_verdict prompt_id history) as [[verdict|]|e] eqn:Hv.
    + intros [= ->].
      destruct (history_verdict_cases _ _ _ _ _ Hv)
        as [(-> & h & record & -> & Hrec & Hout & -> & ->)
           |(-> & -> & ->)].
      * left. split; [reflexivity|].
        exists elapsed, h, record. repeat split; try assumption. by left.
      * right. repeat split. by right.
    + intros Hw.
      destruct (IH Hw) as [(-> & e' & h & record & Hi & Hrest)|Hfail].
      * left. split; [reflexivity|].
        exists e', h, record. split; [by right|assumption].
      * by right.
    + discriminate.
  - intros [= <- <- <-]. right. repeat split. by left.
Qed.

Lemma wait_skips_undecided prompt_id timeout_seconds pre rest :
  Forall (undecided prompt_id timeout_seconds) pre ->
  wait_for_completion prompt_id timeout_seconds (pre ++ rest)%list
  = wait_for_completion prompt_id timeout_seconds rest.
Proof.
  induction 1 as [|[elapsed history] pre [Hin Hv] _ IH]; [reflexivity|].
  cbn [app wait_for_completion]. unfold in_time in Hin. cbn [fst] in Hin.
  cbn [snd] in Hv. by rewrite Hin, Hv.
Qed.

(** X21: a verdict of the polling loop is sound.  A success carries the
    record of a poll that was taken in time, that record has outputs, and
    the message is "execution finished"; a failure carries no record and
    its message is the timeout message or "execution error". *)
Theorem wait_verdict_sound (prompt_id : string) (timeout_seconds : Z)
    (polls : list (Q * option json)) (ok : bool) (result : option json)
    (msg : string) :
  wait_for_completion prompt_id timeout_seconds polls
  = Some (Ok (ok, result, msg)) ->
  if ok then
    exists elapsed h record,
      In (elapsed, Some h) polls
      /\ in_time timeout_seconds (elapsed, Some h) = true
      /\ Py.getitem h prompt_id = Ok record
      /\ Py.py_in "outputs" record = Ok true
      /\ result = Some record /\ msg = MSG_EXEC_DONE
  else
    result = None
    /\ (msg = MSG_TIMEOUT timeout_seconds \/ msg = MSG_EXEC_ERROR).
Proof.
  intros Hw.
  destruct (wait_cases _ _ _ _ _ _ Hw) as [[-> Hs]|(-> & Hr & Hm)].
  - exact Hs.
  - by split.
Qed.

Lemma wait_verdict_sound_witness :
  exists elapsed h record,
    In (elapsed, Some h) [(0%Q, None); (1%Q, Some history_with_image)]
    /\ in_time 120 (elapsed, Some h) = true
    /\ Py.getitem h "42" = Ok record
    /\ Py.py_in "outputs" record = Ok true.
Proof.
  destruct (wait_verdict_sound "42" 120
              [(0%Q, None); (1%Q, Some history_with_image)] true
              (Some (JDict [("outputs",
                  JDict [("9",
                          JDict [("images",
                                  JList [JDict [("filename", JStr "out.png");
                                                ("subfolder", JStr "");
                                                ("type", JStr "output")]])])])]))
              MSG_EXEC_DONE eq_refl)
    as (elapsed & h & record & Hin & Ht & Hrec & Hout & _).
  by exists elapsed, h, record.
Defined.

(** X22: the deadline is checked before the reply is read.  After any
    number of undecided polls, a poll taken after the deadline ends the
    loop with the timeout message and no record, whatever the backend
    replies to it and afterwards, even a finished job. *)
Theorem wait_deadline_first (prompt_id : string) (timeout_seconds : Z)
    (pre rest : list (Q * option json)) (elapsed : Q)
    (history : option json) :
  Forall (undecided prompt_id timeout_seconds) pre ->
  in_time timeout_seconds (elapsed, history) = false ->
  wait_for_completion prompt_id timeout_seconds
    (pre ++ (elapsed, history) :: rest)%list
  = Some (Ok (false, None, MSG_TIMEOUT timeout_seconds)).
Proof.
  intros Hpre Hlate. rewrite wait_skips_undecided by assumption.
  cbn [wait_for_completion]. unfold in_time in Hlate. cbn [fst] in Hlate.
  by rewrite Hlate.
Qed.

Lemma wait_deadline_first_witness :
  wait_for_completion "42" 120
    ([(0%Q, None); (60%Q, Some history_pending)]
     ++ (121%Q, Some history_with_image) :: [])%list
  = Some (Ok (false, None, MSG_TIMEOUT 120)).
Proof.
  apply (wait_deadline_first "42" 120
           [(0%Q, None); (60%Q, Some history_pending)] []
           121%Q (Some history_with_image)).
  - repeat constructor.
  - reflexivity.
Defined.

(** ** What a run of the orchestrator reports *)

Section OrchestratorResults.

Variable post_prompt : json -> option (Z * option string).
Variable get_image : json -> json -> json -> option (list Byte.byte).
Variable client_id : string.

Lemma queue_prompt_cases workflow w :
  (exists seed w', queue_prompt post_prompt client_id workflow w
                   = (Ok (None, seed), w'))
  \/ (exists pid fixed current w',
        queue_prompt post_prompt client_id workflow w
        = (Ok (Some pid, Some current), w')
        /\ _enforce_deterministic_workflow workflow w
           = (Ok (fixed, current), w')
        /\ post_prompt (JDict [("prompt", fixed);
                               ("client_id", JStr client_id)])
           = Some (200, Some pid)).
Proof.
  unfold queue_prompt.
  destruct (_enforce_deterministic_workflow workflow w)
    as [[[fixed current]|e] w'].
  - destruct (post_prompt _) as [[status [pid|]]|] eqn:Hp.
    + destruct (Z.eqb_spec status 200) as [->|Hne].
      * right. by exists pid, fixed, current, w'.
      * left. by exists None, w'.
    + left. destruct (status =? 200); by eexists _, w'.
    + left. by exists None, w'.
  - left. by exists None, w'.
Qed.

Lemma execute_cases workflow timeout_seconds known_seed polls w r w' :
  execute_workflow post_prompt get_image client_id workflow timeout_seconds
    known_seed polls w = (Ok (Some r), w') ->
  r = (false, None, MSG_SUBMIT_FAILED, None)
  \/ exists pid fixed current,
       _enforce_deterministic_workflow workflow w = (Ok (fixed, current), w')
       /\ post_prompt (JDict [("prompt", fixed);
                              ("client_id", JStr client_id)])
          = Some (200, Some pid)
       /\ pid <> ""
       /\ exists ok data msg,
            r = (ok, data, msg,
                 Some (match known_seed with
                       | Some s => s
                       | None => current
                       end))
            /\ (if ok then truthy_bytes data = true /\ msg = MSG_SUCCESS
                else data = None
                     /\ (msg = MSG_TIMEOUT timeout_seconds
                         \/ msg = MSG_EXEC_ERROR \/ msg = MSG_NO_IMAGE)).
Proof.
  destruct (queue_prompt_cases workflow w)
    as [(seed0 & w1 & Hq)|(pid & fixed & current & w1 & Hq & He & Hp)].
  { unfold execute_workflow. unfold bind at 1. rewrite Hq.
    intros [= <- _]. by left. }
  destruct (Py.truthy (Some pid)) eqn:Hpid.
  2:{ unfold execute_workflow. unfold bind at 1. rewrite Hq, Hpid.
      intros [= <- _]. by left. }
  rewrite (execute_after_submit post_prompt get_image client_id workflow
             timeout_seconds known_seed polls w pid (Some current) w1 Hq Hpid).
  assert (used_seed_of known_seed (Some current)
          = Some (match known_seed with Some s => s | None => current end))
    as Hseed by (by destruct known_seed).
  assert (pid <> "") as Hne.
  { intros ->. discriminate. }
  destruct (wait_for_completion pid timeout_seconds polls)
    as [[[[ok result] msg]|e]|] eqn:Hw; try discriminate.
  destruct (wait_cases _ _ _ _ _ _ Hw) as [[-> Hs]|(-> & -> & Hm)].
  - cbn [negb]. cbv zeta. rewrite Hseed.
    destruct (select_image result) as [[img|]|e]; try discriminate.
    + destruct (truthy_bytes (get_image _ _ _)) eqn:Hb.
      * intros [= <- <-]. right. exists pid, fixed, current.
        repeat split; try assumption.
        eexists _, _, _. split; [reflexivity|]. by split.
      * intros [= <- <-]. right. exists pid, fixed, current.
        repeat split; try assumption.
        eexists _, _, _. split; [reflexivity|]. split; [reflexivity|].
        by right; right.
    + intros [= <- <-]. right. exists pid, fixed, current.
      repeat split; try assumption.
      eexists _, _, _. split; [reflexivity|]. split; [reflexivity|].
      by right; right.
  - cbn [negb]. cbv zeta. rewrite Hseed.
    intros [= <- <-]. right. exists pid, fixed, current.
    repeat split; try assumption.
    eexists _, _, _. split; [reflexivity|]. split; [reflexivity|].
    destruct Hm as [->| ->]; [by left | by right; left].
Qed.

(** X23: a run that ends reports success only together with the image:
    a successful result carries non-empty bytes and the message
    "generated", and a failed result carries no bytes and one of the four
    failure messages. *)
Theorem execute_result_invariant (workflow : json) (timeout_seconds : Z)
    (known_seed : option Z) (polls : list (Q * option json)) (w w' : world)
    (ok : bool) (data : option (list Byte.byte)) (msg : string)
    (seed : option Z) :
  execute_workflow post_prompt get_image client_id workflow timeout_seconds
    known_seed polls w = (Ok (Some (ok, data, msg, seed)), w') ->
  if ok then truthy_bytes data = true /\ msg = MSG_SUCCESS
  else data = None /\ failure_message timeout_seconds msg.
Proof.
  intros Hrun.
  destruct (execute_cases _ _ _ _ _ _ _ Hrun)
    as [[= -> -> -> ->]
       |(pid & fixed & current & _ & _ & _ & ok' & data' & msg' & Hr & Hinv)].
  - split; [reflexivity|]. by left.
  - injection Hr as -> -> -> _. destruct ok'; [assumption|].
    destruct Hinv as [-> Hm]. split; [reflexivity|]. by right.
Qed.

(** X24: a run that ends reports no seed exactly when the submission
    failed, also when the caller supplied one.  After an accepted
    submission the reported seed is the caller's seed when one was given
    and the seed computed by the enforcer otherwise, and the generator is
    left as the enforcer left it. *)
Theorem execute_reports_seed (workflow : json) (timeout_seconds : Z)
    (known_seed : option Z) (polls : list (Q * option json)) (w w' : world)
    (ok : bool) (data : option (list Byte.byte)) (msg : string)
    (seed : option Z) :
  execute_workflow post_prompt get_image client_id workflow timeout_seconds
    known_seed polls w = (Ok (Some (ok, data, msg, seed)), w') ->
  (msg = MSG_SUBMIT_FAILED /\ seed = None)
  \/ (msg <> MSG_SUBMIT_FAILED
      /\ exists fixed current,
           _enforce_deterministic_workflow workflow w
           = (Ok (fixed, current), w')
           /\ seed = Some (match known_seed with
                           | Some s => s
                           | None => current
                           end)).
Proof.
  intros Hrun.
  destruct (execute_cases _ _ _ _ _ _ _ Hrun)
    as [[= -> -> -> ->]
       |(pid & fixed & current & He & _ & _ & ok' & data' & msg' & Hr & Hinv)].
  - by left.
  - injection Hr as -> -> -> ->. right. split.
    + destruct ok'.
      * destruct Hinv as [_ ->]. discriminate.
      * destruct Hinv as [_ [->|[->| ->]]]; discriminate.
    + by exists fixed, current.
Qed.

(** X25: an exception of the enforcer and a backend that turns the job
    down never escape the orchestrator: the run ends as "submit failed"
    without bytes and without seed, whatever the polls would answer. *)
Theorem execute_submit_failure (workflow : json) (timeout_seconds : Z)
    (known_seed : option Z) (polls : list (Q * option json)) (w : world) :
  (exists e, fst (_enforce_deterministic_workflow workflow w) = Raise e)
  \/ (forall payload, rejects post_prompt payload) ->
  fst (execute_workflow post_prompt get_image client_id workflow
         timeout_seconds known_seed polls w)
  = Ok (Some (false, None, MSG_SUBMIT_FAILED, None)).
Proof.
  intros Hfail. unfold execute_workflow. unfold bind at 1.
  unfold queue_prompt.
  destruct (_enforce_deterministic_workflow workflow w)
    as [[[fixed current]|e] w1] eqn:He.
  - destruct Hfail as [[e He']|Hrej]; [discriminate|].
    specialize (Hrej (JDict [("prompt", fixed);
                             ("client_id", JStr client_id)])).
    unfold rejects in Hrej.
    destruct (post_prompt _) as [[status [pid|]]|]; try reflexivity.
    + destruct (Z.eqb_spec status 200) as [->|Hne]; [|reflexivity].
      destruct Hrej as [Hs| ->]; [contradiction|reflexivity].
    + by destruct (status =? 200).
  - reflexivity.
Qed.

End OrchestratorResults.

Lemma execute_result_invariant_witness :
  truthy_bytes (Some [Byte.x00]) = true /\ MSG_SUCCESS = MSG_SUCCESS.
Proof.
  apply (execute_result_invariant accept_all one_byte "client"
           (JDict seeded_graph) 120 None
           [(0%Q, None); (1%Q, Some history_with_image)] empty_world
           empty_world true (Some [Byte.x00]) MSG_SUCCESS (Some 42)
           eq_refl).
Defined.

Lemma execute_reports_seed_witness :
  (MSG_SUCCESS = MSG_SUBMIT_FAILED /\ Some 42 = None)
  \/ (MSG_SUCCESS <> MSG_SUBMIT_FAILED
      /\ exists fixed current,
           _enforce_deterministic_workflow (JDict seeded_graph) empty_world
           = (Ok (fixed, current), empty_world)
           /\ Some 42 = Some current).
Proof.
  apply (execute_reports_seed accept_all one_byte "client"
           (JDict seeded_graph) 120 None
           [(0%Q, None); (1%Q, Some history_with_image)] empty_world
           empty_world true (Some [Byte.x00]) MSG_SUCCESS (Some 42)
           eq_refl).
Defined.

Lemma execute_submit_failure_witness :
  fst (execute_workflow refuse_all one_byte "client" (JDict seeded_graph)
         120 (Some 7) [(0%Q, Some history_with_image)] empty_world)
  = Ok (Some (false, None, MSG_SUBMIT_FAILED, None)).
Proof.
  apply (execute_submit_failure refuse_all one_byte "client"
           (JDict seeded_graph) 120 (Some 7)
           [(0%Q, Some history_with_image)] empty_world).
  right. intros payload. exact I.
Defined.

(** ** The loader *)

Section LoaderProps.

Variable py_repr : json -> string.
Variable name_of : string -> string.

Lemma parse_file_loads path content w g m d :
  parsed py_repr name_of path content = Some (g, m, d) ->
  _parse_workflow_file py_repr name_of path content w
  = (Ok {| name := name_of path;
           file_path := path;
           workflow_data := length (store w);
           node_mapping := m;
           description := d |},
     {| store := (store w ++ [JDict g])%list; rng := rng w |}).
Proof.
  unfold parsed, _parse_workflow_file.
  destruct content as [[| | | | | |g0]|e]; try discriminate.
  destruct (_analyze_workflow_nodes py_repr g0) as [m0|] eqn:Ha;
    [|discriminate].
  destruct (_extract_workflow_description py_repr (JDict g0) (name_of path))
    as [d0|] eqn:Hd; [|discriminate].
  intros [= <- <- <-].
  unfold bind, lift, alloc, ret. by rewrite Ha, Hd.
Qed.

Lemma parse_file_skips path content w :
  parsed py_repr name_of path content = None ->
  exists e w' l,
    _parse_workflow_file py_repr name_of path content w = (Raise e, w')
    /\ store w' = (store w ++ l)%list.
Proof.
  unfold parsed, _parse_workflow_file. intros Hp.
  destruct content as [tree|e].
  2:{ exists e, w, []. split; [reflexivity|]. by rewrite app_nil_r. }
  unfold bind at 1. unfold lift at 1. unfold bind at 1. unfold alloc at 1.
  destruct tree as [| | | | | |g];
    try (eexists _, _, [_]; split; reflexivity).
  destruct (_analyze_workflow_nodes py_repr g) as [m|e] eqn:Ha.
  - destruct (_extract_workflow_description py_repr (JDict g) (name_of path))
      as [d|e] eqn:Hd; [discriminate|].
    unfold bind, lift.
    eexists _, _, [_]; split; reflexivity.
  - unfold bind, lift.
    eexists _, _, [_]; split; reflexivity.
Qed.

Lemma registered_as_grows w l r path entry info :
  registered_as name_of w path entry info ->
  registered_as name_of {| store := (store w ++ l)%list; rng := r |} path
    entry info.
Proof.
  intros (Hn & Hf & Hm & Hd & Hs). repeat split; try assumption.
  cbn [store]. by apply lookup_app_l_Some.
Qed.

Lemma load_files_spec json_files :
  forall idx registry w,
  exists loaded w' l,
    load_files py_repr name_of idx json_files registry w = (Ok loaded, w')
    /\ store w' = (store w ++ l)%list
    /\ (size loaded <= size registry + length json_files)%nat
    /\ (forall i, i < idx \/ idx + Z.of_nat (length json_files) <= i ->
           loaded !! i = registry !! i)
    /\ (forall (k : nat) path content,
           json_files !! k = Some (path, content) ->
           match parsed py_repr name_of path content with
           | Some entry =>
               exists info,
                 loaded !! (idx + Z.of_nat k) = Some info
                 /\ registered_as name_of w' path entry info
           | None =>
               loaded !! (idx + Z.of_nat k) = registry !! (idx + Z.of_nat k)
           end).
Proof.
  induction json_files as [|[path0 content0] rest IH]; intros idx registry w.
  { exists registry, w, []. cbn [load_files]. unfold ret.
    repeat split; try (by rewrite ?app_nil_r); lia. }
  cbn [load_files].
  destruct (parsed py_repr name_of path0 content0) as [[[g m] d]|] eqn:Hp.
  - rewrite (parse_file_loads _ _ w _ _ _ Hp).
    set (info0 := {| name := name_of path0; file_path := path0;
                     workflow_data := length (store w);
                     node_mapping := m; description := d |}).
    set (w1 := {| store := (store w ++ [JDict g])%list; rng := rng w |}).
    destruct (IH (idx + 1) (<[idx := info0]> registry) w1)
      as (loaded & w' & l & Hrun & Hst & Hsz & Hout & Hin).
    exists loaded, w', ([JDict g] ++ l)%list.
    split; [exact Hrun|]. split; [|split; [|split]].
    + rewrite Hst. cbn [w1 store]. by rewrite <- app_assoc.
    + etrans; [exact Hsz|]. cbn [length].
      destruct (registry !! idx) eqn:Hr.
      * rewrite map_size_insert_Some by done. lia.
      * rewrite map_size_insert_None by done. lia.
    + intros i Hi. rewrite Hout by (cbn [length] in Hi; lia).
      apply lookup_insert_ne. cbn [length] in Hi. lia.
    + intros [|k] path content Hk.
      * cbn in Hk. injection Hk as <- <-. rewrite Hp.
        exists info0. split.
        { replace (idx + Z.of_nat 0) with idx by lia.
          rewrite Hout by lia. apply lookup_insert_eq. }
        destruct w' as [st' r']. cbn [store] in Hst. subst st'.
        apply registered_as_grows. repeat split.
        cbn [workflow_data info0 w1 store fst].
        by apply list_lookup_middle.
      * cbn in Hk. specialize (Hin k path content Hk).
        replace (idx + Z.of_nat (S k)) with (idx + 1 + Z.of_nat k) by lia.
        destruct (parsed py_repr name_of path content); [exact Hin|].
        rewrite Hin. apply lookup_insert_ne. lia.
  - destruct (parse_file_skips _ _ w Hp) as (e & w1 & l1 & Hrun1 & Hst1).
    rewrite Hrun1.
    destruct (IH (idx + 1) registry w1)
      as (loaded & w' & l & Hrun & Hst & Hsz & Hout & Hin).
    exists loaded, w', (l1 ++ l)%list.
    split; [exact Hrun|]. split; [|split; [|split]].
    + by rewrite Hst, Hst1, <- app_assoc.
    + cbn [length]. lia.
    + intros i Hi. apply Hout. cbn [length] in Hi. lia.
    + intros [|k] path content Hk.
      * cbn in Hk. injection Hk as <- <-. rewrite Hp.
        replace (idx + Z.of_nat 0) with idx by lia. apply Hout. lia.
      * cbn in Hk. specialize (Hin k path content Hk).
        by replace (idx + Z.of_nat (S k)) with (idx + 1 + Z.of_nat k) by lia.
Qed.

(** X26: the index of a workflow is the position of its file in the
    sorted listing, counted from 1, whether or not other files load.  A
    new parser always comes up; the file at position k that loads is
    registered under k+1 with the file's name, path, role mapping and
    description and with its graph as an object of the store, and a file
    that does not load leaves its index unused instead of shifting the
    later ones. *)
Theorem loader_index_is_position (dir : string)
    (json_files : list (string * outcome json)) (w : world) :
  exists self w',
    new_parser py_repr name_of dir (Listing json_files) w = (Ok self, w')
    /\ workflows_dir self = dir
    /\ forall (k : nat) path content,
         json_files !! k = Some (path, content) ->
         match parsed py_repr name_of path content with
         | Some entry =>
             exists info,
               get_workflow self (Z.of_nat k + 1) = Some info
               /\ registered_as name_of w' path entry info
         | None => get_workflow self (Z.of_nat k + 1) = None
         end.
Proof.
  destruct (load_files_spec json_files 1 ∅ w)
    as (loaded & w' & l & Hrun & Hst & Hsz & Hout & Hin).
  exists {| workflows_dir := dir; workflows := loaded |}, w'.
  split; [|split; [reflexivity|]].
  - unfold new_parser, _load_all_workflows. cbn [workflows workflows_dir].
    unfold bind. by rewrite Hrun.
  - intros k path content Hk. specialize (Hin k path content Hk).
    unfold get_workflow. cbn [workflows].
    replace (Z.of_nat k + 1) with (1 + Z.of_nat k) by lia.
    destruct (parsed py_repr name_of path content); [exact Hin|].
    by rewrite Hin.
Qed.

(** X27: a parser registers nothing but the files it finds.  When the
    directory is missing and creating it raises, reloading raises that
    exception.  Otherwise reloading returns a parser for the same
    directory in which every registered index lies between 1 and the
    number of listed files and the workflow count is at most that number;
    the old registry is forgotten, and a created directory gives an empty
    registry. *)
Theorem loader_registers_only_listed (self : WorkflowParser)
    (found : directory) (w : world) :
  match found with
  | Missing (Raise e) =>
      reload_workflows py_repr name_of self found w = (Raise e, w)
  | _ =>
      exists self' w',
        reload_workflows py_repr name_of self found w = (Ok self', w')
        /\ workflows_dir self' = workflows_dir self
        /\ (forall idx, is_Some (get_workflow self' idx) ->
              1 <= idx <= Z.of_nat (length (files_of found)))
        /\ 0 <= get_workflow_count self'
             <= Z.of_nat (length (files_of found))
  end.
Proof.
  unfold reload_workflows, _load_all_workflows. cbn [workflows workflows_dir].
  destruct found as [[[]|e]|json_files]; [|reflexivity|].
  - exists {| workflows_dir := workflows_dir self; workflows := ∅ |}, w.
    split; [reflexivity|]. split; [reflexivity|]. cbn [files_of length].
    split.
    + intros idx [info Hi]. unfold get_workflow in Hi. cbn [workflows] in Hi.
      by rewrite lookup_empty in Hi.
    + unfold get_workflow_count. cbn [workflows].
      rewrite map_size_empty. lia.
  - destruct (load_files_spec json_files 1 ∅ w)
      as (loaded & w' & l & Hrun & Hst & Hsz & Hout & Hin).
    exists {| workflows_dir := workflows_dir self; workflows := loaded |}, w'.
    unfold bind. rewrite Hrun. split; [reflexivity|].
    split; [reflexivity|]. cbn [files_of]. split.
    + intros idx [info Hi]. unfold get_workflow in Hi. cbn [workflows] in Hi.
      destruct (decide (1 <= idx <= Z.of_nat (length json_files)))
        as [|Hno]; [assumption|].
      rewrite Hout in Hi by lia. by rewrite lookup_empty in Hi.
    + unfold get_workflow_count. cbn [workflows].
      rewrite map_size_empty in Hsz. lia.
Qed.

End LoaderProps.

(** ** The listing *)

Lemma by_index_strict (l : list (Z * WorkflowInfo)) :
  StronglySorted by_index l -> NoDup l.*1 -> StronglySorted Z.lt l.*1.
Proof.
  induction 1 as [|item l Hs IH Hall]; intros Hnd; [constructor|].
  cbn [fmap list_fmap] in *. apply NoDup_cons in Hnd as [Hnotin Hnd].
  constructor; [by apply IH|].
  apply Forall_fmap, Forall_forall. intros other Hin. cbn.
  rewrite Forall_forall in Hall. specialize (Hall other Hin).
  unfold by_index in Hall.
  assert (item.1 <> other.1); [|lia].
  intros Heq. apply Hnotin. rewrite Heq.
  apply list_elem_of_fmap. by exists other.
Qed.

(** X28: the listing shows every registered workflow exactly once, in
    strictly ascending order of index, with the name and description of
    its entry; its length is the workflow count. *)
Theorem list_workflows_sorted_complete (self : WorkflowParser) :
  StronglySorted Z.lt
    (map (fun row : Z * string * string => row.1.1) (list_workflows self))
  /\ (forall idx n d,
        In (idx, n, d) (list_workflows self)
        <-> exists info,
              get_workflow self idx = Some info
              /\ name info = n /\ description info = d)
  /\ Z.of_nat (length (list_workflows self)) = get_workflow_count self.
Proof.
  assert (Total by_index) as Htotal.
  { intros a b. unfold by_index. lia. }
  assert (Transitive by_index) as Htrans.
  { intros a b c. unfold by_index. lia. }
  pose proof (StronglySorted_merge_sort by_index
                (map_to_list (workflows self))) as Hsorted.
  pose proof (merge_sort_Permutation by_index
                (map_to_list (workflows self))) as Hperm.
  unfold list_workflows.
  set (rows := merge_sort by_index (map_to_list (workflows self))) in *.
  split; [|split].
  - rewrite map_map. cbn [fst].
    apply (by_index_strict rows Hsorted).
    rewrite Hperm. apply NoDup_fst_map_to_list.
  - intros idx n d. rewrite in_map_iff. split.
    + intros ([i info] & [= <- <- <-] & Hin).
      apply list_elem_of_In in Hin. rewrite Hperm in Hin.
      apply elem_of_map_to_list in Hin. by exists info.
    + intros (info & Hget & <- & <-). exists (idx, info).
      split; [reflexivity|]. apply list_elem_of_In. rewrite Hperm.
      by apply elem_of_map_to_list.
  - rewrite length_map, Hperm, length_map_to_list. reflexivity.
Qed.

(** ** The description *)

Section DescriptionProps.

Variable py_repr : json -> string.

Lemma extract_description_search nodes default_name :
  forallb describable_node nodes = true ->
  extract_description py_repr nodes default_name
  = Ok (match List.find names_checkpoint nodes with
        | Some node_data => description_by py_repr node_data
        | None => default_name
        end).
Proof.
  induction nodes as [|node_data nodes IH]; [reflexivity|].
  cbn [forallb]. intros [Hd Hrest]%andb_true_iff.
  specialize (IH Hrest).
  destruct node_data as [| | | | | |nd]; try exact IH.
  cbn [extract_description List.find Py.get obind].
  unfold describable_node in Hd.
  unfold names_checkpoint at 1. unfold description_by at 1.
  cbn [ckpt_name_of].
  destruct (Py.dict_get nd "class_type") as [[| | | |c| |]|] eqn:Hc;
    try discriminate.
  - cbn [Py.py_in obind].
    destruct (Py.contains "Checkpoint" c) eqn:Hck; [|exact IH].
    cbn [negb orb] in Hd.
    destruct (Py.dict_get nd "inputs") as [[| | | | | |i]|] eqn:Hi;
      try discriminate.
    + cbn [Py.get obind].
      destruct (Py.dict_get i "ckpt_name") as [v|] eqn:Hn.
      * destruct (Py.truthy_json v); [|exact IH].
        cbn [ckpt_name_of]. by rewrite Hc, Hck, Hi, Hn.
      * exact IH.
    + exact IH.
  - exact IH.
Qed.

(** X29: on a graph whose class types are strings and whose checkpoint
    nodes have dictionary inputs, the description is "模型: " followed by
    the checkpoint name of the first node whose class type contains
    "Checkpoint" and whose name is not empty; a checkpoint node without a
    name is passed over, and without any named checkpoint the description
    is the default name. *)
Theorem description_names_first_checkpoint (g : dict)
    (default_name : string) :
  forallb describable_node (map snd g) = true ->
  _extract_workflow_description py_repr (JDict g) default_name
  = Ok (match List.find names_checkpoint (map snd g) with
        | Some node_data => description_by py_repr node_data
        | None => default_name
        end).
Proof.
  intros Hg. unfold _extract_workflow_description. cbn [Py.values obind].
  by apply extract_description_search.
Qed.

End DescriptionProps.

Lemma description_names_first_checkpoint_witness :
  _extract_workflow_description (fun _ => "") (JDict two_checkpoints) "svd"
  = Ok (match List.find names_checkpoint (map snd two_checkpoints) with
        | Some node_data => description_by (fun _ => "") node_data
        | None => "svd"
        end).
Proof.
  apply (description_names_first_checkpoint (fun _ => "") two_checkpoints
           "svd"); reflexivity.
Defined.

(** ** Both prompts get a node *)

Section ClassifierBoth.

Variable py_repr : json -> string.

Lemma truthy_some (x : string) : x <> "" -> Py.truthy (Some x) = true.
Proof. intros Hx. cbn. by destruct (String.eqb_spec x ""). Qed.

Lemma already_assigned_inv m x :
  already_assigned m x = true ->
  positive_prompt_node m = Some x \/ negative_prompt_node m = Some x.
Proof.
  unfold already_assigned. intros [H|H]%orb_true_iff;
    apply bool_decide_eq_true in H; auto.
Qed.

Lemma already_assigned_positive m x :
  positive_prompt_node m = Some x -> already_assigned m x = true.
Proof.
  intros H. unfold already_assigned.
  by rewrite (bool_decide_eq_true_2 _ H).
Qed.

Lemma already_assigned_negative m x :
  negative_prompt_node m = Some x -> already_assigned m x = true.
Proof.
  intros H. unfold already_assigned.
  rewrite (bool_decide_eq_true_2 _ H). apply orb_true_r.
Qed.

Lemma order_loop_assigns (cl : list (string * dict)) :
  forall m m',
  (forall x, In x (map fst cl) -> x <> "") ->
  for_each order_step cl m = Ok m' ->
  (Py.truthy (positive_prompt_node m) = true ->
   positive_prompt_node m' = positive_prompt_node m)
  /\ (Py.truthy (negative_prompt_node m) = true ->
      negative_prompt_node m' = negative_prompt_node m)
  /\ (both_assigned m' = true
      \/ forall x, In x (map fst cl) -> already_assigned m' x = true).
Proof.
  induction cl as [|[x nd] cl IH]; intros m m' Hne.
  { intros [= <-]. repeat split. right. intros x []. }
  cbn [for_each].
  destruct (order_step m (x, nd)) as [m1|] eqn:Hstep; cbn [obind];
    [|discriminate].
  intros Hrest.
  assert (x <> "") as Hx by (apply Hne; by left).
  destruct (IH m1 m' (fun y Hy => Hne y (or_intror Hy)) Hrest)
    as (Hp1 & Hn1 & Hall).
  unfold order_step in Hstep.
  destruct (already_assigned m x) eqn:Ha.
  { injection Hstep as <-. split; [exact Hp1|]. split; [exact Hn1|].
    destruct Hall as [Hboth|Hall]; [by left|]. right.
    intros y [<-|Hy]; [|by apply Hall].
    destruct (already_assigned_inv _ _ Ha) as [H|H].
    - apply already_assigned_positive. rewrite Hp1; [exact H|].
      rewrite H. by apply truthy_some.
    - apply already_assigned_negative. rewrite Hn1; [exact H|].
      rewrite H. by apply truthy_some. }
  destruct (Py.truthy (positive_prompt_node m)) eqn:Hp; cbn [negb] in Hstep.
  2:{ injection Hstep as <-. cbn [set_positive positive_prompt_node
        negative_prompt_node] in Hp1, Hn1.
      split; [discriminate|]. split; [exact Hn1|].
      destruct Hall as [Hboth|Hall]; [by left|]. right.
      intros y [<-|Hy]; [|by apply Hall].
      apply already_assigned_positive. apply Hp1. by apply truthy_some. }
  destruct (Py.truthy (negative_prompt_node m)) eqn:Hn; cbn [negb] in Hstep.
  2:{ injection Hstep as <-. cbn [set_negative positive_prompt_node
        negative_prompt_node] in Hp1, Hn1.
      split; [by intros _; apply Hp1|]. split; [discriminate|].
      destruct Hall as [Hboth|Hall]; [by left|]. right.
      intros y [<-|Hy]; [|by apply Hall].
      apply already_assigned_negative. apply Hn1. by apply truthy_some. }
  injection Hstep as <-.
  split; [by intros _; apply Hp1|]. split; [by intros _; apply Hn1|]. left.
  unfold both_assigned. by rewrite (Hp1 Hp), (Hn1 Hn), Hp, Hn.
Qed.

Lemma candidates_ids_in_graph g x :
  In x (map fst (clip_candidates g)) -> In x (map fst g).
Proof.
  rewrite !in_map_iff. intros ([id nd] & <- & Hin).
  apply clip_candidates_spec in Hin as [Hin _].
  by exists (id, JDict nd).
Qed.

Lemma candidates_nodup g :
  NoDup (map fst g) -> NoDup (map fst (clip_candidates g)).
Proof.
  unfold clip_candidates. rewrite analyze_fold_clip. cbn [app].
  induction g as [|[k v] g IH]; [constructor|].
  cbn [map fst flat_map]. intros [Hnotin Hnd]%NoDup_cons.
  rewrite map_app. specialize (IH Hnd).
  assert (~ In k (map fst (flat_map clip_of g))) as Hk.
  { intros Hin. apply Hnotin, list_elem_of_In.
    apply in_map_iff in Hin as ([id nd] & <- & Hin).
    apply in_flat_map in Hin as ([k' v'] & Hin' & Hc).
    apply in_map_iff. exists (k', v'). split; [|exact Hin'].
    unfold clip_of in Hc. destruct v' as [| | | | | |nd']; try contradiction.
    destruct (Py.in_types _ _); [|contradiction].
    by destruct Hc as [[= -> _]|[]]. }
  unfold clip_of at 1. destruct v as [| | | | | |nd]; try exact IH.
  destruct (Py.in_types _ _); [|exact IH].
  cbn [map fst app]. apply NoDup_cons. split; [|exact IH].
  by rewrite list_elem_of_In.
Qed.

(** X30: whenever the classifier returns on a graph with distinct,
    non-empty node ids and at least two prompt-encode nodes, both prompt
    roles name a node: what the links, the titles and the keywords leave
    open is filled in by position. *)
Theorem classify_assigns_both_prompts (g : dict)
    (mapping : WorkflowNodeMapping) :
  _analyze_workflow_nodes py_repr g = Ok mapping ->
  (2 <= length (clip_candidates g))%nat ->
  NoDup (map fst g) ->
  ~ In "" (map fst g) ->
  Py.truthy (positive_prompt_node mapping) = true
  /\ Py.truthy (negative_prompt_node mapping) = true.
Proof.
  rewrite analyze_unfold. intros Hrun Hlen Hnd Hne.
  apply candidates_nodup in Hnd.
  assert (forall x, In x (map fst (clip_candidates g)) -> x <> "") as Hne'.
  { intros x Hx ->. by apply Hne, candidates_ids_in_graph. }
  assert (both_assigned mapping = true) as Hboth;
    [|by apply andb_true_iff in Hboth].
  unfold _classify_clip_nodes in Hrun.
  destruct (clip_candidates g) as [|[x1 nd1] [|[x2 nd2] cl]];
    [cbn in Hlen; lia | cbn in Hlen; lia |].
  set (nodes := (x1, nd1) :: (x2, nd2) :: cl) in *.
  destruct (classify_by_links py_repr (first_pass g) g (map fst nodes))
    as [m1|]; cbn [obind] in Hrun; [|discriminate].
  destruct (Py.truthy (positive_prompt_node m1)
            && Py.truthy (negative_prompt_node m1)) eqn:H1.
  { by injection Hrun as <-. }
  destruct (for_each title_step nodes m1) as [m2|]; cbn [obind] in Hrun;
    [|discriminate].
  destruct (for_each text_step nodes m2) as [m3|]; cbn [obind] in Hrun;
    [|discriminate].
  destruct (order_loop_assigns nodes m3 mapping Hne' Hrun)
    as (_ & _ & [Hboth|Hall]); [exact Hboth|].
  assert (x1 <> x2) as Hdiff.
  { cbn [nodes map fst] in Hnd. apply NoDup_cons in Hnd as [Hnotin _].
    intros ->. apply Hnotin. by left. }
  assert (x1 <> "") as Hx1 by (apply Hne'; by left).
  assert (x2 <> "") as Hx2 by (apply Hne'; right; by left).
  pose proof (Hall x1 (or_introl eq_refl)) as Ha1.
  pose proof (Hall x2 (or_intror (or_introl eq_refl))) as Ha2.
  apply already_assigned_inv in Ha1, Ha2.
  unfold both_assigned.
  destruct Ha1 as [Hp1|Hn1], Ha2 as [Hp2|Hn2]; try congruence.
  - rewrite Hp1, Hn2. by rewrite !truthy_some.
  - rewrite Hp2, Hn1. by rewrite !truthy_some.
Qed.

End ClassifierBoth.

Lemma classify_assigns_both_witness :
  Py.truthy
    (positive_prompt_node (set_negative (set_positive default_mapping "1") "2"))
  = true
  /\ Py.truthy
       (negative_prompt_node
          (set_negative (set_positive default_mapping "1") "2"))
     = true.
Proof.
  apply (classify_assigns_both_prompts (fun _ => "") plain_prompts_graph).
  - vm_compute. reflexivity.
  - vm_compute. lia.
  - apply NoDup_cons. split; [|apply NoDup_singleton].
    intros Hin. apply list_elem_of_In in Hin. cbn in Hin.
    destruct Hin as [Heq|[]]. discriminate.
  - cbn. intros [Heq|[Heq|[]]]; discriminate.
Defined.

(** ** The classifier returns *)

Section ClassifierReturns.

Variable py_repr : json -> string.












End ClassifierReturns.


(** ** The caller's seed through the preparer and the enforcer *)

Lemma assign_run o x path k v w :
  store w !! o = Some x ->
  assign o path k v w
  = match update_at x path k v with
    | Ok x' => (Ok tt, put o x' w)
    | Raise e => (Raise e, w)
    end.
Proof.
  intros Ho. unfold assign, bind, read, lift, write, put. rewrite Ho.
  by destruct (update_at x path k v).
Qed.

Lemma holds_put o g g' w : holds o g w -> holds o g' (put o (JDict g') w).
Proof.
  unfold holds, put. cbn [store]. intros Ho.
  apply list_lookup_insert_eq. by apply lookup_lt_Some in Ho.
Qed.

Lemma update_input_cases g node_id k v :
  update_at (JDict g) [node_id; "inputs"] k v
  = match Py.dict_get g node_id with
    | Some (JDict nd) =>
        match Py.dict_get nd "inputs" with
        | Some (JDict i) => Ok (JDict (set_input g node_id k v))
        | Some _ => Raise TypeError
        | None => Raise KeyError
        end
    | Some _ => Raise TypeError
    | None => Raise KeyError
    end.
Proof.
  unfold set_input. cbn [update_at Py.getitem obind].
  destruct (Py.dict_get g node_id) as [[| | | | | |nd]|]; try reflexivity.
  cbn [obind Py.getitem].
  destruct (Py.dict_get nd "inputs") as [[| | | | | |i]|]; reflexivity.
Qed.

Lemma input_field_set_input_here g node_id k v nd i :
  Py.dict_get g node_id = Some (JDict nd) ->
  Py.dict_get nd "inputs" = Some (JDict i) ->
  input_field (set_input g node_id k v) node_id k = Some v.
Proof.
  intros Hn Hi. unfold set_input, input_field, node_field. rewrite Hn, Hi.
  rewrite dict_get_set_eq. cbn [field]. rewrite dict_get_set_eq.
  cbn [field]. apply dict_get_set_eq.
Qed.

Lemma extends_refl g : extends g g.
Proof.
  intros node_id. destruct (Py.dict_get g node_id) as [[| | | | | |nd]|];
    try reflexivity.
  by exists nd.
Qed.

Lemma extends_trans g1 g2 g3 : extends g1 g2 -> extends g2 g3 -> extends g1 g3.
Proof.
  intros H12 H23 node_id. specialize (H12 node_id). specialize (H23 node_id).
  destruct (Py.dict_get g1 node_id) as [[| | | | | |nd]|].
  1-6: rewrite H12 in H23; exact H23.
  - destruct H12 as (nd2 & H2 & Hc2 & Hi2). rewrite H2 in H23.
    destruct H23 as (nd3 & H3 & Hc3 & Hi3).
    exists nd3. split; [exact H3|]. split; [congruence|auto].
  - rewrite H12 in H23. exact H23.
Qed.

Lemma extends_node g node_id nd nd' :
  Py.dict_get g node_id = Some (JDict nd) ->
  Py.dict_get nd' "class_type" = Py.dict_get nd "class_type" ->
  (Py.dict_get nd "inputs" <> None -> Py.dict_get nd' "inputs" <> None) ->
  extends g (Py.dict_set g node_id (JDict nd')).
Proof.
  intros Hn Hc Hi other.
  destruct (String.eqb_spec node_id other) as [<-|Hne].
  - rewrite Hn, dict_get_set_eq. by exists nd'.
  - rewrite dict_get_set_ne by assumption. apply extends_refl.
Qed.

Lemma extends_set_input g node_id k v : extends g (set_input g node_id k v).
Proof.
  unfold set_input.
  destruct (Py.dict_get g node_id) as [[| | | | | |nd]|] eqn:Hn;
    try apply extends_refl.
  destruct (Py.dict_get nd "inputs") as [[| | | | | |i]|] eqn:Hi;
    try apply extends_refl.
  apply (extends_node g node_id nd); [assumption| |].
  - by rewrite dict_get_set_ne.
  - intros _. by rewrite dict_get_set_eq.
Qed.

Lemma extends_has g g' node_id :
  extends g g' -> Py.dict_has g' node_id = Py.dict_has g node_id.
Proof.
  intros H. specialize (H node_id). unfold Py.dict_has.
  destruct (Py.dict_get g node_id) as [[| | | | | |nd]|].
  1-6: by rewrite H.
  - by destruct H as (nd' & -> & _).
  - by rewrite H.
Qed.

Lemma has_inputs_extends g g' node :
  extends g g' -> has_inputs g node = true -> has_inputs g' node = true.
Proof.
  intros H. unfold has_inputs. destruct node as [node_id|]; [|done].
  rewrite (extends_has g g' node_id H). specialize (H node_id).
  destruct (Py.truthy (Some node_id) && Py.dict_has g node_id); [|done].
  cbn [negb orb]. unfold node_field.
  destruct (Py.dict_get g node_id) as [[| | | | | |nd]|]; try discriminate.
  destruct H as (nd' & -> & _ & Hi). cbn [field].
  destruct (Py.dict_get nd "inputs"); [|discriminate]. intros _.
  destruct (Py.dict_get nd' "inputs"); [reflexivity|]. by destruct Hi.
Qed.

Lemma sampler_ok_extends g g' sid :
  extends g g' -> sampler_ok g sid = true -> sampler_ok g' sid = true.
Proof.
  intros H. specialize (H sid). unfold sampler_ok.
  destruct (Py.dict_get g sid) as [[| | | | | |nd]|]; try discriminate.
  - destruct H as (nd' & -> & -> & _). done.
  - by rewrite H.
Qed.

Lemma enforceable_lookup g node_id nd :
  enforceable g = true ->
  Py.dict_get g node_id = Some (JDict nd) ->
  node_with seed_entry_ok false (JDict nd) = true.
Proof.
  unfold enforceable. rewrite forallb_forall. intros Hg Hn.
  apply (Hg _ (dict_get_In _ _ _ Hn)).
Qed.

Lemma enforceable_set_input g node_id k v :
  enforceable g = true ->
  seed_entry_ok (k, v) = true ->
  enforceable (set_input g node_id k v) = true.
Proof.
  intros Hg Hv. unfold set_input.
  destruct (Py.dict_get g node_id) as [[| | | | | |nd]|] eqn:Hn;
    try assumption.
  destruct (Py.dict_get nd "inputs") as [[| | | | | |i]|] eqn:Hi;
    try assumption.
  pose proof (enforceable_lookup g node_id nd Hg Hn) as Hnode.
  cbn [node_with] in Hnode. rewrite Hi in Hnode.
  apply andb_true_iff in Hnode as [Hc Hs].
  apply forallb_dict_set; [assumption|]. cbn [snd node_with].
  rewrite dict_get_set_eq, dict_get_set_ne by discriminate.
  rewrite Hc. cbn [andb]. by apply forallb_dict_set.
Qed.

Lemma write_prompt_run o g node fld text w :
  holds o g w ->
  write_prompt o node fld text w
  = match node with
    | Some node_id =>
        if Py.truthy node && Py.dict_has g node_id then
          match update_at (JDict g) [node_id; "inputs"] fld (JStr text) with
          | Ok x' => (Ok tt, put o x' w)
          | Raise e => (Raise e, w)
          end
        else (Ok tt, w)
    | None => (Ok tt, w)
    end.
Proof.
  intros Ho. unfold write_prompt. destruct node as [node_id|]; [|reflexivity].
  destruct (Py.truthy (Some node_id)); [|reflexivity]. cbn [andb].
  unfold bind at 1. unfold read at 1. rewrite Ho.
  unfold bind at 1. unfold lift at 1. cbn [Py.py_in].
  destruct (Py.dict_has g node_id); [|reflexivity].
  by apply assign_run.
Qed.

Lemma write_image_run o g mapping image w :
  holds o g w ->
  write_image o mapping image w
  = match image, load_image_node mapping with
    | Some filename, Some node_id =>
        if Py.truthy image && Py.truthy (load_image_node mapping)
           && Py.dict_has g node_id then
          match update_at (JDict g) [node_id; "inputs"] "image"
                  (JStr filename) with
          | Ok x' => (Ok tt, put o x' w)
          | Raise e => (Raise e, w)
          end
        else (Ok tt, w)
    | _, _ => (Ok tt, w)
    end.
Proof.
  intros Ho. unfold write_image. destruct image as [filename|]; [|reflexivity].
  destruct (load_image_node mapping) as [node_id|]; [|reflexivity].
  destruct (Py.truthy (Some filename) && Py.truthy (Some node_id));
    [|reflexivity].
  cbn [andb].
  unfold bind at 1. unfold read at 1. rewrite Ho.
  unfold bind at 1. unfold lift at 1. cbn [Py.py_in].
  destruct (Py.dict_has g node_id); [|reflexivity].
  by apply assign_run.
Qed.

Lemma update_create g sid node v :
  Py.dict_get g sid = Some node ->
  update_at (JDict g) [sid] "inputs" v
  = match Py.setitem node "inputs" v with
    | Ok node1 => Ok (JDict (Py.dict_set g sid node1))
    | Raise e => Raise e
    end.
Proof.
  intros Hn. cbn [update_at Py.getitem obind]. rewrite Hn. cbn [obind].
  by destruct (Py.setitem node "inputs" v).
Qed.

Lemma write_seed_run o g S sid w :
  holds o g w ->
  write_seed o S tt sid w
  = match Py.dict_get g sid with
    | None => (Ok tt, w)
    | Some node =>
        match Py.py_in "inputs" node with
        | Raise e => (Raise e, w)
        | Ok true =>
            match update_at (JDict g) [sid; "inputs"] "seed" (JInt S) with
            | Ok x' => (Ok tt, put o x' w)
            | Raise e => (Raise e, w)
            end
        | Ok false =>
            match Py.setitem node "inputs" (JDict []) with
            | Raise e => (Raise e, w)
            | Ok node1 =>
                match update_at (JDict (Py.dict_set g sid node1))
                        [sid; "inputs"] "seed" (JInt S) with
                | Ok x' =>
                    (Ok tt,
                     put o x' (put o (JDict (Py.dict_set g sid node1)) w))
                | Raise e =>
                    (Raise e, put o (JDict (Py.dict_set g sid node1)) w)
                end
            end
        end
    end.
Proof.
  intros Ho. unfold write_seed.
  unfold bind at 1. unfold read at 1. rewrite Ho.
  unfold bind at 1. unfold lift at 1. cbn [Py.py_in]. unfold Py.dict_has.
  destruct (Py.dict_get g sid) as [node|] eqn:Hn; [|reflexivity].
  unfold bind at 1. unfold lift at 1. cbn [Py.getitem]. rewrite Hn.
  unfold bind at 1. unfold lift at 1.
  destruct (Py.py_in "inputs" node) as [[]|e]; [| |reflexivity].
  - unfold bind at 1. unfold ret at 1. by apply assign_run.
  - cbn [negb]. unfold bind at 1.
    rewrite (assign_run o (JDict g)) by exact Ho.
    rewrite (update_create g sid node) by exact Hn.
    destruct (Py.setitem node "inputs" (JDict [])) as [node1|e] eqn:Hset;
      [|reflexivity].
    destruct node1 as [| | | | | |nd1];
      try (by destruct node; discriminate).
    apply assign_run. apply (holds_put o g _ w Ho).
Qed.

(** A guarded write of a string either leaves the graph or sets one
    input of one node. *)
Lemma write_prompt_inv o g node fld text w w' :
  holds o g w ->
  write_prompt o node fld text w = (Ok tt, w') ->
  exists g',
    holds o g' w'
    /\ (g' = g \/ exists node_id, g' = set_input g node_id fld (JStr text)).
Proof.
  intros Ho. rewrite (write_prompt_run o g) by exact Ho.
  destruct node as [node_id|]; [|intros [= <-]; exists g; auto].
  destruct (_ && _); [|intros [= <-]; exists g; auto].
  rewrite update_input_cases.
  destruct (Py.dict_get g node_id) as [[| | | | | |nd]|]; try discriminate.
  destruct (Py.dict_get nd "inputs") as [[| | | | | |i]|]; try discriminate.
  intros [= <-]. exists (set_input g node_id fld (JStr text)).
  split; [by apply (holds_put o g)|]. right. by exists node_id.
Qed.

Lemma write_image_inv o g mapping image w w' :
  holds o g w ->
  write_image o mapping image w = (Ok tt, w') ->
  exists g',
    holds o g' w'
    /\ (g' = g
        \/ exists node_id filename,
             g' = set_input g node_id "image" (JStr filename)).
Proof.
  intros Ho. rewrite (write_image_run o g) by exact Ho.
  destruct image as [filename|]; [|intros [= <-]; exists g; auto].
  destruct (load_image_node mapping) as [node_id|];
    [|intros [= <-]; exists g; auto].
  destruct (_ && _); [|intros [= <-]; exists g; auto].
  rewrite update_input_cases.
  destruct (Py.dict_get g node_id) as [[| | | | | |nd]|]; try discriminate.
  destruct (Py.dict_get nd "inputs") as [[| | | | | |i]|]; try discriminate.
  intros [= <-]. exists (set_input g node_id "image" (JStr filename)).
  split; [by apply (holds_put o g)|]. right. by exists node_id, filename.
Qed.

Lemma write_seed_inv o g S sid w w' :
  holds o g w ->
  write_seed o S tt sid w = (Ok tt, w') ->
  exists g',
    holds o g' w'
    /\ (forall node_id, Py.dict_has g' node_id = Py.dict_has g node_id)
    /\ (Py.dict_has g sid = true -> seeded S g' sid)
    /\ (forall sid', seeded S g sid' -> seeded S g' sid').
Proof.
  intros Ho. rewrite (write_seed_run o g) by exact Ho.
  destruct (Py.dict_get g sid) as [node|] eqn:Hn.
  2:{ intros [= <-]. exists g. repeat split; auto.
      unfold Py.dict_has. by rewrite Hn. }
  destruct (Py.py_in "inputs" node) as [[]|e] eqn:Hin; [| |discriminate].
  - rewrite update_input_cases, Hn.
    destruct node as [| | | | | |nd]; try discriminate.
    destruct (Py.dict_get nd "inputs") as [[| | | | | |i]|] eqn:Hi;
      try discriminate.
    intros [= <-]. exists (set_input g sid "seed" (JInt S)).
    split; [by apply (holds_put o g)|]. split; [|split].
    + intros node_id. apply dict_has_set_input.
    + intros _. by apply (input_field_set_input_here g sid _ _ nd i).
    + intros sid' Hs. by apply input_field_set_input_keep.
  - destruct node as [| | | | | |nd]; try discriminate.
    cbn [Py.setitem]. cbn [Py.py_in] in Hin. injection Hin as Hin.
    unfold Py.dict_has in Hin.
    destruct (Py.dict_get nd "inputs") eqn:Hi; [discriminate|].
    set (nd1 := Py.dict_set nd "inputs" (JDict [])).
    set (g1 := Py.dict_set g sid (JDict nd1)).
    assert (Py.dict_get g1 sid = Some (JDict nd1)) as Hn1
      by apply dict_get_set_eq.
    assert (Py.dict_get nd1 "inputs" = Some (JDict [])) as Hi1
      by apply dict_get_set_eq.
    rewrite update_input_cases, Hn1, Hi1.
    intros [= <-]. exists (set_input g1 sid "seed" (JInt S)).
    split; [|split; [|split]].
    + apply (holds_put o g1). by apply (holds_put o g).
    + intros node_id. rewrite dict_has_set_input. apply dict_has_set.
      unfold Py.dict_has. by rewrite Hn.
    + intros _. by apply (input_field_set_input_here g1 sid _ _ nd1 []).
    + intros sid' Hs. apply input_field_set_input_keep; [|done].
      unfold seeded, input_field, node_field in Hs |- *.
      destruct (String.eqb_spec sid sid') as [<-|Hne].
      * rewrite Hn in Hs. cbn [field] in Hs. by rewrite Hi in Hs.
      * unfold g1. by rewrite dict_get_set_ne.
Qed.

Lemma write_seeds_inv o S sids :
  forall g w w',
  holds o g w ->
  for_eachM (write_seed o S) sids tt w = (Ok tt, w') ->
  exists g',
    holds o g' w'
    /\ (forall sid, In sid sids -> Py.dict_has g sid = true ->
          seeded S g' sid)
    /\ (forall sid, seeded S g sid -> seeded S g' sid).
Proof.
  induction sids as [|sid sids IH]; intros g w w' Ho.
  { intros [= <-]. exists g. split; [assumption|]. split; [intros ? []|auto]. }
  cbn [for_eachM]. unfold bind at 1.
  destruct (write_seed o S tt sid w) as [[[]|e] w1] eqn:Hrun; [|discriminate].
  destruct (write_seed_inv o g S sid w w1 Ho Hrun)
    as (g1 & Ho1 & Hhas1 & Hnew & Hold).
  intros Hrest.
  destruct (IH g1 w1 w' Ho1 Hrest) as (g' & Ho' & Hall & Hkeep).
  exists g'. split; [assumption|]. split.
  - intros sid' [<-|Hin] Hhas.
    + by apply Hkeep, Hnew.
    + apply Hall; [assumption|]. by rewrite Hhas1.
  - intros sid' Hs. by apply Hkeep, Hold.
Qed.

Lemma prepare_inv self workflow_index positive_prompt negative_prompt S
    image w wi g r w' :
  get_workflow self workflow_index = Some wi ->
  holds (workflow_data wi) g w ->
  prepare_workflow self workflow_index positive_prompt negative_prompt
    (Some S) image w = (Ok r, w') ->
  exists o g',
    r = (Some o, Some S, Some negative_prompt)
    /\ holds o g' w'
    /\ forall sid, In sid (sampler_nodes (node_mapping wi)) ->
         Py.dict_has g sid = true -> seeded S g' sid.
Proof.
  intros Hwi Ho. unfold prepare_workflow. rewrite Hwi.
  set (o := length (store w)).
  set (w0 := {| store := (store w ++ [JDict g])%list; rng := rng w |}).
  assert (Ho0 : holds o g w0).
  { unfold holds, w0, o. cbn [store]. by apply list_lookup_middle. }
  assert (Hcopy : deepcopy (workflow_data wi) w = (Ok o, w0)).
  { unfold deepcopy, bind, read, alloc. by rewrite Ho. }
  unfold bind at 1. rewrite Hcopy.
  unfold bind at 1.
  destruct (write_prompt o (positive_prompt_node (node_mapping wi)) _ _ w0)
    as [[[]|e] w1] eqn:Hrun1; [|discriminate].
  destruct (write_prompt_inv _ _ _ _ _ _ _ Ho0 Hrun1) as (g1 & Ho1 & Hg1).
  unfold bind at 1.
  destruct (write_prompt o (negative_prompt_node (node_mapping wi)) _ _ w1)
    as [[[]|e] w2] eqn:Hrun2; [|discriminate].
  destruct (write_prompt_inv _ _ _ _ _ _ _ Ho1 Hrun2) as (g2 & Ho2 & Hg2).
  unfold bind at 1. unfold ret at 1.
  unfold bind at 1.
  destruct (for_eachM (write_seed o S) _ tt w2) as [[[]|e] w3] eqn:Hrun3;
    [|discriminate].
  destruct (write_seeds_inv o S _ g2 w2 w3 Ho2 Hrun3)
    as (g3 & Ho3 & Hall & _).
  unfold bind at 1.
  destruct (write_image o (node_mapping wi) image w3) as [[[]|e] w4] eqn:Hrun4;
    [|discriminate].
  destruct (write_image_inv _ _ _ _ _ _ Ho3 Hrun4) as (g4 & Ho4 & Hg4).
  unfold ret. intros [= <- <-]. exists o, g4.
  split; [reflexivity|]. split; [assumption|].
  intros sid Hin Hhas.
  assert (seeded S g3 sid) as Hs.
  { apply Hall; [assumption|].
    destruct Hg2 as [->|[id2 ->]], Hg1 as [->|[id1 ->]];
      by rewrite ?dict_has_set_input. }
  destruct Hg4 as [->|(id4 & filename & ->)]; [assumption|].
  apply input_field_set_input_keep; [assumption|]. discriminate.
Qed.

Lemma has_inputs_update g node_id k v :
  enforceable g = true ->
  has_inputs g (Some node_id) = true ->
  Py.truthy (Some node_id) && Py.dict_has g node_id = true ->
  update_at (JDict g) [node_id; "inputs"] k v
  = Ok (JDict (set_input g node_id k v)).
Proof.
  intros Hg Hhas Hcond. unfold has_inputs in Hhas. rewrite Hcond in Hhas.
  cbn [negb orb] in Hhas. unfold node_field in Hhas.
  rewrite update_input_cases.
  destruct (Py.dict_get g node_id) as [[| | | | | |nd]|] eqn:Hn;
    try discriminate.
  cbn [field] in Hhas.
  pose proof (enforceable_lookup g node_id nd Hg Hn) as Hnode.
  cbn [node_with] in Hnode.
  destruct (Py.dict_get nd "inputs") as [[| | | | | |i]|];
    try discriminate. reflexivity.
Qed.

Lemma write_prompt_total o g node fld text w :
  holds o g w ->
  enforceable g = true ->
  has_inputs g node = true ->
  exists g' w',
    write_prompt o node fld text w = (Ok tt, w')
    /\ holds o g' w'
    /\ enforceable g' = true
    /\ extends g g'.
Proof.
  intros Ho Hg Hhas. rewrite (write_prompt_run o g) by exact Ho.
  destruct node as [node_id|];
    [|exists g, w; repeat split; auto using extends_refl].
  destruct (Py.truthy (Some node_id) && Py.dict_has g node_id) eqn:Hcond;
    [|exists g, w; repeat split; auto using extends_refl].
  rewrite (has_inputs_update g node_id) by assumption.
  exists (set_input g node_id fld (JStr text)). eexists.
  split; [reflexivity|]. split; [by apply (holds_put o g)|]. split.
  - apply enforceable_set_input; [assumption | apply seed_entry_ok_str].
  - apply extends_set_input.
Qed.

Lemma write_image_total o g mapping image w :
  holds o g w ->
  enforceable g = true ->
  negb (Py.truthy image) || has_inputs g (load_image_node mapping) = true ->
  exists g' w',
    write_image o mapping image w = (Ok tt, w')
    /\ holds o g' w'
    /\ enforceable g' = true.
Proof.
  intros Ho Hg Hhas. rewrite (write_image_run o g) by exact Ho.
  destruct image as [filename|]; [|by exists g, w].
  destruct (load_image_node mapping) as [node_id|]; [|by exists g, w].
  destruct (Py.truthy (Some filename)) eqn:Hf; [|by exists g, w].
  cbn [negb orb andb] in Hhas |- *.
  destruct (Py.truthy (Some node_id) && Py.dict_has g node_id) eqn:Hcond;
    [|by exists g, w].
  rewrite (has_inputs_update g node_id) by assumption.
  exists (set_input g node_id "image" (JStr filename)). eexists.
  split; [reflexivity|]. split; [by apply (holds_put o g)|].
  apply enforceable_set_input; [assumption | apply seed_entry_ok_str].
Qed.

Lemma write_seed_total o g S sid w :
  holds o g w ->
  enforceable g = true ->
  sampler_ok g sid = true ->
  exists g' w',
    write_seed o S tt sid w = (Ok tt, w')
    /\ holds o g' w'
    /\ enforceable g' = true
    /\ extends g g'.
Proof.
  intros Ho Hg Hs. rewrite (write_seed_run o g) by exact Ho.
  unfold sampler_ok in Hs.
  destruct (Py.dict_get g sid) as [node|] eqn:Hn;
    [|exists g, w; repeat split; auto using extends_refl].
  destruct node as [| | | | | |nd]; try discriminate.
  pose proof (enforceable_lookup g sid nd Hg Hn) as Hnode.
  cbn [node_with] in Hnode. cbn [Py.py_in]. unfold Py.dict_has.
  destruct (Py.dict_get nd "inputs") as [[| | | | | |i]|] eqn:Hi;
    try discriminate.
  - rewrite update_input_cases, Hn, Hi.
    exists (set_input g sid "seed" (JInt S)). eexists.
    split; [reflexivity|]. split; [by apply (holds_put o g)|]. split.
    + apply enforceable_set_input; [assumption | apply seed_entry_ok_int].
    + apply extends_set_input.
  - cbn [Py.setitem].
    set (nd1 := Py.dict_set nd "inputs" (JDict [])).
    set (g1 := Py.dict_set g sid (JDict nd1)).
    assert (Py.dict_get g1 sid = Some (JDict nd1)) as Hn1
      by apply dict_get_set_eq.
    assert (Py.dict_get nd1 "inputs" = Some (JDict [])) as Hi1
      by apply dict_get_set_eq.
    assert (Py.dict_get nd1 "class_type" = Py.dict_get nd "class_type")
      as Hc1 by (by apply dict_get_set_ne).
    rewrite update_input_cases, Hn1, Hi1.
    assert (enforceable g1 = true) as Hg1.
    { apply forallb_dict_set; [assumption|]. cbn [snd node_with].
      rewrite Hi1, Hc1, Hs. reflexivity. }
    exists (set_input g1 sid "seed" (JInt S)). eexists.
    split; [reflexivity|]. split; [|split].
    + apply (holds_put o g1). by apply (holds_put o g).
    + apply enforceable_set_input; [assumption | apply seed_entry_ok_int].
    + apply (extends_trans g g1).
      * apply (extends_node g sid nd); [assumption|assumption|].
        intros _. by rewrite Hi1.
      * apply extends_set_input.
Qed.

Lemma write_seeds_total o S sids :
  forall g w,
  holds o g w ->
  enforceable g = true ->
  forallb (sampler_ok g) sids = true ->
  exists g' w',
    for_eachM (write_seed o S) sids tt w = (Ok tt, w')
    /\ holds o g' w'
    /\ enforceable g' = true
    /\ extends g g'.
Proof.
  induction sids as [|sid sids IH]; intros g w Ho Hg Hs.
  { exists g, w. repeat split; auto using extends_refl. }
  cbn [forallb] in Hs. apply andb_true_iff in Hs as [Hsid Hs].
  destruct (write_seed_total o g S sid w Ho Hg Hsid)
    as (g1 & w1 & Hrun & Ho1 & Hg1 & Hext1).
  destruct (IH g1 w1 Ho1 Hg1) as (g' & w' & Hrest & Ho' & Hg' & Hext').
  { rewrite forallb_forall in Hs |- *. intros x Hx.
    apply (sampler_ok_extends g g1); [assumption|]. by apply Hs. }
  exists g', w'. cbn [for_eachM]. unfold bind at 1. rewrite Hrun.
  repeat split; try assumption. by apply (extends_trans g g1).
Qed.

Lemma prepare_total self workflow_index positive_prompt negative_prompt S
    image w wi g :
  get_workflow self workflow_index = Some wi ->
  holds (workflow_data wi) g w ->
  preparable g (node_mapping wi) image = true ->
  exists o g' w',
    prepare_workflow self workflow_index positive_prompt negative_prompt
      (Some S) image w
    = (Ok (Some o, Some S, Some negative_prompt), w')
    /\ holds o g' w'
    /\ enforceable g' = true.
Proof.
  intros Hwi Ho Hp. unfold preparable in Hp.
  apply andb_true_iff in Hp as [Hp Hsam].
  apply andb_true_iff in Hp as [Hp Himg].
  apply andb_true_iff in Hp as [Hp Hneg].
  apply andb_true_iff in Hp as [Hg Hpos].
  unfold prepare_workflow. rewrite Hwi.
  set (o := length (store w)).
  set (w0 := {| store := (store w ++ [JDict g])%list; rng := rng w |}).
  assert (Ho0 : holds o g w0).
  { unfold holds, w0, o. cbn [store]. by apply list_lookup_middle. }
  assert (Hcopy : deepcopy (workflow_data wi) w = (Ok o, w0)).
  { unfold deepcopy, bind, read, alloc. by rewrite Ho. }
  unfold bind at 1. rewrite Hcopy.
  destruct (write_prompt_total o g (positive_prompt_node (node_mapping wi))
              (positive_prompt_field (node_mapping wi)) positive_prompt
              w0 Ho0 Hg Hpos) as (g1 & w1 & Hrun1 & Ho1 & Hg1 & He1).
  unfold bind at 1. rewrite Hrun1.
  destruct (write_prompt_total o g1 (negative_prompt_node (node_mapping wi))
              (negative_prompt_field (node_mapping wi)) negative_prompt
              w1 Ho1 Hg1) as (g2 & w2 & Hrun2 & Ho2 & Hg2 & He2).
  { by apply (has_inputs_extends g g1). }
  unfold bind at 1. rewrite Hrun2.
  unfold bind at 1. unfold ret at 1.
  assert (extends g g2) as He by (by apply (extends_trans g g1)).
  destruct (write_seeds_total o S (sampler_nodes (node_mapping wi)) g2 w2
              Ho2 Hg2) as (g3 & w3 & Hrun3 & Ho3 & Hg3 & He3).
  { rewrite forallb_forall in Hsam |- *. intros x Hx.
    apply (sampler_ok_extends g g2); [assumption|]. by apply Hsam. }
  unfold bind at 1. rewrite Hrun3.
  destruct (write_image_total o g3 (node_mapping wi) image w3 Ho3 Hg3)
    as (g4 & w4 & Hrun4 & Ho4 & Hg4).
  { destruct (negb (Py.truthy image)); [reflexivity|]. cbn [orb] in Himg |- *.
    apply (has_inputs_extends g g3); [|assumption].
    by apply (extends_trans g g2). }
  unfold bind at 1. rewrite Hrun4. unfold ret.
  by exists o, g4, w4.
Qed.

(** C1 (amended): for every template and every caller-supplied seed [S]
    other than the sentinel -1, whenever the preparer followed by the
    enforcer returns, the seed returned is [S] and every sampler of the
    role mapping's sampler list that is a node of the template carries
    exactly [S] in its seed field.  They do return on every template that
    the enforcer can scan, entries that are not dictionaries and samplers
    without inputs included, in which the prompt nodes, and the
    load-image node when an image is supplied, have an inputs entry. *)
Theorem prepare_then_enforce_keeps_caller_seed (self : WorkflowParser)
    (workflow_index : Z) (positive_prompt negative_prompt : string) (S : Z)
    (input_image_filename : option string) (w : world) (wi : WorkflowInfo)
    (g : dict) :
  workflows self !! workflow_index = Some wi ->
  store w !! workflow_data wi = Some (JDict g) ->
  S <> -1 ->
  (forall r w',
      prepare_and_enforce self workflow_index positive_prompt
        negative_prompt (Some S) input_image_filename w = (Ok r, w') ->
      exists fixed,
        r = Some (JDict fixed, Some S)
        /\ forall sid,
             In sid (sampler_nodes (node_mapping wi)) ->
             Py.dict_has g sid = true ->
             input_field fixed sid "seed" = Some (JInt S))
  /\ (preparable g (node_mapping wi) input_image_filename = true ->
      exists fixed w',
        prepare_and_enforce self workflow_index positive_prompt
          negative_prompt (Some S) input_image_filename w
        = (Ok (Some (JDict fixed, Some S)), w')).
Proof.
  intros Hwi Hstore HS. split.
  - intros r w'. unfold prepare_and_enforce. unfold bind at 1.
    destruct (prepare_workflow _ _ _ _ _ _ w) as [[r0|e] w1] eqn:Hprep;
      [|discriminate].
    destruct (prepare_inv _ _ _ _ _ _ _ _ _ _ _ Hwi Hstore Hprep)
      as (o & g1 & -> & Ho1 & Hseeds).
    unfold bind at 1. unfold read at 1. rewrite Ho1.
    unfold bind at 1.
    destruct (_enforce_deterministic_workflow (JDict g1) w1)
      as [[[fixed s]|e] w2] eqn:Henf; [|discriminate].
    unfold ret. intros [= <- <-].
    assert (exists nodes, fixed = JDict nodes) as [nodes ->].
    { unfold _enforce_deterministic_workflow, bind, ret in Henf.
      destruct (enforce_nodes g1 _ w1) as [[[nodes sd]|e] w3];
        [|discriminate].
      injection Henf as <- _ _. by exists nodes. }
    exists nodes. split; [reflexivity|]. intros sid Hin Hhas.
    apply (enforce_input_frame _ _ _ _ _ Henf).
    + by apply Hseeds.
    + intros _. unfold kept_seed. cbn.
      destruct (Z.eqb_spec S (-1)); [contradiction | reflexivity].
    + discriminate.
  - intros Hp.
    destruct (prepare_total self workflow_index positive_prompt
                negative_prompt S input_image_filename w wi g Hwi Hstore Hp)
      as (o & g1 & w1 & Hprep & Ho1 & Hg1).
    destruct (enforce_total false g1 w1 Hg1) as (fixed & s & w2 & Henf).
    exists fixed, w2. unfold prepare_and_enforce. unfold bind at 1.
    rewrite Hprep. unfold bind at 1. unfold read at 1. rewrite Ho1.
    unfold bind at 1. rewrite Henf. reflexivity.
Qed.

Lemma prepare_then_enforce_witness :
  exists fixed w',
    prepare_and_enforce commented_parser 1 "a cat" "blurry" (Some 7) None
      commented_world
    = (Ok (Some (JDict fixed, Some 7)), w')
    /\ forall sid,
         In sid (sampler_nodes (node_mapping commented_info)) ->
         Py.dict_has commented_graph sid = true ->
         input_field fixed sid "seed" = Some (JInt 7).
Proof.
  destruct (prepare_then_enforce_keeps_caller_seed commented_parser 1
              "a cat" "blurry" 7 None commented_world commented_info
              commented_graph eq_refl eq_refl ltac:(lia))
    as [Hkeeps Hreturns].
  destruct (Hreturns eq_refl) as (fixed & w' & Hrun).
  exists fixed, w'. split; [exact Hrun|].
  destruct (Hkeeps _ _ Hrun) as (fixed' & Heq & Hseeds).
  injection Heq as <-. exact Hseeds.
Defined.
